(** * Product review automation: the script-section parser, the product record
    store, the cost estimate and the storyboard renderer, embedded from the
    Python sources and verified against their specification. *)

From Stdlib Require Import Ascii String DecimalString PrimFloat.
From Stdlib Require Import NArith ZArith Bool List Lia.
From Stdlib Require Import Uint63 FloatOps FloatAxioms SpecFloat.
Set Warnings "-inexact-float".
Import ListNotations.

(** ** Python built-ins used by the sources

    A Python [str] is a sequence of Unicode code points; [len], [+], [in],
    [split], [join], [strip], [upper] and [lower] act on code points, so the
    model is [list N].  Literals are written as Rocq strings (UTF-8 bytes) and
    decoded. *)
Module Py.

Local Open Scope N_scope.

Definition str := list N.

Fixpoint utf8_decode (bs : list N) : str :=
  match bs with
  | [] => []
  | b0 :: r0 =>
      if b0 <? 128 then b0 :: utf8_decode r0
      else match r0 with
      | [] => []
      | b1 :: r1 =>
          if b0 <? 224 then ((b0 - 192) * 64 + (b1 - 128)) :: utf8_decode r1
          else match r1 with
          | [] => []
          | b2 :: r2 =>
              if b0 <? 240
              then ((b0 - 224) * 4096 + (b1 - 128) * 64 + (b2 - 128)) :: utf8_decode r2
              else match r2 with
              | [] => []
              | b3 :: r3 =>
                  ((b0 - 240) * 262144 + (b1 - 128) * 4096
                   + (b2 - 128) * 64 + (b3 - 128)) :: utf8_decode r3
              end
          end
      end
  end.

(** [lit "..."] is the Python literal with the same text. *)
Definition lit (s : string) : str :=
  utf8_decode (map N_of_ascii (list_ascii_of_string s)).

Definition dquote : str := [34].
Definition newline : N := 10.
Definition nl : str := [newline].

Fixpoint str_eqb (a b : str) : bool :=
  match a, b with
  | [], [] => true
  | x :: a', y :: b' => (x =? y) && str_eqb a' b'
  | _, _ => false
  end.

(** [str.isspace] of one character (CPython 3.11, Unicode 14.0). *)
Definition whitespace : list N :=
  [9; 10; 11; 12; 13; 28; 29; 30; 31; 32; 133; 160; 5760;
   8192; 8193; 8194; 8195; 8196; 8197; 8198; 8199; 8200; 8201; 8202;
   8232; 8233; 8239; 8287; 12288].

Definition is_space (c : N) : bool := existsb (N.eqb c) whitespace.

(** [s.lstrip()], [s.rstrip()], [s.strip()]. *)
Fixpoint lstrip (s : str) : str :=
  match s with
  | [] => []
  | c :: r => if is_space c then lstrip r else s
  end.

Fixpoint rstrip (s : str) : str :=
  match s with
  | [] => []
  | c :: r =>
      match rstrip r with
      | [] => if is_space c then [] else [c]
      | r' => c :: r'
      end
  end.

Definition strip (s : str) : str := rstrip (lstrip s).

(** [s.upper()]: the full (context-free) Unicode upper-case mapping, one
    character at a time.  [upper_ranges] lists the characters with a
    one-character image as [(lo, hi, step, image of lo)]: every [c] with
    [lo <= c <= hi] and [step] dividing [c - lo] maps to [image + (c - lo)].
    [upper_special] lists the characters whose image is longer (SpecialCasing),
    such as U+00DF to SS.  Tables of Unicode 14.0, as CPython 3.11 ships them. *)
Definition upper_ranges : list (N * N * N * N) :=
  [
    (97, 122, 1, 65); (181, 181, 1, 924); (224, 246, 1, 192); (248, 254, 1, 216);
    (255, 255, 1, 376); (257, 303, 2, 256); (305, 305, 1, 73); (307, 311, 2, 306);
    (314, 328, 2, 313); (331, 375, 2, 330); (378, 382, 2, 377); (383, 383, 1, 83);
    (384, 384, 1, 579); (387, 389, 2, 386); (392, 392, 1, 391); (396, 396, 1, 395);
    (402, 402, 1, 401); (405, 405, 1, 502); (409, 409, 1, 408); (410, 410, 1, 573);
    (414, 414, 1, 544); (417, 421, 2, 416); (424, 424, 1, 423); (429, 429, 1, 428);
    (432, 432, 1, 431); (436, 438, 2, 435); (441, 441, 1, 440); (445, 445, 1, 444);
    (447, 447, 1, 503); (453, 453, 1, 452); (454, 454, 1, 452); (456, 456, 1, 455);
    (457, 457, 1, 455); (459, 459, 1, 458); (460, 460, 1, 458); (462, 476, 2, 461);
    (477, 477, 1, 398); (479, 495, 2, 478); (498, 498, 1, 497); (499, 499, 1, 497);
    (501, 501, 1, 500); (505, 543, 2, 504); (547, 563, 2, 546); (572, 572, 1, 571);
    (575, 576, 1, 11390); (578, 578, 1, 577); (583, 591, 2, 582); (592, 592, 1, 11375);
    (593, 593, 1, 11373); (594, 594, 1, 11376); (595, 595, 1, 385); (596, 596, 1, 390);
    (598, 599, 1, 393); (601, 601, 1, 399); (603, 603, 1, 400); (604, 604, 1, 42923);
    (608, 608, 1, 403); (609, 609, 1, 42924); (611, 611, 1, 404); (613, 613, 1, 42893);
    (614, 614, 1, 42922); (616, 616, 1, 407); (617, 617, 1, 406); (618, 618, 1, 42926);
    (619, 619, 1, 11362); (620, 620, 1, 42925); (623, 623, 1, 412); (625, 625, 1, 11374);
    (626, 626, 1, 413); (629, 629, 1, 415); (637, 637, 1, 11364); (640, 640, 1, 422);
    (642, 642, 1, 42949); (643, 643, 1, 425); (647, 647, 1, 42929); (648, 648, 1, 430);
    (649, 649, 1, 580); (650, 651, 1, 433); (652, 652, 1, 581); (658, 658, 1, 439);
    (669, 669, 1, 42930); (670, 670, 1, 42928); (837, 837, 1, 921); (881, 883, 2, 880);
    (887, 887, 1, 886); (891, 893, 1, 1021); (940, 940, 1, 902); (941, 943, 1, 904);
    (945, 961, 1, 913); (962, 962, 1, 931); (963, 971, 1, 931); (972, 972, 1, 908);
    (973, 974, 1, 910); (976, 976, 1, 914); (977, 977, 1, 920); (981, 981, 1, 934);
    (982, 982, 1, 928); (983, 983, 1, 975); (985, 1007, 2, 984); (1008, 1008, 1, 922);
    (1009, 1009, 1, 929); (1010, 1010, 1, 1017); (1011, 1011, 1, 895); (1013, 1013, 1, 917);
    (1016, 1016, 1, 1015); (1019, 1019, 1, 1018); (1072, 1103, 1, 1040); (1104, 1119, 1, 1024);
    (1121, 1153, 2, 1120); (1163, 1215, 2, 1162); (1218, 1230, 2, 1217); (1231, 1231, 1, 1216);
    (1233, 1327, 2, 1232); (1377, 1414, 1, 1329); (4304, 4346, 1, 7312); (4349, 4351, 1, 7357);
    (5112, 5117, 1, 5104); (7296, 7296, 1, 1042); (7297, 7297, 1, 1044); (7298, 7298, 1, 1054);
    (7299, 7300, 1, 1057); (7301, 7301, 1, 1058); (7302, 7302, 1, 1066); (7303, 7303, 1, 1122);
    (7304, 7304, 1, 42570); (7545, 7545, 1, 42877); (7549, 7549, 1, 11363); (7566, 7566, 1, 42950);
    (7681, 7829, 2, 7680); (7835, 7835, 1, 7776); (7841, 7935, 2, 7840); (7936, 7943, 1, 7944);
    (7952, 7957, 1, 7960); (7968, 7975, 1, 7976); (7984, 7991, 1, 7992); (8000, 8005, 1, 8008);
    (8017, 8023, 2, 8025); (8032, 8039, 1, 8040); (8048, 8049, 1, 8122); (8050, 8053, 1, 8136);
    (8054, 8055, 1, 8154); (8056, 8057, 1, 8184); (8058, 8059, 1, 8170); (8060, 8061, 1, 8186);
    (8112, 8113, 1, 8120); (8126, 8126, 1, 921); (8144, 8145, 1, 8152); (8160, 8161, 1, 8168);
    (8165, 8165, 1, 8172); (8526, 8526, 1, 8498); (8560, 8575, 1, 8544); (8580, 8580, 1, 8579);
    (9424, 9449, 1, 9398); (11312, 11359, 1, 11264); (11361, 11361, 1, 11360); (11365, 11365, 1, 570);
    (11366, 11366, 1, 574); (11368, 11372, 2, 11367); (11379, 11379, 1, 11378); (11382, 11382, 1, 11381);
    (11393, 11491, 2, 11392); (11500, 11502, 2, 11499); (11507, 11507, 1, 11506); (11520, 11557, 1, 4256);
    (11559, 11559, 1, 4295); (11565, 11565, 1, 4301); (42561, 42605, 2, 42560); (42625, 42651, 2, 42624);
    (42787, 42799, 2, 42786); (42803, 42863, 2, 42802); (42874, 42876, 2, 42873); (42879, 42887, 2, 42878);
    (42892, 42892, 1, 42891); (42897, 42899, 2, 42896); (42900, 42900, 1, 42948); (42903, 42921, 2, 42902);
    (42933, 42947, 2, 42932); (42952, 42954, 2, 42951); (42961, 42961, 1, 42960); (42967, 42969, 2, 42966);
    (42998, 42998, 1, 42997); (43859, 43859, 1, 42931); (43888, 43967, 1, 5024); (65345, 65370, 1, 65313);
    (66600, 66639, 1, 66560); (66776, 66811, 1, 66736); (66967, 67003, 2, 66928); (66968, 66976, 2, 66929);
    (66980, 66992, 2, 66941); (66996, 67000, 2, 66957); (67004, 67004, 1, 66965); (68800, 68850, 1, 68736);
    (71872, 71903, 1, 71840); (93792, 93823, 1, 93760); (125218, 125251, 1, 125184)
  ].

Definition upper_special : list (N * list N) :=
  [
    (223, [83; 83]); (329, [700; 78]); (496, [74; 780]);
    (912, [921; 776; 769]); (944, [933; 776; 769]); (1415, [1333; 1362]);
    (7830, [72; 817]); (7831, [84; 776]); (7832, [87; 778]);
    (7833, [89; 778]); (7834, [65; 702]); (8016, [933; 787]);
    (8018, [933; 787; 768]); (8020, [933; 787; 769]); (8022, [933; 787; 834]);
    (8064, [7944; 921]); (8065, [7945; 921]); (8066, [7946; 921]);
    (8067, [7947; 921]); (8068, [7948; 921]); (8069, [7949; 921]);
    (8070, [7950; 921]); (8071, [7951; 921]); (8072, [7944; 921]);
    (8073, [7945; 921]); (8074, [7946; 921]); (8075, [7947; 921]);
    (8076, [7948; 921]); (8077, [7949; 921]); (8078, [7950; 921]);
    (8079, [7951; 921]); (8080, [7976; 921]); (8081, [7977; 921]);
    (8082, [7978; 921]); (8083, [7979; 921]); (8084, [7980; 921]);
    (8085, [7981; 921]); (8086, [7982; 921]); (8087, [7983; 921]);
    (8088, [7976; 921]); (8089, [7977; 921]); (8090, [7978; 921]);
    (8091, [7979; 921]); (8092, [7980; 921]); (8093, [7981; 921]);
    (8094, [7982; 921]); (8095, [7983; 921]); (8096, [8040; 921]);
    (8097, [8041; 921]); (8098, [8042; 921]); (8099, [8043; 921]);
    (8100, [8044; 921]); (8101, [8045; 921]); (8102, [8046; 921]);
    (8103, [8047; 921]); (8104, [8040; 921]); (8105, [8041; 921]);
    (8106, [8042; 921]); (8107, [8043; 921]); (8108, [8044; 921]);
    (8109, [8045; 921]); (8110, [8046; 921]); (8111, [8047; 921]);
    (8114, [8122; 921]); (8115, [913; 921]); (8116, [902; 921]);
    (8118, [913; 834]); (8119, [913; 834; 921]); (8124, [913; 921]);
    (8130, [8138; 921]); (8131, [919; 921]); (8132, [905; 921]);
    (8134, [919; 834]); (8135, [919; 834; 921]); (8140, [919; 921]);
    (8146, [921; 776; 768]); (8147, [921; 776; 769]); (8150, [921; 834]);
    (8151, [921; 776; 834]); (8162, [933; 776; 768]); (8163, [933; 776; 769]);
    (8164, [929; 787]); (8166, [933; 834]); (8167, [933; 776; 834]);
    (8178, [8186; 921]); (8179, [937; 921]); (8180, [911; 921]);
    (8182, [937; 834]); (8183, [937; 834; 921]); (8188, [937; 921]);
    (64256, [70; 70]); (64257, [70; 73]); (64258, [70; 76]);
    (64259, [70; 70; 73]); (64260, [70; 70; 76]); (64261, [83; 84]);
    (64262, [83; 84]); (64275, [1348; 1350]); (64276, [1348; 1333]);
    (64277, [1348; 1339]); (64278, [1358; 1350]); (64279, [1348; 1341])
  ].

Definition in_range (c : N) (e : N * N * N * N) : bool :=
  let '(lo, hi, step, _) := e in
  (lo <=? c) && (c <=? hi) && ((c - lo) mod step =? 0).

Definition upper_char (c : N) : str :=
  match find (fun e => fst e =? c) upper_special with
  | Some (_, u) => u
  | None =>
      match find (in_range c) upper_ranges with
      | Some (lo, _, _, ulo) => [ulo + (c - lo)]
      | None => [c]
      end
  end.

Definition upper (s : str) : str := flat_map upper_char s.

(** [s.lower()] for ASCII text: the sources call it on the seven ASCII marker
    literals only, where the mapping is A-Z to a-z and nothing else. *)
Definition lower_char (c : N) : N :=
  if (65 <=? c) && (c <=? 90) then c + 32 else c.

Definition lower (s : str) : str := map lower_char s.

(** [needle in hay]. *)
Fixpoint startswith (s prefix : str) : bool :=
  match prefix, s with
  | [], _ => true
  | p :: prefix', c :: s' => (c =? p) && startswith s' prefix'
  | _ :: _, [] => false
  end.

Fixpoint contains (needle hay : str) : bool :=
  startswith hay needle ||
  match hay with
  | [] => false
  | _ :: hay' => contains needle hay'
  end.

(** [s.split(sep)] for a one-character separator: never the empty list. *)
Fixpoint split (sep : N) (s : str) : list str :=
  match s with
  | [] => [[]]
  | c :: r =>
      if c =? sep then [] :: split sep r
      else match split sep r with
           | [] => [[c]]
           | l :: ls => (c :: l) :: ls
           end
  end.

(** [s.split(sep, 1)]: cut at the first separator only. *)
Fixpoint split1 (sep : N) (s : str) : list str :=
  match s with
  | [] => [[]]
  | c :: r =>
      if c =? sep then [[]; r]
      else match split1 sep r with
           | [] => [[c]]
           | l :: ls => (c :: l) :: ls
           end
  end.

(** [l[-1]] of a list that is not empty. *)
Definition last_item (l : list str) : str := last l [].

(** [sep.join(l)]. *)
Fixpoint join (sep : str) (l : list str) : str :=
  match l with
  | [] => []
  | [x] => x
  | x :: r => x ++ sep ++ join sep r
  end.

(** A [dict] with [str] keys: insertion-ordered, an assignment to a key that is
    present replaces its value in place. *)
Definition dict (V : Type) := list (str * V).

Fixpoint dict_set {V} (d : dict V) (k : str) (v : V) : dict V :=
  match d with
  | [] => [(k, v)]
  | (k', v') :: d' =>
      if str_eqb k' k then (k', v) :: d' else (k', v') :: dict_set d' k v
  end.

Fixpoint dict_lookup {V} (d : dict V) (k : str) : option V :=
  match d with
  | [] => None
  | (k', v') :: d' => if str_eqb k' k then Some v' else dict_lookup d' k
  end.

(** [d.get(k, default)]. *)
Definition dict_get {V} (d : dict V) (k : str) (default : V) : V :=
  match dict_lookup d k with
  | Some v => v
  | None => default
  end.

Definition keys {V} (d : dict V) : list str := map fst d.
Definition values {V} (d : dict V) : list V := map snd d.


(** [s.split()]: the maximal runs of characters that are not white space. *)
Fixpoint split_whitespace_aux (word : str) (s : str) : list str :=
  match s with
  | [] => match word with [] => [] | _ :: _ => [word] end
  | c :: r =>
      if is_space c
      then match word with
           | [] => split_whitespace_aux [] r
           | _ :: _ => word :: split_whitespace_aux [] r
           end
      else split_whitespace_aux (word ++ [c]) r
  end.

Definition split_whitespace (s : str) : list str := split_whitespace_aux [] s.

End Py.

(** ** generators/script_generator.py *)
Module ScriptGenerator.
Import Py.

(** The loop state of [_parse_script_sections]: the mapping built so far, the
    name of the section being read and the lines collected for it. *)
Record state := {
  sections : dict str;
  current_section : str;
  current_text : list str
}.

Definition initial_state : state :=
  {| sections := []; current_section := lit "intro"; current_text := [] |}.

Definition section_markers : list str :=
  [lit "HOOK"; lit "INTRO"; lit "FEATURES"; lit "PROS"; lit "CONS";
   lit "VERDICT"; lit "CTA"].

(** The f-string that puts a marker between brackets. *)
Definition bracketed (marker : str) : str := lit "[" ++ marker ++ lit "]".

(** [if current_text: sections[current_section] = '\n'.join(current_text).strip()] *)
Definition save_section (st : state) : dict str :=
  match current_text st with
  | [] => sections st
  | _ :: _ =>
      dict_set (sections st) (current_section st)
               (strip (join nl (current_text st)))
  end.

(** [line.split(']', 1)[-1].strip()]; the closing bracket is character 93. *)
Definition remaining (line : str) : str :=
  strip (last_item (split1 93 line)).

(** The body of the [if] that recognises [marker] in [line]. *)
Definition start_section (st : state) (marker line : str) : state :=
  {| sections := save_section st;
     current_section := lower marker;
     current_text := match remaining line with
                     | [] => []
                     | _ :: _ => [remaining line]
                     end |}.

(** The inner [for marker in section_markers] with its [break]: [None] is
    [found_section = False] at the end of the loop. *)
Fixpoint scan_markers (markers : list str) (st : state) (line : str)
  : option state :=
  match markers with
  | [] => None
  | marker :: rest =>
      if contains (bracketed marker) (upper line)
      then Some (start_section st marker line)
      else scan_markers rest st line
  end.

(** One iteration of [for line in script_text.split('\n')]. *)
Definition process_line (st : state) (line : str) : state :=
  match scan_markers section_markers st line with
  | Some st' => st'
  | None =>
      match strip line with
      | [] => st
      | _ :: _ =>
          {| sections := sections st;
             current_section := current_section st;
             current_text := current_text st ++ [line] |}
      end
  end.

Definition _parse_script_sections (script_text : str) : dict str :=
  save_section (fold_left process_line (split newline script_text) initial_state).

(** The pre-generated example script. *)
Definition EXAMPLE_SCRIPT_HEBREW : str :=
  join nl
    [ [];
      lit "[HOOK]";
      lit "בקבוק מים ב-28 דולר שמכר יותר מכל Stanley ו-Hydro Flask ביחד? בואו נבדוק אם זה באמת שווה את ההייפ.";
      [];
      lit "[INTRO]";
      lit "היי, מה קורה? היום אנחנו בודקים את Owala FreeSip - הבקבוק שכבש את טיקטוק עם 272 מיליון צפיות. אני אגלה לכם בדיוק למה כולם משתגעים עליו, ומה הדברים שאף אחד לא מספר לכם.";
      [];
      lit "[FEATURES]";
      lit "אז מה מיוחד פה? הפיצ'ר המטורף הוא ה-FreeSip - פתח כפול שמאפשר לשתות גם מקש וגם לגמוע ישירות. בלי להחליף מכסים, בלי להתעסק. פשוט לוחצים על הכפתור ושותים.";
      [];
      lit "יש פה בידוד דו-שכבתי שאמור לשמור על הקור 24 שעות. בדקתי את זה - שמתי קרח בלילה, ובבוקר אחרי הוא עדיין היה שם. מרשים.";
      [];
      lit "המכסה נועל פעמיים - פעם עם הכפתור ופעם עם הידית. אפשר לזרוק לתיק בלי דאגה.";
      [];
      lit "[PROS]";
      lit "בואו נדבר על היתרונות:";
      (lit "ראשית, העיצוב פשוט מדהים. יש פה צבעים שאף מותג אחר לא מעז לעשות - " ++ dquote ++ lit "Smooshed Blueberry" ++ dquote ++ lit ", " ++ dquote ++ lit "Shy Marshmallow" ++ dquote ++ lit " - השמות לבד שווים את הכסף.");
      [];
      lit "שנית, הקש המוסתר. בניגוד ל-Stanley שהקש שלו חשוף לכל החיידקים בעולם, פה הוא מוגן בתוך המכסה.";
      [];
      (lit "ומשתמשים כותבים: " ++ dquote ++ lit "הפלתי אותו לנהר, הוא שרד" ++ dquote ++ lit " ו" ++ dquote ++ lit "הדבר הכי טוב שקניתי השנה" ++ dquote ++ lit ".");
      [];
      lit "[CONS]";
      lit "עכשיו בואו נהיה כנים. יש פה כמה דברים שצריך לדעת:";
      lit "אחד - זה לא למשקאות חמים. הקש לא מתאים לזה.";
      lit "שניים - הגרסאות הגדולות לא נכנסות למתקן כוסות ברכב. ה-24 אונקיות בקושי נכנס.";
      lit "שלוש - צריך לנקות לפחות פעם בשבוע. יש חלקי סיליקון שיכולים לתפוס עובש אם מזניחים.";
      [];
      lit "[VERDICT]";
      lit "אז האם זה שווה את הכסף? ";
      lit "בהחלט כן. במחיר של 28 דולר, אתם מקבלים בקבוק עם פיצ'רים של בקבוקים ב-50 דולר. האיכות מעולה, העיצוב מדהים, והשימושיות פשוט הכי נוחה שניסיתי.";
      [];
      lit "הציון שלי: 8.5 מתוך 10. נקודה וחצי הורדתי על הגודל שלא תמיד מתאים ועל הניקיון התדיר.";
      [];
      lit "[CTA]";
      lit "אם אתם רוצים לרכוש - יש לינק בתיאור עם המחיר הכי טוב שמצאתי.";
      lit "אהבתם? תנו לייק ותירשמו לערוץ. יש לי עוד המון סקירות כאלה בדרך.";
      lit "נתראה בסרטון הבא!";
      [] ].

(** The dictionary returned by [generate_script] and [get_example_script]. *)
Record ScriptResult := {
  full_script : str;
  script_sections : dict str;
  language : str;
  estimated_duration : Z;
  word_count : nat
}.

Definition get_example_script : ScriptResult :=
  {| full_script := EXAMPLE_SCRIPT_HEBREW;
     script_sections := _parse_script_sections EXAMPLE_SCRIPT_HEBREW;
     language := lit "hebrew";
     estimated_duration := 180;
     word_count := length (split_whitespace EXAMPLE_SCRIPT_HEBREW) |}.

End ScriptGenerator.

(** ** scrapers/product_scraper.py *)
Module ProductScraper.
Import Py.

Record ProductData := {
  name : str;
  brand : str;
  price : float;
  currency : str;
  rating : float;
  review_count : Z;
  asin : str;
  url : str;
  images : list str;
  features : list str;
  pros : list str;
  cons : list str;
  description : str;
  specs : dict str
}.

Definition OWALA_FREESIP_24OZ : ProductData :=
  {|
    name := lit "Owala FreeSip Insulated Stainless Steel Water Bottle";
    brand := lit "Owala";
    price := 27.99%float;
    currency := lit "USD";
    rating := 4.8%float;
    review_count := 150000%Z;
    asin := lit "B085DTZQNZ";
    url := lit "https://www.amazon.com/dp/B085DTZQNZ";
    images := 
      [ lit "https://m.media-amazon.com/images/I/61JUu5tn8GL._AC_SL1500_.jpg";
        lit "https://m.media-amazon.com/images/I/71wqmxNiAML._AC_SL1500_.jpg";
        lit "https://m.media-amazon.com/images/I/71PjcvBRr5L._AC_SL1500_.jpg" ];
    features := 
      [ lit "פטנט FreeSip - שתייה דרך קש או גמיעה ישירה";
        lit "בידוד דו-שכבתי - שומר קור עד 24 שעות";
        lit "מכסה עם נעילה כפולה - אטום לחלוטין";
        lit "ידית נשיאה נוחה שמשמשת גם כמנעול";
        lit "פתח רחב לניקוי קל והכנסת קרח";
        lit "מתאים למתקן כוסות ברכב (24oz)";
        lit "ללא BPA, עופרת, ופתלטים";
        lit "מכסה בטוח למדיח כלים" ];
    pros := 
      [ lit "עיצוב ייחודי - אפשר לשתות מקש או ישירות בלי לפתוח מכסה";
        lit "אטימות מושלמת - אפשר לזרוק לתיק בלי דאגה";
        lit "שומר קר מעולה - קרח נשאר יותר מיום שלם";
        lit "ויראלי בטיקטוק - 272 מיליון צפיות בהאשטאג";
        lit "מגוון צבעים ועיצובים מטורפים";
        lit "קש מוסתר ומוגן מחיידקים";
        lit "נוח לאחיזה - יש שקעים בגוף הבקבוק";
        lit "מחיר סביר ביחס למתחרים (Hydro Flask, Stanley)";
        lit "אחריות לכל החיים מהיצרן" ];
    cons := 
      [ lit "לא מתאים למשקאות חמים או מוגזים";
        lit "הגרסאות הגדולות (32oz, 40oz) לא נכנסות למתקן כוסות";
        lit "צריך לנקות לעיתים קרובות - עלול להצטבר עובש בחלקי הסיליקון";
        lit "קצת כבד בהשוואה לבקבוקי פלסטיק";
        lit "המכסה נפתח בכוח - צריך להיזהר שלא לפגוע בעצמך";
        lit "הציפוי עלול להישחק עם הזמן";
        lit "הדפסים לא עמידים למדיח כלים" ];
    description := join nl
        [ [];
          lit "    בקבוק המים Owala FreeSip הוא אחד המוצרים הויראליים ביותר בטיקטוק, ";
          lit "    עם למעלה מ-272 מיליון צפיות בהאשטאג #owala. ";
          lit "    ";
          lit "    מה שמייחד אותו מכל בקבוק אחר הוא הפטנט הייחודי FreeSip - ";
          lit "    פתח כפול שמאפשר לשתות גם דרך קש מובנה וגם לגמוע ישירות, ";
          lit "    בלי צורך לפתוח או להחליף מכסים.";
          lit "    ";
          lit "    הבקבוק עשוי מנירוסטה עם בידוד דו-שכבתי שאמור לשמור על המשקאות ";
          lit "    קרים עד 24 שעות. במבחנים שנעשו, הבקבוק אכן עמד בהבטחה הזו.";
          lit "    ";
          lit "    זמין בשלושה גדלים: 24oz, 32oz, ו-40oz, ובמגוון צבעים מטורף ";
          (lit "    עם שמות יצירתיים כמו " ++ dquote ++ lit "Shy Marshmallow" ++ dquote ++ lit ", " ++ dquote ++ lit "Smooshed Blueberry" ++ dquote ++ lit ", ");
          (lit "    ו-" ++ dquote ++ lit "Very Very Dark" ++ dquote ++ lit ".");
          lit "    " ];
    specs := 
      [ (lit "נפח", (lit "24 אונקיות (710 מ" ++ dquote ++ lit "ל)"));
        (lit "גובה", (lit "10.26 אינץ' (26 ס" ++ dquote ++ lit "מ)"));
        (lit "קוטר", (lit "3.12 אינץ' (7.9 ס" ++ dquote ++ lit "מ)"));
        (lit "משקל", lit "כ-400 גרם");
        (lit "חומר", lit "נירוסטה 18/8 + פלסטיק ללא BPA");
        (lit "בידוד", lit "דו-שכבתי (Double-wall)");
        (lit "שמירת קור", lit "עד 24 שעות");
        (lit "מדיח כלים", lit "מכסה בלבד");
        (lit "אחריות", lit "לכל החיים") ]
  |}.

Definition products : dict ProductData :=
  [(lit "owala_freesip", OWALA_FREESIP_24OZ)].

Definition get_product_data (product_id : str) : ProductData :=
  dict_get products product_id OWALA_FREESIP_24OZ.

End ProductScraper.

(** ** Python's arithmetic between [int] and [float]

    A [float] is a binary64 number; its operations are those of the
    processor, rounding to nearest with ties to even. *)
Module PyFloat.
Local Open Scope Z_scope.

(** [float(z)] of an [int], also where an [int] meets a [float] in an
    operation: the nearest double, ties to even.  (Beyond the range of the
    doubles Python raises [OverflowError]; the value here is then
    infinite.) *)
Definition float_of_int (z : Z) : float :=
  SF2Prim (binary_normalize prec emax z 0 false).

(** The nearest double to the quotient of two integers, ties to even,
    computed on the integers. *)
Definition nearest_quotient (a b : Z) : float :=
  match a with
  | 0 => if b <? 0 then neg_zero else zero
  | _ =>
      let '(q, e, l) := SFdiv_core_binary prec emax (Z.abs a) 0 (Z.abs b) 0 in
      SF2Prim (binary_round_aux prec emax (xorb (a <? 0) (b <? 0)) q e l)
  end.

(** [a / b] on [int]s, for [b] other than zero.  When both are below 2^53 in
    absolute value they are doubles, and the quotient is the quotient of the
    doubles; otherwise the quotient is rounded once, from the integers.
    (Python raises [ZeroDivisionError] when [b] is zero and [OverflowError]
    when the quotient is beyond the range of the doubles; the sources divide
    by the constants 1000 and 60.) *)
Definition int_truediv (a b : Z) : float :=
  if (Z.abs a <? 2 ^ 53) && (Z.abs b <? 2 ^ 53)
  then PrimFloat.div (float_of_int a) (float_of_int b)
  else nearest_quotient a b.

End PyFloat.

(** ** generators/voice_generator.py

    The cost estimate is float arithmetic on a character count: a true
    division of two [int]s and a product of two [float]s. *)
Module VoiceGenerator.
Import Py PyFloat.

Definition default_price_per_1k_chars : float := 0.30.

Definition get_character_count (text : str) : Z := Z.of_nat (length text).

Definition estimate_cost (text : str) (price_per_1k_chars : float) : float :=
  let chars := get_character_count text in
  PrimFloat.mul (int_truediv chars 1000) price_per_1k_chars.

Section Mock.
(** The two format specifications of the printed line: [{cost:.2f}] and
    [{chars}]. *)
Variable format_2f : float -> str.
Variable format_int : Z -> str.

(** [MockVoiceGenerator.estimate_cost]: the lines printed so far are
    threaded through; the cost is returned with them. *)
Definition mock_estimate_cost (stdout : list str) (text : str)
           (price_per_1k_chars : float) : list str * float :=
  let chars := Z.of_nat (length text) in
  let cost := PrimFloat.mul (int_truediv chars 1000) price_per_1k_chars in
  (stdout ++ [lit "Estimated cost: $" ++ format_2f cost ++ lit " ("
              ++ format_int chars ++ lit " characters)"],
   cost).
End Mock.

End VoiceGenerator.

(** ** generators/video_generator.py *)
Module VideoGenerator.
Import Py.

(** A [pathlib.Path], kept as it is built: [Path(s)] and [p / s].  The file
    store is keyed by these terms. *)
Inductive Path :=
| PathOf (s : str)
| PathDiv (p : Path) (s : str).

Fixpoint path_eqb (p q : Path) : bool :=
  match p, q with
  | PathOf s, PathOf t => str_eqb s t
  | PathDiv p' s, PathDiv q' t => path_eqb p' q' && str_eqb s t
  | _, _ => false
  end.

Definition files := list (Path * str).

(** [p.write_text(s)]: the file is created or overwritten.  The write is
    taken to succeed: failures of the file system or of the encoding are not
    part of the model. *)
Fixpoint write_text (fs : files) (p : Path) (s : str) : files :=
  match fs with
  | [] => [(p, s)]
  | (q, t) :: fs' =>
      if path_eqb q p then (q, s) :: fs' else (q, t) :: write_text fs' p s
  end.

Fixpoint read_text (fs : files) (p : Path) : option str :=
  match fs with
  | [] => None
  | (q, t) :: fs' => if path_eqb q p then Some t else read_text fs' p
  end.

Record SimpleVideoGenerator := { output_dir : Path }.

(** The module constant [OUTPUT_DIR]: the one of [config.settings] when that
    module can be imported, [Path("./output")] otherwise. *)
Definition OUTPUT_DIR (settings_OUTPUT_DIR : option Path) : Path :=
  match settings_OUTPUT_DIR with
  | Some d => d
  | None => PathOf (lit "./output")
  end.

(** [get_video_generator()], that is [SimpleVideoGenerator()], where the
    module constant is [OUTPUT_DIR]; the directory is made by the caller,
    which holds the world. *)
Definition get_video_generator (OUTPUT_DIR : Path) : SimpleVideoGenerator :=
  {| output_dir := OUTPUT_DIR |}.

(** [enumerate(l)] *)
Fixpoint enumerate_from {A} (i : nat) (l : list A) : list (nat * A) :=
  match l with
  | [] => []
  | x :: r => (i, x) :: enumerate_from (S i) r
  end.

Definition enumerate {A} (l : list A) : list (nat * A) := enumerate_from 0 l.

(** An [int] in an f-string. *)
Definition format_nat (n : nat) : str :=
  lit (NilZero.string_of_uint (Nat.to_uint n)).

Section Storyboard.
(** A [float] in an f-string ([{score}]): Python's shortest repr. *)
Variable format_float : float -> str.

Definition images_list (product_images : list str) : str :=
  match product_images with
  | [] => lit "  [Add product images]"
  | _ :: _ =>
      join nl (map (fun '(i, img) => lit "  " ++ format_nat (i + 1) ++ lit ". " ++ img)
                   (enumerate (firstn 5 product_images)))
  end.

Definition pros_list (pros : list str) : str :=
  join nl (map (fun pro => lit "  ✓ " ++ pro) (firstn 5 pros)).

Definition cons_list (cons : list str) : str :=
  join nl (map (fun con => lit "  ✗ " ++ con) (firstn 5 cons)).

(** The f-string of [generate_storyboard], line by line. *)
Definition storyboard (product_name : str) (product_images : list str)
           (script_sections : dict str) (pros cons : list str)
           (score : float) : str :=
  join nl
    [ lit "# Video Storyboard: " ++ product_name;
      [];
      lit "## Technical Specs";
      lit "- Resolution: 1920x1080";
      lit "- FPS: 30";
      lit "- Duration: ~3 minutes";
      [];
      lit "---";
      [];
      lit "## Scene 1: Title (0:00-0:05)";
      lit "Text: " ++ dquote ++ product_name ++ dquote;
      [];
      lit "## Scene 2: Hook (0:05-0:15)";
      dict_get script_sections (lit "hook") (lit "[Hook]");
      [];
      lit "## Scene 3: Showcase (0:15-0:30)";
      lit "Images:";
      images_list product_images;
      [];
      lit "Script:";
      dict_get script_sections (lit "intro") (lit "[Intro]");
      [];
      lit "## Scene 4: Features (0:30-1:15)";
      dict_get script_sections (lit "features") (lit "[Features]");
      [];
      lit "## Scene 5: Pros (1:15-1:45)";
      pros_list pros;
      [];
      dict_get script_sections (lit "pros") (lit "[Pros script]");
      [];
      lit "## Scene 6: Cons (1:45-2:10)";
      cons_list cons;
      [];
      dict_get script_sections (lit "cons") (lit "[Cons script]");
      [];
      lit "## Scene 7: Verdict (2:10-2:40)";
      lit "Score: " ++ format_float score ++ lit "/10";
      [];
      dict_get script_sections (lit "verdict") (lit "[Verdict]");
      [];
      lit "## Scene 8: CTA (2:40-3:00)";
      dict_get script_sections (lit "cta") (lit "[CTA]");
      [];
      lit "---";
      lit "## Assets Needed";
      lit "- Product images";
      lit "- Voice-over MP3";
      lit "- Background music";
      [] ].

Definition generate_storyboard (self : SimpleVideoGenerator) (fs : files)
           (product_name : str) (product_images : list str)
           (script_sections : dict str) (pros cons : list str)
           (score : float) (output_filename : str) : files * Path :=
  let text := storyboard product_name product_images script_sections
                         pros cons score in
  let output_path := PathDiv (output_dir self) output_filename in
  (write_text fs output_path text, output_path).
End Storyboard.

End VideoGenerator.

(** ** Effects shared by the generators: exceptions, files, directories and
    the console *)
Module Runtime.
Import Py VideoGenerator.

(** The exceptions the sources raise themselves, whatever an external
    service raises, and what the file system raises when it refuses a file
    ([FileNotFoundError] and the other subclasses of [OSError];
    [UnicodeEncodeError] is a [ValueError]). *)
Inductive exn :=
| ImportError (msg : str)
| ValueError (msg : str)
| ServiceError (msg : str)
| OSError (msg : str).

Inductive result (A : Type) :=
| Ok (a : A)
| Raise (e : exn).

Arguments Ok {A} a.
Arguments Raise {A} e.

(** The world a generator acts on: the files, the directories made with
    [mkdir] and the lines printed.  A file holds code points when written as
    text and byte values when written in binary mode. *)
Record world := {
  fs : files;
  dirs : list Path;
  stdout : list str
}.

Definition print (w : world) (line : str) : world :=
  {| fs := fs w; dirs := dirs w; stdout := stdout w ++ [line] |}.

(** [p.mkdir(parents=True, exist_ok=True)], taken to succeed: the directory
    exists afterwards; making it again changes nothing. *)
Definition mkdir (w : world) (p : Path) : world :=
  {| fs := fs w;
     dirs := if existsb (path_eqb p) (dirs w) then dirs w else dirs w ++ [p];
     stdout := stdout w |}.

Definition write_file (w : world) (p : Path) (content : list N) : world :=
  {| fs := write_text (fs w) p content; dirs := dirs w; stdout := stdout w |}.

(** [a or b] for an optional string [a]: [None] and the empty string are
    false. *)
Definition or_else (a : option str) (b : str) : str :=
  match a with
  | Some (c :: r) => c :: r
  | _ => b
  end.

(** What the process finds around it: the two environment variables, the
    module constants read from the settings when the modules are imported,
    whether the speech library could be imported, and what the file system
    answers when a file is written.

    [write_text_error w p s] is the exception of [p.write_text(s)] in the
    world [w], and [open_error w p] the one of [open(p, "wb")]; [None] when
    the file is accepted.  A file whose directory is missing is refused, and
    so is a text that the encoding of the locale cannot hold. *)
Record environment := {
  getenv_ANTHROPIC_API_KEY : option str;
  getenv_ELEVENLABS_API_KEY : option str;
  ANTHROPIC_API_KEY : str;
  ELEVENLABS_API_KEY : str;
  ELEVENLABS_AVAILABLE : bool;
  OUTPUT_DIR : Path;
  write_text_error : world -> Path -> str -> option exn;
  open_error : world -> Path -> option exn
}.

End Runtime.

(** ** generators/voice_generator.py: the methods that reach the speech
    service and the files *)
Module Voice.
Import Py VideoGenerator Runtime.

(** The values of [VOICE_CONFIG]. *)
Inductive value :=
| VStr (s : str)
| VFloat (x : float)
| VBool (b : bool).

Definition VOICE_CONFIG : dict value :=
  [ (lit "voice_id", VStr (lit "21m00Tcm4TlvDq8ikWAM"));
    (lit "model_id", VStr (lit "eleven_multilingual_v2"));
    (lit "stability", VFloat 0.5);
    (lit "similarity_boost", VFloat 0.8);
    (lit "style", VFloat 0.4);
    (lit "use_speaker_boost", VBool true) ].

Definition RECOMMENDED_VOICES : dict str :=
  [ (lit "rachel", lit "21m00Tcm4TlvDq8ikWAM");
    (lit "josh", lit "TxGEqnHWrfWFTfGW9XjX");
    (lit "bella", lit "EXAVITQu4vr4xnSDxMaL");
    (lit "adam", lit "pNInz6obpgDQGcFmaJgB") ].

Record VoiceSettings := {
  stability : float;
  similarity_boost : float;
  style : float;
  use_speaker_boost : bool
}.

(** The keyword arguments of [text_to_speech.convert]. *)
Record request := {
  voice_id : value;
  output_format : str;
  text : str;
  model_id : str;
  voice_settings : VoiceSettings
}.

(** What the service answers: the call raises, or it returns an iterator that
    yields some chunks of bytes and then ends or raises. *)
Record stream := {
  chunks : list (list N);
  failure : option exn
}.

Definition service := request -> result stream.

Record VoiceGenerator := {
  api_key : str;
  client : service;
  output_dir : Path
}.

Record MockVoiceGenerator := { mock_output_dir : Path }.

Inductive generator :=
| Real (g : VoiceGenerator)
| Mock (g : MockVoiceGenerator).

(** [voice_id or VOICE_CONFIG.get("voice_id", self.RECOMMENDED_VOICES["rachel"])];
    the key [rachel] is in the table. *)
Definition chosen_voice (voice_id : option str) : value :=
  match voice_id with
  | Some (c :: r) => VStr (c :: r)
  | _ => dict_get VOICE_CONFIG (lit "voice_id")
                  (VStr (dict_get RECOMMENDED_VOICES (lit "rachel") []))
  end.

(** [VoiceGenerator.generate_voice] on a file that can be opened: the file is
    opened (and emptied) once the service has returned its iterator; every
    chunk received is written; an error of the iterator leaves what was
    written and goes to the caller. *)
Definition generate_voice (self : VoiceGenerator) (w : world)
           (text : str) (output_filename : str) (voice_id : option str)
           (model_id : str) (stability similarity_boost style : float)
  : world * result Path :=
  let voice_id := chosen_voice voice_id in
  let output_path := PathDiv (output_dir self) output_filename in
  match client self
          {| voice_id := voice_id;
             output_format := lit "mp3_44100_128";
             text := text;
             model_id := model_id;
             voice_settings :=
               {| stability := stability;
                  similarity_boost := similarity_boost;
                  style := style;
                  use_speaker_boost := true |} |} with
  | Raise e => (w, Raise e)
  | Ok audio =>
      let w' := write_file w output_path (concat (chunks audio)) in
      match failure audio with
      | None => (w', Ok output_path)
      | Some e => (w', Raise e)
      end
  end.

(** The loop of [generate_from_script] over [script_sections.items()]. *)
Fixpoint generate_sections (self : VoiceGenerator) (w : world)
         (items : list (str * str)) (voice_id : option str)
         (audio_files : dict Path) : world * result (dict Path) :=
  match items with
  | [] => (w, Ok audio_files)
  | (section, text) :: rest =>
      match strip text with
      | [] => generate_sections self w rest voice_id audio_files
      | _ :: _ =>
          let filename := lit "voice_" ++ section ++ lit ".mp3" in
          let w := print w (lit "Generating voice for section: " ++ section) in
          match generate_voice self w text filename voice_id
                               (lit "eleven_multilingual_v2") 0.5 0.8 0.4 with
          | (w, Raise e) => (w, Raise e)
          | (w, Ok audio_path) =>
              generate_sections self w rest voice_id
                                (dict_set audio_files section audio_path)
          end
      end
  end.

(** [VoiceGenerator.generate_from_script]: the directory asked for is made;
    the files go where [generate_voice] puts them. *)
Definition generate_from_script (self : VoiceGenerator) (w : world)
           (script_sections : dict str) (output_dir : option Path)
           (voice_id : option str) : world * result (dict Path) :=
  let output_dir := match output_dir with
                    | Some d => d
                    | None => Voice.output_dir self
                    end in
  let w := mkdir w output_dir in
  generate_sections self w script_sections voice_id [].

(** [MockVoiceGenerator.__init__] *)
Definition mock_init (w : world) : world * MockVoiceGenerator :=
  let output_dir := PathOf (lit "./output") in
  (mkdir w output_dir, {| mock_output_dir := output_dir |}).

Section External.
(** The client the speech library builds for a key, and how a path and an
    integer print. *)
Variable ElevenLabs : str -> service.
Variable path_str : Path -> str.
Variable env : environment.

(** [VoiceGenerator.__init__] *)
Definition init (w : world) (api_key : option str)
  : world * result VoiceGenerator :=
  if negb (ELEVENLABS_AVAILABLE env)
  then (w, Raise (ImportError (lit "elevenlabs package not installed")))
  else
    let api_key := or_else api_key (ELEVENLABS_API_KEY env) in
    match api_key with
    | [] => (w, Raise (ValueError (lit "ELEVENLABS_API_KEY is required")))
    | _ :: _ =>
        let output_dir := OUTPUT_DIR env in
        (mkdir w output_dir,
         Ok {| api_key := api_key;
               client := ElevenLabs api_key;
               output_dir := output_dir |})
    end.

(** [MockVoiceGenerator.generate_voice] on a file that can be written: a text
    file stands in for the audio. *)
Definition mock_generate_voice (self : MockVoiceGenerator) (w : world)
           (text : str) (output_filename : str) : world * Path :=
  let output_path := PathDiv (mock_output_dir self) output_filename in
  let w := write_file w output_path
             (lit "[PLACEHOLDER - Would contain audio for:]" ++ nl
              ++ firstn 200 text ++ lit "...") in
  let w := print w (lit "Mock: Would generate audio for "
                    ++ format_nat (length text) ++ lit " characters") in
  let w := print w (lit "Mock: Saved placeholder to " ++ path_str output_path) in
  (w, output_path).

(** The text the mock generator puts in its file. *)
Definition placeholder_text (text : str) : str :=
  lit "[PLACEHOLDER - Would contain audio for:]" ++ nl
  ++ firstn 200 text ++ lit "...".

(** [MockVoiceGenerator.generate_voice] with the answer of the file system:
    the write comes first, and a refusal goes to the caller. *)
Definition mock_generate_voice_io (self : MockVoiceGenerator) (w : world)
           (text : str) (output_filename : str) : world * result Path :=
  let output_path := PathDiv (mock_output_dir self) output_filename in
  match write_text_error env w output_path (placeholder_text text) with
  | Some e => (w, Raise e)
  | None =>
      let (w, output_path) := mock_generate_voice self w text output_filename in
      (w, Ok output_path)
  end.

(** [VoiceGenerator.generate_voice] with the answer of the file system: the
    file is opened once the service has returned its iterator, and a refusal
    goes to the caller. *)
Definition generate_voice_io (self : VoiceGenerator) (w : world)
           (text : str) (output_filename : str) (voice_id : option str)
           (model_id : str) (stability similarity_boost style : float)
  : world * result Path :=
  let output_path := PathDiv (output_dir self) output_filename in
  match client self
          {| voice_id := chosen_voice voice_id;
             output_format := lit "mp3_44100_128";
             text := text;
             model_id := model_id;
             voice_settings :=
               {| stability := stability;
                  similarity_boost := similarity_boost;
                  style := style;
                  use_speaker_boost := true |} |} with
  | Raise e => (w, Raise e)
  | Ok _ =>
      match open_error env w output_path with
      | Some e => (w, Raise e)
      | None =>
          generate_voice self w text output_filename voice_id model_id
                         stability similarity_boost style
      end
  end.

(** [get_voice_generator] *)
Definition get_voice_generator (w : world) (api_key : option str)
  : world * result generator :=
  let api_key :=
    or_else api_key
            (match getenv_ELEVENLABS_API_KEY env with
             | Some k => k
             | None => []
             end) in
  if match api_key with [] => false | _ :: _ => true end
     && ELEVENLABS_AVAILABLE env
  then match init w (Some api_key) with
       | (w, Ok g) => (w, Ok (Real g))
       | (w, Raise e) => (w, Raise e)
       end
  else
    let w := print w (lit "Using MockVoiceGenerator (no API key or elevenlabs not installed)") in
    let (w, g) := mock_init w in
    (w, Ok (Mock g)).
End External.

End Voice.

(** ** Formatting of numbers in f-strings, and [int] of a [float] *)
Module PyFormat.
Import Py.

(** [chr(i)] *)
Definition chr (i : N) : str := [i].

(** An [int] in an f-string. *)
Definition format_int (z : Z) : str :=
  lit (NilZero.string_of_int (Z.to_int z)).

(** The digits of a number, last digit first, with a comma after every third
    digit that has another one after it. *)
Fixpoint commas_rev (digits : list N) : list N :=
  match digits with
  | a :: b :: c :: (_ :: _) as rest => a :: b :: c :: 44%N :: commas_rev rest
  | _ => digits
  end.

(** [format(z, ',')]: the decimal digits in groups of three. *)
Definition format_thousands (z : Z) : str :=
  (if (z <? 0)%Z then lit "-" else [])
  ++ rev (commas_rev (rev (format_int (Z.abs z)))).

(** [int(x)] of a finite float: truncation toward zero. *)
Definition int_of_float (x : float) : Z :=
  match FloatOps.Prim2SF x with
  | SpecFloat.S754_finite s m e =>
      let v := if (0 <=? e)%Z then (Z.pos m * 2 ^ e)%Z
               else (Z.pos m / 2 ^ (- e))%Z in
      if s then (- v)%Z else v
  | _ => 0%Z
  end.

End PyFormat.

(** ** generators/script_generator.py: the prompts and the call of the text
    service *)
Module ScriptService.
Import Py PyFloat PyFormat Runtime ScriptGenerator.

Definition style_instructions : dict str :=
  [ (lit "friendly", lit "חם, ידידותי, כאילו מדבר עם חבר טוב");
    (lit "professional", lit "מקצועי ואמין, אבל לא יבש");
    (lit "casual", lit "קליל ומשעשע, עם הומור קל") ].

Definition system_prompt_hebrew (style : str) : str :=
  join nl
    [ lit "אתה כותב תסריטים לסרטוני סקירת מוצרים ביוטיוב.";
      [];
      (lit "הסגנון שלך: " ++ (dict_get style_instructions style (dict_get style_instructions (lit "friendly") [])));
      [];
      lit "כללים חשובים:";
      lit "1. תמיד פתח ב-HOOK חזק שתופס תוך 3 שניות";
      lit "2. היה כנה - אם יש חסרונות, תזכיר אותם";
      (lit "3. אל תהיה " ++ dquote ++ lit "מכירתי" ++ dquote ++ lit " מדי - אנשים מריחים את זה");
      lit "4. השתמש בשפה יומיומית, לא פורמלית";
      lit "5. כלול ציטוטים מביקורות אמיתיות";
      lit "6. סיים עם המלצה ברורה וקריאה לפעולה";
      [];
      lit "מבנה התסריט:";
      lit "[HOOK] - 5-10 שניות - משפט פתיחה שתופס";
      lit "[INTRO] - 10-15 שניות - היכרות והצגת המוצר";
      lit "[FEATURES] - 30-45 שניות - תכונות עיקריות";
      lit "[PROS] - 30-45 שניות - יתרונות עם דוגמאות";
      lit "[CONS] - 20-30 שניות - חסרונות בכנות";
      lit "[VERDICT] - 15-20 שניות - סיכום והמלצה";
      lit "[CTA] - 10 שניות - קריאה לפעולה";
      [];
      lit "סמן כל חלק ב-[שם החלק] בתחילתו." ].

Definition system_prompt_english : str :=
  join nl
    [ lit "You write scripts for YouTube product review videos.";
      [];
      lit "Your style: Warm and engaging, like talking to a good friend.";
      [];
      lit "Important rules:";
      lit "1. Always start with a strong HOOK that grabs attention in 3 seconds";
      lit "2. Be honest - mention drawbacks if they exist";
      (lit "3. Don't be too " ++ dquote ++ lit "salesy" ++ dquote ++ lit " - people can tell");
      lit "4. Use everyday language, not formal";
      lit "5. Include real review quotes when relevant";
      lit "6. End with a clear recommendation and call to action";
      [];
      lit "Script structure:";
      lit "[HOOK] - 5-10 seconds - Attention-grabbing opening";
      lit "[INTRO] - 10-15 seconds - Introduction and product overview";
      lit "[FEATURES] - 30-45 seconds - Key features";
      lit "[PROS] - 30-45 seconds - Advantages with examples";
      lit "[CONS] - 20-30 seconds - Honest drawbacks";
      lit "[VERDICT] - 15-20 seconds - Summary and recommendation";
      lit "[CTA] - 10 seconds - Call to action";
      [];
      lit "Mark each section with [SECTION NAME] at the start." ].

Definition user_prompt_hebrew (product_info : str) (target_words : Z) : str :=
  join nl
    [ lit "כתוב תסריט לסרטון סקירת מוצר ביוטיוב.";
      lit "            ";
      (lit "אורך מטרה: כ-" ++ format_int target_words ++ lit " מילים (3 דקות)");
      [];
      lit "מידע על המוצר:";
      product_info;
      [];
      lit "דגשים:";
      lit "- התחל עם הוק שמעורר סקרנות";
      lit "- הדגש את הפיצ'ר הכי ייחודי (FreeSip)";
      lit "- התייחס לויראליות בטיקטוק";
      lit "- השווה למתחרים (Stanley, Hydro Flask)";
      lit "- תן ציון מ-1 עד 10 בסוף";
      (lit "- סיים עם " ++ dquote ++ lit "לינק בתיאור" ++ dquote ++ lit " ובקשה ללייק ומנוי");
      [];
      lit "כתוב את התסריט המלא:" ].

Definition user_prompt_english (product_info : str) (target_words : Z) : str :=
  join nl
    [ lit "Write a script for a YouTube product review video.";
      [];
      (lit "Target length: ~" ++ format_int target_words ++ lit " words (3 minutes)");
      [];
      lit "Product information:";
      product_info;
      [];
      lit "Key points:";
      lit "- Start with a curiosity-provoking hook";
      lit "- Highlight the most unique feature (FreeSip)";
      lit "- Reference TikTok virality";
      lit "- Compare to competitors (Stanley, Hydro Flask)";
      lit "- Give a score from 1 to 10 at the end";
      (lit "- End with " ++ dquote ++ lit "link in description" ++ dquote ++ lit " and like/subscribe request");
      [];
      lit "Write the full script:" ].

(** [ScriptGenerator._get_system_prompt] *)
Definition _get_system_prompt (language style : str) : str :=
  if str_eqb language (lit "hebrew")
  then system_prompt_hebrew style
  else system_prompt_english.

(** [ScriptGenerator._get_user_prompt] *)
Definition _get_user_prompt (product_info : str) (target_words : Z)
           (language : str) : str :=
  if str_eqb language (lit "hebrew")
  then user_prompt_hebrew product_info target_words
  else user_prompt_english product_info target_words.

(** The keyword arguments of [messages.create]; a message is a role and a
    content. *)
Record create_request := {
  model : str;
  max_tokens : Z;
  system : str;
  messages : list (str * str)
}.

(** The text service: the call raises, or answers with the text of the first
    content block. *)
Definition text_service := create_request -> result str.

Record ScriptGenerator := {
  api_key : str;
  client : text_service
}.

Definition words_per_minute (language : str) : Z :=
  if str_eqb language (lit "english") then 150%Z else 120%Z.

(** [int((duration_seconds / 60) * words_per_minute)] *)
Definition target_words (duration_seconds : Z) (language : str) : Z :=
  int_of_float
    (PrimFloat.mul (int_truediv duration_seconds 60)
                   (float_of_int (words_per_minute language))).

(** [ScriptGenerator.generate_script] *)
Definition generate_script (self : ScriptGenerator) (product_info : str)
           (language style : str) (duration_seconds : Z)
  : result ScriptResult :=
  let target_words := target_words duration_seconds language in
  let system_prompt := _get_system_prompt language style in
  let user_prompt := _get_user_prompt product_info target_words language in
  match client self
          {| model := lit "claude-sonnet-4-20250514";
             max_tokens := 4096;
             system := system_prompt;
             messages := [(lit "user", user_prompt)] |} with
  | Raise e => Raise e
  | Ok script_text =>
      Ok {| full_script := script_text;
            script_sections := _parse_script_sections script_text;
            language := language;
            estimated_duration := duration_seconds;
            word_count := length (split_whitespace script_text) |}
  end.

Section Construction.
(** The client the text library builds for a key. *)
Variable Anthropic : str -> text_service.
Variable env : environment.

(** [ScriptGenerator.__init__] *)
Definition init (api_key : option str) : result ScriptGenerator :=
  match or_else api_key (ANTHROPIC_API_KEY env) with
  | [] => Raise (ValueError (lit "ANTHROPIC_API_KEY is required"))
  | c :: r => Ok {| api_key := c :: r; client := Anthropic (c :: r) |}
  end.
End Construction.

End ScriptService.

(** ** scrapers/product_scraper.py: the product as text for the prompt *)
Module ProductFormat.
Import Py PyFormat ProductScraper.

Section Format.
(** A [float] in an f-string. *)
Variable format_float : float -> str.

Definition format_product_for_script (product : ProductData) : str :=
  join nl
    [ [];
      (lit "מוצר: " ++ name product);
      (lit "מותג: " ++ brand product);
      (lit "מחיר: $" ++ format_float (price product));
      (lit "דירוג: " ++ format_float (rating product) ++ lit "/5 (" ++ format_thousands (review_count product) ++ lit " ביקורות)");
      [];
      lit "תיאור:";
      description product;
      [];
      lit "תכונות עיקריות:";
      (join (chr 10) (map (fun f => lit "• " ++ f) (features product)));
      [];
      lit "יתרונות:";
      (join (chr 10) (map (fun p => lit "✓ " ++ p) (pros product)));
      [];
      lit "חסרונות:";
      (join (chr 10) (map (fun c => lit "✗ " ++ c) (cons product)));
      [];
      lit "מפרט טכני:";
      (join (chr 10) (map (fun '(k, v) => lit "• " ++ k ++ lit ": " ++ v) (specs product)));
      [] ].
End Format.

End ProductFormat.

(** ** main.py: the full pipeline

    [console.print] is kept as a printed line holding the text as it is
    passed, markup included; the progress display is not modelled. *)
Module Main.
Import Py PyFormat Runtime ScriptGenerator ProductScraper VideoGenerator.

Definition truthy (v : option str) : bool :=
  match v with
  | Some (_ :: _) => true
  | _ => false
  end.

(** [str(e)] of an exception built from a message. *)
Definition exn_str (e : exn) : str :=
  match e with
  | ImportError msg => msg
  | ValueError msg => msg
  | ServiceError msg => msg
  | OSError msg => msg
  end.

Section Pipeline.
Variable Anthropic : str -> ScriptService.text_service.
Variable ElevenLabs : str -> Voice.service.
Variable path_str : Path -> str.
Variable format_float : float -> str.
Variable env : environment.

(** Step 2: the [try] around the script generator, with the example script
    as the way out. *)
Definition script_step (w : world) (product : ProductData) (language : str)
  : world * ScriptResult :=
  if truthy (getenv_ANTHROPIC_API_KEY env)
  then
    let attempt :=
      match ScriptService.init Anthropic env None with
      | Raise e => Raise e
      | Ok script_gen =>
          let product_info :=
            ProductFormat.format_product_for_script format_float product in
          ScriptService.generate_script script_gen product_info language
                                        (lit "friendly") 180
      end in
    match attempt with
    | Ok script => (w, script)
    | Raise e =>
        (print w (lit "[yellow]Script generation failed: " ++ exn_str e
                  ++ lit ". Using example.[/yellow]"),
         get_example_script)
    end
  else (w, get_example_script).

(** Step 3: the voice-over, real or placeholder; a file that is refused ends
    the run. *)
Definition voice_step (w : world) (product_id : str) (script : ScriptResult)
  : world * result Path :=
  match Voice.get_voice_generator ElevenLabs env w None with
  | (w, Raise e) => (w, Raise e)
  | (w, Ok (Voice.Mock voice_gen)) =>
      Voice.mock_generate_voice_io path_str env voice_gen w
                                   (full_script script)
                                   (product_id ++ lit "_voiceover.txt")
  | (w, Ok (Voice.Real voice_gen)) =>
      Voice.generate_voice_io env voice_gen w (full_script script)
                              (product_id ++ lit "_voiceover.mp3") None
                              (lit "eleven_multilingual_v2") 0.5 0.8 0.4
  end.

(** Step 4: [get_video_generator()] always gives a [SimpleVideoGenerator], so
    the storyboard is the output; its module constant [OUTPUT_DIR] is the one
    of the process.  A storyboard file that is refused ends the run. *)
Definition video_step (w : world) (product_id : str) (product : ProductData)
           (script : ScriptResult) : world * result Path :=
  let video_gen := get_video_generator (Runtime.OUTPUT_DIR env) in
  let w := mkdir w (output_dir video_gen) in
  let output_filename := product_id ++ lit "_storyboard.md" in
  match write_text_error env w (PathDiv (output_dir video_gen) output_filename)
          (storyboard format_float (name product) (images product)
                      (script_sections script) (pros product) (cons product)
                      8.5) with
  | Some e => (w, Raise e)
  | None =>
      let (fs', output_path) :=
        generate_storyboard format_float video_gen (fs w)
                            (name product) (images product)
                            (script_sections script)
                            (pros product) (cons product) 8.5
                            output_filename in
      ({| fs := fs'; dirs := dirs w; stdout := stdout w |}, Ok output_path)
  end.

(** [run_full_pipeline] *)
Definition run_full_pipeline (w : world) (product_id language : str)
  : world * result Path :=
  let w := print w (nl ++ lit "[bold green]🚀 Running Full Pipeline[/bold green]") in
  let w := print w (lit "Product: " ++ product_id ++ lit ", Language: "
                    ++ language ++ nl) in
  let w := if truthy (getenv_ANTHROPIC_API_KEY env) then w
           else print w (lit "[yellow]Warning: ANTHROPIC_API_KEY not set. Using example script.[/yellow]") in
  let w := if truthy (getenv_ELEVENLABS_API_KEY env) then w
           else print w (lit "[yellow]Warning: ELEVENLABS_API_KEY not set. Voice generation will be mocked.[/yellow]") in
  let product := get_product_data product_id in
  let (w, script) := script_step w product language in
  match voice_step w product_id script with
  | (w, Raise e) => (w, Raise e)
  | (w, Ok audio_path) =>
      match video_step w product_id product script with
      | (w, Raise e) => (w, Raise e)
      | (w, Ok output_path) =>
          let w := print w (nl ++ lit "[bold green]✅ Pipeline Complete![/bold green]") in
          let w := print w (lit "Output: [cyan]" ++ path_str output_path
                            ++ lit "[/cyan]") in
          (w, Ok output_path)
      end
  end.
End Pipeline.

End Main.

(** ** Vocabulary of the specification *)
Module Spec.
Import Py ScriptGenerator.

(** A line is blank when nothing is left of it after trimming: the test
    [not line.strip()] of the parser. *)
Definition is_blank (line : str) : bool :=
  match strip line with
  | [] => true
  | _ :: _ => false
  end.

(** A line holds a recognised marker when one of the seven bracketed tokens
    occurs in its upper-cased text. *)
Definition has_marker (line : str) : bool :=
  existsb (fun marker => contains (bracketed marker) (upper line)) section_markers.

(** The seven section names; the bucket that collects the text before the
    first marker is named [intro], one of them. *)
Definition section_names : list str :=
  [lit "hook"; lit "intro"; lit "features"; lit "pros"; lit "cons";
   lit "verdict"; lit "cta"].

Definition default_bucket : str := lit "intro".

(** The non-blank lines of a text, in order. *)
Definition non_blank_lines (text : str) : list str :=
  filter (fun line => negb (is_blank line)) (split newline text).

(** A section written back as a script: its marker on a line of its own, as in
    the example script, then its text. *)
Definition rejoin (key text : str) : str :=
  bracketed (upper key) ++ nl ++ text.

(** The other layout: marker and text on one line. *)
Definition rejoin_inline (key text : str) : str :=
  bracketed (upper key) ++ lit " " ++ text.

(** [parts] occur in [doc] one after the other, without overlap. *)
Fixpoint occur_in_order (parts : list str) (doc : str) : Prop :=
  match parts with
  | [] => True
  | p :: parts' =>
      exists before rest, doc = before ++ p ++ rest /\ occur_in_order parts' rest
  end.

(** The storyboard's seven script slots with their placeholder labels. *)
Definition placeholders : dict str :=
  [ (lit "hook", lit "[Hook]");
    (lit "intro", lit "[Intro]");
    (lit "features", lit "[Features]");
    (lit "pros", lit "[Pros script]");
    (lit "cons", lit "[Cons script]");
    (lit "verdict", lit "[Verdict]");
    (lit "cta", lit "[CTA]") ].

(** The eight scene headings, each script slot filled with its placeholder
    label: every block is a run of whole lines of the document. *)
Definition placeholder_scenes : list (list str) :=
  [ [lit "## Scene 1: Title (0:00-0:05)"];
    [lit "## Scene 2: Hook (0:05-0:15)"; lit "[Hook]"];
    [lit "## Scene 3: Showcase (0:15-0:30)"; lit "Images:"];
    [lit "Script:"; lit "[Intro]"];
    [lit "## Scene 4: Features (0:30-1:15)"; lit "[Features]"];
    [lit "## Scene 5: Pros (1:15-1:45)"];
    [[]; lit "[Pros script]"];
    [lit "## Scene 6: Cons (1:45-2:10)"];
    [[]; lit "[Cons script]"];
    [lit "## Scene 7: Verdict (2:10-2:40)"];
    [[]; lit "[Verdict]"];
    [lit "## Scene 8: CTA (2:40-3:00)"; lit "[CTA]"] ].

(** A block of lines as text, each line closed by a newline. *)
Definition block_text (block : list str) : str := join nl block ++ nl.

(** *** The text of a section

    A collected line is not blank and holds no newline; the text stored for a
    section is the trimmed join of at least one such line. *)
Definition good_line (line : str) : Prop :=
  is_blank line = false /\ ~ In newline line.

Definition good_text (text : str) : Prop :=
  exists buffer, buffer <> [] /\ Forall good_line buffer /\
                 text = strip (join nl buffer).

(** The lines of a buffer once their join is trimmed: white space goes from
    the front of the first line and from the back of the last. *)
Fixpoint rstrip_last (lines : list str) : list str :=
  match lines with
  | [] => []
  | [y] => [rstrip y]
  | y :: r => y :: rstrip_last r
  end.

Definition trim_ends (lines : list str) : list str :=
  match lines with
  | [] => []
  | [x] => [strip x]
  | x :: r => lstrip x :: rstrip_last r
  end.

(** The invariant of the parser's loop. *)
Definition entry_ok (kv : str * str) : Prop :=
  In (fst kv) section_names /\ good_text (snd kv).

Definition invariant (st : state) : Prop :=
  In (current_section st) section_names /\
  Forall entry_ok (sections st) /\
  Forall good_line (current_text st).

End Spec.

(** ** Inputs of the examples *)
Module Inputs.
Import Py.

(** A marker line with a closing bracket before the marker. *)
Definition line_bracket_before_marker : str := lit "a] [HOOK] b".

(** Two markers on one line, the later one first in the enumeration. *)
Definition line_two_markers : str := lit "[CTA] x [HOOK] y".

(** Plain text: two lines with white space around them and a blank line
    between. *)
Definition text_plain : str :=
  lit "  first line" ++ nl ++ nl ++ lit "second line  ".

(** Blank lines only. *)
Definition text_blank : str := lit "  " ++ nl ++ [9%N] ++ nl.

(** A hook section of two lines with a blank line between them. *)
Definition text_hook_two_lines : str :=
  lit "[HOOK] first" ++ nl ++ nl ++ lit "second".

(** A hook line whose text names another marker. *)
Definition text_marker_in_text : str := lit "[HOOK] x [INTRO] y".

(** Plain text whose first line ends in a space. *)
Definition text_trailing_space : str := lit "a " ++ nl ++ lit "b".

End Inputs.

(** ** Vocabulary of the float arithmetic *)
Module FloatSpec.
Local Open Scope Z_scope.

(** Twice a number of the format: the exponent goes up by one, and the
    result is infinite when that leaves the range. *)
Definition scale2 (x : spec_float) : spec_float :=
  match x with
  | S754_finite s m e =>
      if e + 1 <=? emax - prec then S754_finite s m (e + 1)
      else S754_infinity s
  | _ => x
  end.

(** The exponent of a finite number lies in [lo, hi]. *)
Definition exponent_within (lo hi : Z) (x : spec_float) : Prop :=
  match x with
  | S754_finite _ _ e => lo <= e <= hi
  | _ => True
  end.

(** The exponent of a finite number is at least [lo]. *)
Definition exponent_at_least (lo : Z) (x : spec_float) : Prop :=
  match x with
  | S754_finite _ _ e => lo <= e
  | _ => True
  end.

End FloatSpec.

(** ** Vocabulary of the further properties *)
Module ParserSpec.
Import Py ScriptGenerator Spec.

(** A run of lines without marker, none of them blank. *)
Definition plain_lines (lines : list str) : Prop :=
  lines <> [] /\
  Forall (fun line => has_marker line = false /\ is_blank line = false /\
                      ~ In newline line) lines.

End ParserSpec.

Module VoiceSpec.
Import Py VideoGenerator Runtime Voice.

(** Where [generate_from_script] puts the audio of a section. *)
Definition voice_path (self : VoiceGenerator) (section : str) : Path :=
  PathDiv (Voice.output_dir self) (lit "voice_" ++ section ++ lit ".mp3").

(** The request [generate_from_script] sends for a text. *)
Definition section_request (voice_id : option str) (text : str) : request :=
  {| Voice.voice_id := chosen_voice voice_id;
     output_format := lit "mp3_44100_128";
     Voice.text := text;
     model_id := lit "eleven_multilingual_v2";
     voice_settings :=
       {| stability := 0.5; similarity_boost := 0.8; style := 0.4;
          use_speaker_boost := true |} |}.

(** The sections [generate_from_script] does not skip. *)
Definition spoken (script_sections : dict str) : dict str :=
  filter (fun kv => match strip (snd kv) with [] => false | _ :: _ => true end)
         script_sections.

(** The service fails on a request: the call raises, or its iterator does. *)
Definition service_fails (self : VoiceGenerator) (req : request) : Prop :=
  (exists e, client self req = Raise e) \/
  (exists cs e, client self req = Ok {| chunks := cs; failure := Some e |}).

Definition is_raise {A} (r : result A) : bool :=
  match r with
  | Raise _ => true
  | Ok _ => false
  end.

(** The world after the loop over the spoken sections, when the service
    answers [audio req] to every request [req]. *)
Fixpoint spoken_world (self : VoiceGenerator)
         (audio : request -> list (list N)) (voice_id : option str)
         (w : world) (items : list (str * str)) : world :=
  match items with
  | [] => w
  | (section, text) :: rest =>
      spoken_world self audio voice_id
        (write_file (print w (lit "Generating voice for section: " ++ section))
                    (voice_path self section)
                    (concat (audio (section_request voice_id text))))
        rest
  end.

End VoiceSpec.

Module PipelineSpec.
Import Py ScriptGenerator ProductScraper VideoGenerator Runtime.

Definition mock_notice : str :=
  lit "Using MockVoiceGenerator (no API key or elevenlabs not installed)".

(** The storyboard the pipeline writes for a script: always the one of the
    pre-collected product. *)
Definition pipeline_storyboard (format_float : float -> str)
           (script : ScriptResult) : str :=
  storyboard format_float
             (name OWALA_FREESIP_24OZ) (images OWALA_FREESIP_24OZ)
             (script_sections script)
             (pros OWALA_FREESIP_24OZ) (cons OWALA_FREESIP_24OZ) 8.5.

Definition storyboard_path (env : environment) (product_id : str) : Path :=
  PathDiv (Runtime.OUTPUT_DIR env) (product_id ++ lit "_storyboard.md").

(** Where the mock generator of the pipeline puts its placeholder. *)
Definition voiceover_path (product_id : str) : Path :=
  PathDiv (PathOf (lit "./output")) (product_id ++ lit "_voiceover.txt").

End PipelineSpec.

(** ** Inputs of the further examples *)
Module ExtraInputs.
Import Py VideoGenerator Runtime Voice.

(** A generator that writes under [out] and whose service answers every
    request with the bytes of its text in one chunk. *)
Definition echo_generator : VoiceGenerator :=
  {| api_key := lit "key";
     client := fun req => Ok {| chunks := [Voice.text req]; failure := None |};
     Voice.output_dir := PathOf (lit "out") |}.

(** A generator whose service raises on every request. *)
Definition failing_generator : VoiceGenerator :=
  {| api_key := lit "key";
     client := fun _ => Raise (ServiceError (lit "quota exceeded"));
     Voice.output_dir := PathOf (lit "out") |}.

Definition empty_world : world := {| fs := []; dirs := []; stdout := [] |}.

(** Nothing configured: no key, no speech library. *)
Definition env_no_keys : environment :=
  {| getenv_ANTHROPIC_API_KEY := None;
     getenv_ELEVENLABS_API_KEY := None;
     ANTHROPIC_API_KEY := [];
     ELEVENLABS_API_KEY := [];
     ELEVENLABS_AVAILABLE := false;
     OUTPUT_DIR := PathOf (lit "output");
     write_text_error := fun _ _ _ => None;
     open_error := fun _ _ => None |}.


(** The speech key and library are there; the text key is in the
    environment but not among the settings. *)
Definition env_voice_key : environment :=
  {| getenv_ANTHROPIC_API_KEY := Some (lit "sk-text");
     getenv_ELEVENLABS_API_KEY := Some (lit "sk-voice");
     ANTHROPIC_API_KEY := [];
     ELEVENLABS_API_KEY := lit "sk-voice";
     ELEVENLABS_AVAILABLE := true;
     OUTPUT_DIR := PathOf (lit "output");
     write_text_error := fun _ _ _ => None;
     open_error := fun _ _ => None |}.

(** Services that are down. *)
Definition text_service_down (key : str) : ScriptService.text_service :=
  fun _ => Raise (ServiceError (lit "overloaded")).

Definition voice_service_down (key : str) : Voice.service :=
  fun _ => Raise (ServiceError (lit "quota exceeded")).

Definition show_path (p : Path) : str := lit "<path>".
Definition show_float (x : float) : str := lit "<float>".

End ExtraInputs.

(** * Facts about the string operations *)
Module PyFacts.
Import Py.

Lemma str_eqb_eq (a b : str) : str_eqb a b = true <-> a = b.
Proof.
  revert b; induction a as [|x a IH]; intros [|y b]; simpl; split; intro H;
    try reflexivity; try discriminate.
  - apply andb_true_iff in H as [Hx Hab].
    apply N.eqb_eq in Hx. apply IH in Hab. now subst.
  - injection H as -> ->. rewrite N.eqb_refl. now apply IH.
Qed.

Lemma str_eqb_refl (a : str) : str_eqb a a = true.
Proof. now apply str_eqb_eq. Qed.

Lemma Forall_true_of_forallb {A} (f : A -> bool) (l : list A) :
  forallb f l = true -> Forall (fun x => f x = true) l.
Proof.
  intros H. apply Forall_forall. now apply forallb_forall.
Qed.

Lemma Forall_false_of_forallb {A} (f : A -> bool) (l : list A) :
  forallb (fun x => negb (f x)) l = true -> Forall (fun x => f x = false) l.
Proof.
  intros H. apply Forall_forall. intros x Hx.
  rewrite forallb_forall in H. apply H in Hx. now destruct (f x).
Qed.

(** *** Trimming *)

Lemma lstrip_nil_iff (s : str) : lstrip s = [] <-> forallb is_space s = true.
Proof.
  induction s as [|c s IH]; simpl; [tauto|].
  destruct (is_space c); simpl; [exact IH|].
  split; discriminate.
Qed.

Lemma rstrip_nil_iff (s : str) : rstrip s = [] <-> forallb is_space s = true.
Proof.
  induction s as [|c s IH]; simpl; [tauto|].
  destruct (rstrip s) as [|d r] eqn:E.
  - destruct (is_space c); simpl.
    + split; intros _; [now apply IH | reflexivity].
    + split; discriminate.
  - split; [discriminate|].
    intros H. apply andb_true_iff in H as [_ H]. now apply IH in H.
Qed.

Lemma forallb_space_lstrip (s : str) :
  forallb is_space (lstrip s) = forallb is_space s.
Proof.
  induction s as [|c s IH]; simpl; [reflexivity|].
  destruct (is_space c) eqn:E; simpl; [exact IH|].
  now rewrite E.
Qed.

Lemma forallb_space_rstrip (s : str) :
  forallb is_space (rstrip s) = forallb is_space s.
Proof.
  induction s as [|c s IH]; simpl; [reflexivity|].
  destruct (rstrip s) as [|d r] eqn:E.
  - assert (Hs : forallb is_space s = true) by now apply rstrip_nil_iff.
    rewrite Hs, andb_true_r. destruct (is_space c) eqn:Ec; simpl;
      [reflexivity | now rewrite Ec].
  - change (forallb is_space (c :: d :: r))
      with (is_space c && forallb is_space (d :: r)).
    now rewrite IH.
Qed.

Lemma strip_nil_iff (s : str) : strip s = [] <-> forallb is_space s = true.
Proof.
  unfold strip. rewrite rstrip_nil_iff, forallb_space_lstrip. tauto.
Qed.

Lemma forallb_space_strip (s : str) :
  forallb is_space (strip s) = forallb is_space s.
Proof.
  unfold strip. now rewrite forallb_space_rstrip, forallb_space_lstrip.
Qed.

Lemma lstrip_head (s : str) :
  lstrip s = [] \/ exists c r, lstrip s = c :: r /\ is_space c = false.
Proof.
  induction s as [|c s IH]; simpl; [now left|].
  destruct (is_space c) eqn:E; [exact IH|].
  right. now exists c, s.
Qed.

Lemma rstrip_cons_nonspace (c : N) (r : str) :
  is_space c = false -> rstrip (c :: r) = c :: rstrip r.
Proof.
  intros E. simpl. destruct (rstrip r); [now rewrite E | reflexivity].
Qed.

Lemma rstrip_idem (s : str) : rstrip (rstrip s) = rstrip s.
Proof.
  induction s as [|c s IH]; simpl; [reflexivity|].
  destruct (rstrip s) as [|d r] eqn:E.
  - destruct (is_space c) eqn:Ec; simpl; [reflexivity | now rewrite Ec].
  - change (rstrip (c :: d :: r))
      with (match rstrip (d :: r) with
            | [] => if is_space c then [] else [c]
            | r' => c :: r'
            end).
    now rewrite IH.
Qed.

Lemma strip_idem (s : str) : strip (strip s) = strip s.
Proof.
  unfold strip.
  destruct (lstrip_head s) as [E | (c & r & E & Hc)]; rewrite E.
  - reflexivity.
  - rewrite (rstrip_cons_nonspace c r Hc). simpl lstrip. rewrite Hc.
    rewrite <- (rstrip_cons_nonspace c r Hc). apply rstrip_idem.
Qed.

Lemma lstrip_app (a b : str) :
  lstrip a <> [] -> lstrip (a ++ b) = lstrip a ++ b.
Proof.
  induction a as [|c a IH]; simpl; [congruence|].
  destruct (is_space c); [exact IH | reflexivity].
Qed.

Lemma rstrip_app (a b : str) :
  rstrip b <> [] -> rstrip (a ++ b) = a ++ rstrip b.
Proof.
  intros Hb. induction a as [|c a IH]; simpl; [reflexivity|].
  rewrite IH. destruct (a ++ rstrip b) eqn:E; [|reflexivity].
  apply app_eq_nil in E as [_ E]. contradiction.
Qed.

Lemma in_lstrip (c : N) (s : str) : In c (lstrip s) -> In c s.
Proof.
  induction s as [|d s IH]; simpl; [tauto|].
  destruct (is_space d); simpl; tauto.
Qed.

Lemma in_rstrip (c : N) (s : str) : In c (rstrip s) -> In c s.
Proof.
  induction s as [|d s IH]; simpl; [tauto|].
  destruct (rstrip s) as [|e r].
  - destruct (is_space d); simpl; tauto.
  - intros [H | H]; [now left | right; now apply IH].
Qed.

Lemma in_strip (c : N) (s : str) : In c (strip s) -> In c s.
Proof. intros H. now apply in_lstrip, in_rstrip. Qed.

(** *** Splitting and joining *)

Lemma split_not_nil (sep : N) (s : str) : split sep s <> [].
Proof.
  destruct s as [|c r]; simpl; [discriminate|].
  destruct (c =? sep)%N; [discriminate|].
  destruct (split sep r); discriminate.
Qed.

Lemma split_no_sep (sep : N) (s : str) :
  Forall (fun l => ~ In sep l) (split sep s).
Proof.
  induction s as [|c r IH]; simpl.
  - constructor; [tauto | constructor].
  - destruct (c =? sep)%N eqn:E.
    + constructor; [tauto | exact IH].
    + destruct (split sep r) as [|l ls]; inversion IH; subst.
      * constructor; [|constructor]. simpl. intros [H | []].
        subst. now rewrite N.eqb_refl in E.
      * constructor; [|assumption]. simpl. intros [H | H]; [|tauto].
        subst. now rewrite N.eqb_refl in E.
Qed.

Lemma join_cons2 (sep x y : str) (r : list str) :
  join sep (x :: y :: r) = x ++ sep ++ join sep (y :: r).
Proof. reflexivity. Qed.

Lemma join_split (sep : N) (s : str) : join [sep] (split sep s) = s.
Proof.
  induction s as [|c r IH]; simpl; [reflexivity|].
  destruct (c =? sep)%N eqn:E.
  - apply N.eqb_eq in E. subst c.
    pose proof (split_not_nil sep r) as Hn.
    destruct (split sep r) as [|l ls]; [contradiction|].
    rewrite join_cons2, IH. reflexivity.
  - destruct (split sep r) as [|l ls] eqn:Es.
    + now destruct (split_not_nil sep r).
    + destruct ls as [|l' ls'].
      * simpl in *. now rewrite IH.
      * rewrite join_cons2. rewrite join_cons2 in IH. now rewrite <- IH.
Qed.

Lemma split_app_sep (sep : N) (a b : str) :
  ~ In sep a -> split sep (a ++ sep :: b) = a :: split sep b.
Proof.
  induction a as [|c a IH]; simpl; intros Ha.
  - now rewrite N.eqb_refl.
  - destruct (c =? sep)%N eqn:E.
    + apply N.eqb_eq in E. tauto.
    + rewrite IH by tauto. reflexivity.
Qed.

Lemma split_no_sep_id (sep : N) (a : str) :
  ~ In sep a -> split sep a = [a].
Proof.
  induction a as [|c a IH]; simpl; intros Ha; [reflexivity|].
  destruct (c =? sep)%N eqn:E.
  - apply N.eqb_eq in E. tauto.
  - rewrite IH by tauto. reflexivity.
Qed.

Lemma split_join (sep : N) (l : list str) :
  l <> [] -> Forall (fun x => ~ In sep x) l -> split sep (join [sep] l) = l.
Proof.
  induction l as [|x l IH]; [congruence|].
  intros _ H. inversion H as [|? ? Hx Hl]; subst.
  destruct l as [|y l].
  - simpl. now apply split_no_sep_id.
  - rewrite join_cons2.
    change (x ++ [sep] ++ join [sep] (y :: l))
      with (x ++ sep :: join [sep] (y :: l)).
    rewrite split_app_sep by assumption.
    rewrite IH; [reflexivity | discriminate | assumption].
Qed.

Lemma in_split1_last (sep c : N) (s : str) :
  In c (last_item (split1 sep s)) -> In c s.
Proof.
  unfold last_item. induction s as [|d r IH]; simpl; [tauto|].
  destruct (d =? sep)%N; [tauto|].
  destruct (split1 sep r) as [|l ls]; simpl.
  - intros [H | []]; now left.
  - destruct ls as [|l' ls'].
    + simpl in IH. intros [H | H]; [now left | right; now apply IH].
    + intros H. right. now apply IH.
Qed.

(** The text after the first separator, when there is one. *)
Lemma split1_app_sep (sep : N) (a b : str) :
  ~ In sep a -> split1 sep (a ++ sep :: b) = [a; b].
Proof.
  induction a as [|c a IH]; simpl; intros Ha.
  - now rewrite N.eqb_refl.
  - destruct (c =? sep)%N eqn:E.
    + apply N.eqb_eq in E. tauto.
    + rewrite IH by tauto. reflexivity.
Qed.

Lemma split1_last_app (sep : N) (a b : str) :
  ~ In sep a -> last_item (split1 sep (a ++ sep :: b)) = b.
Proof. intros Ha. now rewrite split1_app_sep. Qed.

(** *** Substring search *)

Lemma contains_head (p : N) (needle hay : str) :
  contains (p :: needle) hay = true -> In p hay.
Proof.
  induction hay as [|d hay IH]; simpl.
  - discriminate.
  - intros H. apply orb_true_iff in H as [H | H].
    + apply andb_true_iff in H as [H _]. apply N.eqb_eq in H. now left.
    + right. now apply IH.
Qed.

Lemma upper_space (c : N) : is_space c = true -> upper_char c = [c].
Proof.
  unfold is_space. intros H. apply existsb_exists in H as (w & Hw & E).
  apply N.eqb_eq in E. subst w.
  repeat (destruct Hw as [<- | Hw]; [vm_compute; reflexivity|]).
  destruct Hw.
Qed.

Lemma upper_all_space (s : str) :
  forallb is_space s = true -> upper s = s.
Proof.
  induction s as [|c s IH]; simpl; [reflexivity|].
  intros H. apply andb_true_iff in H as [Hc Hs].
  unfold upper in *. simpl. rewrite (upper_space c Hc), IH by assumption.
  reflexivity.
Qed.

End PyFacts.

(** * Facts about the script-section parser *)
Module ParserFacts.
Import Py ScriptGenerator Spec PyFacts.

Lemma is_blank_spec (line : str) : is_blank line = forallb is_space line.
Proof.
  unfold is_blank. destruct (strip line) as [|c r] eqn:E.
  - symmetry. now apply strip_nil_iff.
  - destruct (forallb is_space line) eqn:F; [|reflexivity].
    apply strip_nil_iff in F. congruence.
Qed.

Lemma bracketed_cons (marker : str) :
  bracketed marker = 91%N :: marker ++ [93%N].
Proof. reflexivity. Qed.

(** A blank line holds no marker: an opening bracket is not white space, and
    upper-casing leaves white space alone. *)
Lemma blank_no_marker (line : str) :
  is_blank line = true -> has_marker line = false.
Proof.
  rewrite is_blank_spec. intros Hb.
  destruct (has_marker line) eqn:E; [|reflexivity].
  apply existsb_exists in E as (m & _ & Hc).
  rewrite (upper_all_space line Hb), bracketed_cons in Hc.
  apply contains_head in Hc.
  rewrite forallb_forall in Hb. apply Hb in Hc. discriminate.
Qed.

Lemma scan_markers_none (markers : list str) (st : state) (line : str) :
  existsb (fun m => contains (bracketed m) (upper line)) markers = false ->
  scan_markers markers st line = None.
Proof.
  induction markers as [|m ms IH]; simpl; [reflexivity|].
  intros H. apply orb_false_iff in H as [Hm Hms].
  rewrite Hm. now apply IH.
Qed.

Lemma scan_markers_first (before after : list str) (m : str)
      (st : state) (line : str) :
  contains (bracketed m) (upper line) = true ->
  (forall m', In m' before -> contains (bracketed m') (upper line) = false) ->
  scan_markers (before ++ m :: after) st line = Some (start_section st m line).
Proof.
  intros Hm. induction before as [|b bs IH]; simpl; intros Hb.
  - now rewrite Hm.
  - rewrite (Hb b) by now left. apply IH. intros m' H. apply Hb. now right.
Qed.

Lemma scan_markers_some (markers : list str) (st st' : state) (line : str) :
  scan_markers markers st line = Some st' ->
  exists m, In m markers /\ st' = start_section st m line.
Proof.
  induction markers as [|m ms IH]; simpl; [discriminate|].
  destruct (contains (bracketed m) (upper line)).
  - intros [= <-]. exists m. split; [now left | reflexivity].
  - intros H. destruct (IH H) as (m' & Hin & ->). exists m'. split; [now right | reflexivity].
Qed.

Lemma scan_markers_found (st : state) (line : str) :
  has_marker line = true ->
  exists m, In m section_markers /\
            scan_markers section_markers st line = Some (start_section st m line).
Proof.
  unfold has_marker. generalize section_markers.
  induction l as [|m ms IH]; simpl; [discriminate|].
  destruct (contains (bracketed m) (upper line)); simpl.
  - intros _. exists m. split; [now left | reflexivity].
  - intros H. destruct (IH H) as (m' & Hin & E). exists m'. split; [now right | exact E].
Qed.

(** A line without marker is dropped when blank and collected otherwise. *)
Lemma process_line_plain (st : state) (line : str) :
  has_marker line = false ->
  process_line st line =
    {| sections := sections st;
       current_section := current_section st;
       current_text :=
         current_text st ++ (if is_blank line then [] else [line]) |}.
Proof.
  intros H. unfold process_line.
  rewrite (scan_markers_none _ st line H). unfold is_blank.
  destruct (strip line); [|reflexivity].
  rewrite app_nil_r. now destruct st.
Qed.

Lemma fold_plain (lines : list str) (st : state) :
  Forall (fun line => has_marker line = false) lines ->
  fold_left process_line lines st =
    {| sections := sections st;
       current_section := current_section st;
       current_text :=
         current_text st ++ filter (fun line => negb (is_blank line)) lines |}.
Proof.
  revert st. induction lines as [|l ls IH]; intros st H; simpl.
  - rewrite app_nil_r. now destruct st.
  - inversion H as [|? ? Hl Hls]; subst.
    rewrite IH by assumption. rewrite (process_line_plain st l Hl). simpl.
    destruct (is_blank l); simpl.
    + now rewrite app_nil_r.
    + now rewrite <- app_assoc.
Qed.

(** *** The text of a section *)

Lemma good_line_lstrip (l : str) : good_line l -> good_line (lstrip l).
Proof.
  intros [Hb Hn]. split.
  - rewrite is_blank_spec in *. now rewrite forallb_space_lstrip.
  - intros H. now apply Hn, in_lstrip.
Qed.

Lemma good_line_rstrip (l : str) : good_line l -> good_line (rstrip l).
Proof.
  intros [Hb Hn]. split.
  - rewrite is_blank_spec in *. now rewrite forallb_space_rstrip.
  - intros H. now apply Hn, in_rstrip.
Qed.

Lemma good_line_strip (l : str) : good_line l -> good_line (strip l).
Proof. intros H. now apply good_line_rstrip, good_line_lstrip. Qed.

Lemma good_line_lstrip_not_nil (l : str) : good_line l -> lstrip l <> [].
Proof.
  intros [Hb _] H. rewrite is_blank_spec in Hb.
  apply lstrip_nil_iff in H. congruence.
Qed.

Lemma good_line_rstrip_not_nil (l : str) : good_line l -> rstrip l <> [].
Proof.
  intros [Hb _] H. rewrite is_blank_spec in Hb.
  apply rstrip_nil_iff in H. congruence.
Qed.

Lemma rstrip_last_good (lines : list str) :
  Forall good_line lines -> Forall good_line (rstrip_last lines).
Proof.
  induction lines as [|y r IH]; intros H; [constructor|].
  inversion H as [|? ? Hy Hr]; subst.
  destruct r as [|z r].
  - constructor; [now apply good_line_rstrip | constructor].
  - change (rstrip_last (y :: z :: r)) with (y :: rstrip_last (z :: r)).
    constructor; [assumption | now apply IH].
Qed.

Lemma trim_ends_good (lines : list str) :
  Forall good_line lines -> Forall good_line (trim_ends lines).
Proof.
  destruct lines as [|x r]; intros H; [constructor|].
  inversion H as [|? ? Hx Hr]; subst.
  destruct r as [|z r].
  - constructor; [now apply good_line_strip | constructor].
  - change (trim_ends (x :: z :: r)) with (lstrip x :: rstrip_last (z :: r)).
    constructor; [now apply good_line_lstrip | now apply rstrip_last_good].
Qed.

Lemma rstrip_join (lines : list str) :
  lines <> [] -> Forall good_line lines ->
  rstrip (join nl lines) = join nl (rstrip_last lines) /\
  rstrip (join nl lines) <> [].
Proof.
  induction lines as [|y r IH]; [congruence|].
  intros _ H. inversion H as [|? ? Hy Hr]; subst.
  destruct r as [|z r].
  - simpl. split; [reflexivity | now apply good_line_rstrip_not_nil].
  - destruct IH as [IH1 IH2]; [discriminate | assumption |].
    change (rstrip_last (y :: z :: r)) with (y :: rstrip_last (z :: r)).
    destruct (rstrip_last (z :: r)) as [|w ws] eqn:Ew.
    { destruct r; discriminate. }
    rewrite !join_cons2, !app_assoc, rstrip_app by assumption.
    rewrite IH1. split; [reflexivity|].
    intros E. apply app_eq_nil in E as [_ E]. rewrite <- IH1 in E. contradiction.
Qed.

Lemma strip_join (lines : list str) :
  lines <> [] -> Forall good_line lines ->
  strip (join nl lines) = join nl (trim_ends lines).
Proof.
  destruct lines as [|x r]; [congruence|].
  intros _ H. inversion H as [|? ? Hx Hr]; subst.
  destruct r as [|z r]; [reflexivity|].
  change (trim_ends (x :: z :: r)) with (lstrip x :: rstrip_last (z :: r)).
  destruct (rstrip_join (z :: r)) as [R1 R2]; [discriminate | assumption |].
  destruct (rstrip_last (z :: r)) as [|w ws] eqn:Ew.
  { destruct r; discriminate. }
  unfold strip. rewrite !join_cons2.
  rewrite lstrip_app by now apply good_line_lstrip_not_nil.
  rewrite !app_assoc, rstrip_app by assumption.
  now rewrite R1.
Qed.

Lemma trim_ends_not_nil (lines : list str) :
  lines <> [] -> trim_ends lines <> [].
Proof. destruct lines as [|x [|z r]]; [congruence | discriminate | discriminate]. Qed.

(** What is stored for a section: no blank line, and nothing left to trim. *)
Lemma good_text_lines (text : str) :
  good_text text ->
  Forall (fun line => is_blank line = false) (split newline text) /\
  strip text = text.
Proof.
  intros (b & Hb & Hg & ->). split.
  - rewrite strip_join by assumption.
    rewrite split_join.
    + eapply Forall_impl; [|apply trim_ends_good, Hg]. now intros l [H _].
    + now apply trim_ends_not_nil.
    + eapply Forall_impl; [|apply trim_ends_good, Hg]. now intros l [_ H].
  - apply strip_idem.
Qed.

(** *** The loop invariant *)

Lemma dict_set_Forall {V} (P : str * V -> Prop) (d : dict V) (k : str) (v : V) :
  Forall P d -> P (k, v) -> Forall P (dict_set d k v).
Proof.
  induction d as [|[k' v'] d IH]; simpl; intros Hd Hkv.
  - constructor; [assumption | constructor].
  - inversion Hd as [|? ? Hh Ht]; subst.
    destruct (str_eqb k' k) eqn:E.
    + apply str_eqb_eq in E. subst k'. now constructor.
    + constructor; [assumption | now apply IH].
Qed.

Lemma lower_marker_name (m : str) :
  In m section_markers -> In (lower m) section_names.
Proof.
  intros H. repeat (destruct H as [<- | H]; [vm_compute; tauto|]). destruct H.
Qed.

Lemma invariant_initial : invariant initial_state.
Proof.
  split; [|split]; [|constructor|constructor].
  vm_compute; tauto.
Qed.

Lemma invariant_save (st : state) :
  invariant st -> Forall entry_ok (save_section st).
Proof.
  intros (Hc & Hs & Ht). unfold save_section.
  destruct (current_text st) as [|x r] eqn:E; [assumption|].
  apply dict_set_Forall; [assumption|].
  split; [assumption|]. exists (x :: r). repeat split; [discriminate | assumption].
Qed.

Lemma remaining_good (line : str) :
  ~ In newline line -> remaining line <> [] -> good_line (remaining line).
Proof.
  intros Hn Hr. unfold remaining in *. split.
  - rewrite is_blank_spec, forallb_space_strip.
    destruct (forallb is_space (last_item (split1 93 line))) eqn:E; [|reflexivity].
    apply strip_nil_iff in E. contradiction.
  - intros H. apply in_strip, in_split1_last in H. contradiction.
Qed.

Lemma invariant_start (st : state) (m line : str) :
  In m section_markers -> ~ In newline line ->
  invariant st -> invariant (start_section st m line).
Proof.
  intros Hm Hn Hi. split; [|split]; simpl.
  - now apply lower_marker_name.
  - now apply invariant_save.
  - destruct (remaining line) as [|c r] eqn:E; constructor; [|constructor].
    rewrite <- E. apply remaining_good; [assumption | congruence].
Qed.

Lemma invariant_step (st : state) (line : str) :
  ~ In newline line -> invariant st -> invariant (process_line st line).
Proof.
  intros Hn Hi. unfold process_line.
  destruct (scan_markers section_markers st line) as [st'|] eqn:E.
  - apply scan_markers_some in E as (m & Hm & ->). now apply invariant_start.
  - destruct (strip line) as [|c r] eqn:Es; [assumption|].
    destruct Hi as (Hc & Hs & Ht). split; [|split]; simpl; try assumption.
    apply Forall_app. split; [assumption|].
    constructor; [|constructor]. split; [|assumption].
    unfold is_blank. now rewrite Es.
Qed.

Lemma invariant_fold (lines : list str) (st : state) :
  Forall (fun line => ~ In newline line) lines ->
  invariant st -> invariant (fold_left process_line lines st).
Proof.
  revert st. induction lines as [|l ls IH]; intros st Hl Hi; simpl; [assumption|].
  inversion Hl; subst. apply IH; [assumption|]. now apply invariant_step.
Qed.

(** Every entry of the returned mapping: its key is a section name, its text
    the trimmed join of non-blank lines. *)
Lemma parse_entries (script_text : str) :
  Forall entry_ok (_parse_script_sections script_text).
Proof.
  apply invariant_save, invariant_fold.
  - apply split_no_sep.
  - apply invariant_initial.
Qed.

(** A marker on a line of its own opens its section and collects nothing. *)
Lemma marker_line (k : str) :
  In k section_names ->
  ~ In newline (bracketed (upper k)) /\
  process_line initial_state (bracketed (upper k)) =
    {| sections := []; current_section := k; current_text := [] |}.
Proof.
  intros H.
  repeat (destruct H as [<- | H];
          [split; [vm_compute; intuition discriminate | vm_compute; reflexivity]|]).
  destruct H.
Qed.

(** The parse of a text without markers. *)
Lemma parse_plain (script_text : str) :
  Forall (fun line => has_marker line = false) (split newline script_text) ->
  _parse_script_sections script_text =
    match non_blank_lines script_text with
    | [] => []
    | _ :: _ => [(default_bucket, strip (join nl (non_blank_lines script_text)))]
    end.
Proof.
  intros H. unfold _parse_script_sections. rewrite fold_plain by assumption.
  unfold save_section, non_blank_lines. simpl.
  destruct (filter _ (split newline script_text)); reflexivity.
Qed.

End ParserFacts.

(** * Facts about the storyboard renderer *)
Module StoryboardFacts.
Import Py Spec PyFacts VideoGenerator.

Lemma path_eqb_refl (p : Path) : path_eqb p p = true.
Proof.
  induction p as [s | p IH s]; simpl.
  - apply str_eqb_refl.
  - now rewrite IH, str_eqb_refl.
Qed.

Lemma read_write_text (fs : files) (p : Path) (s : str) :
  read_text (write_text fs p s) p = Some s.
Proof.
  induction fs as [|[q t] fs IH]; simpl.
  - now rewrite path_eqb_refl.
  - destruct (path_eqb q p) eqn:E; simpl; now rewrite E.
Qed.

Lemma join_app (sep : str) (l1 l2 : list str) :
  l1 <> [] -> l2 <> [] ->
  join sep (l1 ++ l2) = join sep l1 ++ sep ++ join sep l2.
Proof.
  intros H1 H2. induction l1 as [|x l1 IH]; [congruence|].
  destruct l1 as [|y l1].
  - destruct l2 as [|z l2]; [congruence | reflexivity].
  - change ((x :: y :: l1) ++ l2) with (x :: (y :: l1) ++ l2).
    change ((y :: l1) ++ l2) with (y :: l1 ++ l2) at 1.
    rewrite !join_cons2.
    change (y :: l1 ++ l2) with ((y :: l1) ++ l2).
    rewrite IH by discriminate. now rewrite <- !app_assoc.
Qed.

Lemma occur_prefix (parts : list str) (pre doc : str) :
  occur_in_order parts doc -> occur_in_order parts (pre ++ doc).
Proof.
  destruct parts as [|p ps]; simpl; [trivial|].
  intros (before & rest & -> & H).
  exists (pre ++ before), rest. split; [now rewrite app_assoc | assumption].
Qed.

Lemma occur_skip (parts : list str) (line : str) (rest : list str) :
  rest <> [] ->
  occur_in_order parts (join nl rest) ->
  occur_in_order parts (join nl (line :: rest)).
Proof.
  intros Hr H. destruct rest as [|y r]; [congruence|].
  rewrite join_cons2, app_assoc. now apply occur_prefix.
Qed.

Lemma occur_here (block : list str) (parts : list str)
      (lines rest : list str) :
  lines = block ++ rest -> block <> [] -> rest <> [] ->
  occur_in_order parts (join nl rest) ->
  occur_in_order (block_text block :: parts) (join nl lines).
Proof.
  intros -> Hb Hr H. simpl.
  exists [], (join nl rest). split; [|assumption].
  rewrite join_app by assumption. unfold block_text.
  now rewrite <- app_assoc.
Qed.

(** Walk down the lines of the document: take a block where its first line
    stands, step over every other line. *)
Ltac find_blocks :=
  repeat lazymatch goal with
    | |- occur_in_order [] _ => exact I
    | |- occur_in_order (block_text (?b :: _) :: _) (join nl (?b :: _)) =>
        first [ eapply occur_here; [reflexivity | discriminate | discriminate |]
              | apply occur_skip; [discriminate|] ]
    | |- occur_in_order _ (join nl (_ :: _)) =>
        apply occur_skip; [discriminate|]
    end.

End StoryboardFacts.

(** * Facts about the float arithmetic of the cost estimate *)
Module FloatFacts.
Import FloatSpec.
Local Open Scope Z_scope.

Lemma digits2_size (p : positive) : digits2_pos p = Pos.size p.
Proof. induction p; simpl; congruence. Qed.

Lemma Zdigits2_log2 (m : Z) : 0 < m -> Zdigits2 m = Z.log2 m + 1.
Proof.
  destruct m as [|p|p]; try lia. intros _.
  destruct p; simpl; rewrite ?digits2_size; lia.
Qed.

Lemma Zdigits2_nonneg (m : Z) : 0 <= Zdigits2 m.
Proof. destruct m; simpl; lia. Qed.

Lemma Zdigits2_pos (p : positive) : 1 <= Zdigits2 (Z.pos p).
Proof. simpl. lia. Qed.

Lemma Zdigits2_mono (a b : Z) : 0 <= a <= b -> Zdigits2 a <= Zdigits2 b.
Proof.
  intros [Ha Hab]. destruct (Z.eq_dec a 0) as [-> | Hn].
  - apply Zdigits2_nonneg.
  - rewrite !Zdigits2_log2 by lia.
    pose proof (Z.log2_le_mono a b Hab). lia.
Qed.

Lemma Zdigits2_succ (a : Z) : 0 <= a -> Zdigits2 (a + 1) <= Zdigits2 a + 1.
Proof.
  intros Ha. destruct (Z.eq_dec a 0) as [-> | Hn]; [simpl; lia|].
  rewrite !Zdigits2_log2 by lia.
  pose proof (Z.log2_succ_le a). unfold Z.succ in *. lia.
Qed.

Lemma Zdigits2_mul_pow2 (a k : Z) :
  0 < a -> 0 <= k -> Zdigits2 (a * 2 ^ k) = Zdigits2 a + k.
Proof.
  intros Ha Hk. rewrite !Zdigits2_log2 by nia.
  rewrite Z.log2_mul_pow2 by lia. lia.
Qed.

Lemma fexp_normal (t : Z) : -1021 <= t -> fexp prec emax t = t - prec.
Proof.
  intros H. unfold fexp. change (emin prec emax) with (-1074).
  change prec with 53. lia.
Qed.

(** The exponent after a shift, away from the subnormal range. *)
Lemma shr_fexp_snd (m e : Z) (l : location) :
  -1021 <= e ->
  snd (shr_fexp prec emax m e l) = e + Z.max (Zdigits2 m - prec) 0.
Proof.
  intros H. unfold shr_fexp.
  pose proof (Zdigits2_nonneg m) as Hd.
  rewrite fexp_normal by lia.
  replace (Zdigits2 m + e - prec - e) with (Zdigits2 m - prec) by lia.
  unfold shr. destruct (Zdigits2 m - prec) eqn:E; simpl; lia.
Qed.

Lemma shr_fexp_fst (m e e' : Z) (l : location) :
  -1021 <= e -> -1021 <= e' ->
  fst (shr_fexp prec emax m e l) = fst (shr_fexp prec emax m e' l).
Proof.
  intros H H'. unfold shr_fexp.
  pose proof (Zdigits2_nonneg m) as Hd.
  rewrite !fexp_normal by lia.
  replace (Zdigits2 m + e - prec - e) with (Zdigits2 m - prec) by lia.
  replace (Zdigits2 m + e' - prec - e') with (Zdigits2 m - prec) by lia.
  unfold shr. now destruct (Zdigits2 m - prec).
Qed.

Lemma shr_fexp_succ (m e : Z) (l : location) :
  -1021 <= e ->
  shr_fexp prec emax m (e + 1) l
  = (fst (shr_fexp prec emax m e l), snd (shr_fexp prec emax m e l) + 1).
Proof.
  intros H.
  rewrite (surjective_pairing (shr_fexp prec emax m (e + 1) l)).
  rewrite (shr_fexp_fst m (e + 1) e) by lia.
  rewrite !shr_fexp_snd by lia. f_equal. lia.
Qed.

(** Rounding commutes with a step of the exponent. *)
Lemma binary_round_aux_succ (s : bool) (m e : Z) (l : location) :
  -1021 <= e ->
  binary_round_aux prec emax s m (e + 1) l
  = scale2 (binary_round_aux prec emax s m e l).
Proof.
  intros H. unfold binary_round_aux.
  rewrite shr_fexp_succ by assumption.
  pose proof (shr_fexp_snd m e l H) as E1.
  destruct (shr_fexp prec emax m e l) as [mrs' e'].
  cbn [fst snd] in *.
  pose proof (Zdigits2_nonneg m).
  rewrite shr_fexp_succ by lia.
  destruct (shr_fexp prec emax
              (round_nearest_even (shr_m mrs') (loc_of_shr_record mrs'))
              e' loc_Exact) as [mrs'' e''].
  cbn [fst snd].
  destruct (shr_m mrs''); try reflexivity.
  unfold scale2.
  destruct (e'' <=? emax - prec) eqn:L1;
    destruct (e'' + 1 <=? emax - prec) eqn:L2; try reflexivity.
  apply Z.leb_le in L2. apply Z.leb_gt in L1. lia.
Qed.

Lemma iter_pos_inv {A} (f : A -> A) (P : A -> Prop) :
  (forall x, P x -> P (f x)) ->
  forall (p : positive) (x : A), P x -> P (iter_pos f p x).
Proof.
  intros Hf. induction p as [p IH | p IH |]; intros x Hx; simpl.
  - apply IH, IH, Hf, Hx.
  - apply IH, IH, Hx.
  - apply Hf, Hx.
Qed.

Lemma shr_1_le (M : Z) (r : shr_record) :
  0 <= shr_m r <= M -> 0 <= shr_m (shr_1 r) <= M.
Proof.
  destruct r as [m r s]. simpl. destruct m as [|[p|p|]|p]; simpl; lia.
Qed.

Lemma shr_fexp_m_le (m e : Z) (l : location) :
  0 <= m -> 0 <= shr_m (fst (shr_fexp prec emax m e l)) <= m.
Proof.
  intros Hm. unfold shr_fexp, shr.
  assert (H0 : 0 <= shr_m (shr_record_of_loc m l) <= m).
  { destruct l as [|[]]; simpl; lia. }
  destruct (fexp prec emax (Zdigits2 m + e) - e); simpl; try exact H0.
  apply (iter_pos_inv shr_1 (fun r => 0 <= shr_m r <= m)); [|exact H0].
  intros x. apply shr_1_le.
Qed.

Lemma round_nearest_even_bounds (x : Z) (l : location) :
  x <= round_nearest_even x l <= x + 1.
Proof.
  destruct l as [|[]]; simpl; try lia. destruct (Z.even x); lia.
Qed.

(** The exponent of a rounded number, from below and (coarsely) from
    above. *)
Lemma binary_round_aux_exponent (s : bool) (m e : Z) (l : location) :
  0 <= m -> -1021 <= e ->
  exponent_within e (e + 2 * Z.max (Zdigits2 m - 52) 0)
                  (binary_round_aux prec emax s m e l).
Proof.
  intros Hm H. unfold binary_round_aux.
  pose proof (shr_fexp_snd m e l H) as E1.
  pose proof (shr_fexp_m_le m e l Hm) as B1.
  destruct (shr_fexp prec emax m e l) as [mrs' e'].
  cbn [fst snd] in *.
  pose proof (Zdigits2_nonneg m).
  pose proof (round_nearest_even_bounds (shr_m mrs') (loc_of_shr_record mrs'))
    as B2.
  set (m1 := round_nearest_even (shr_m mrs') (loc_of_shr_record mrs')) in *.
  assert (D1 : Zdigits2 m1 <= Zdigits2 m + 1).
  { transitivity (Zdigits2 (shr_m mrs' + 1)).
    - apply Zdigits2_mono. lia.
    - transitivity (Zdigits2 (shr_m mrs') + 1).
      + apply Zdigits2_succ. lia.
      + pose proof (Zdigits2_mono (shr_m mrs') m). lia. }
  pose proof (shr_fexp_snd m1 e' loc_Exact) as E2.
  destruct (shr_fexp prec emax m1 e' loc_Exact) as [mrs'' e''].
  cbn [fst snd] in *.
  pose proof (Zdigits2_nonneg m1).
  destruct (shr_m mrs''); try exact I.
  destruct (e'' <=? emax - prec); [|exact I].
  cbn [exponent_within]. change prec with 53 in *. lia.
Qed.

Lemma binary_round_aux_exponent_ge (s : bool) (m e : Z) (l : location) :
  -1021 <= e -> exponent_at_least e (binary_round_aux prec emax s m e l).
Proof.
  intros H. unfold binary_round_aux.
  pose proof (shr_fexp_snd m e l H) as E1.
  destruct (shr_fexp prec emax m e l) as [mrs' e'].
  cbn [fst snd] in *.
  set (m1 := round_nearest_even (shr_m mrs') (loc_of_shr_record mrs')) in *.
  pose proof (shr_fexp_snd m1 e' loc_Exact) as E2.
  destruct (shr_fexp prec emax m1 e' loc_Exact) as [mrs'' e''].
  cbn [fst snd] in *.
  destruct (shr_m mrs''); try exact I.
  destruct (e'' <=? emax - prec); [|exact I].
  cbn [exponent_at_least]. lia.
Qed.

Lemma scale2_finite (s : bool) (m : positive) (e : Z) :
  e <= 970 -> scale2 (S754_finite s m e) = S754_finite s m (e + 1).
Proof.
  intros H. unfold scale2.
  replace (e + 1 <=? emax - prec) with true; [reflexivity|].
  symmetry. apply Z.leb_le. change emax with 1024. change prec with 53. lia.
Qed.

Lemma valid_digits (s : bool) (m : positive) (e : Z) :
  valid_binary prec emax (S754_finite s m e) = true ->
  Zdigits2 (Z.pos m) <= 53 /\ e <= 971 /\
  (-1021 <= e -> Z.pos (digits2_pos m) = 53).
Proof.
  unfold valid_binary, bounded, canonical_mantissa.
  intros H. apply andb_true_iff in H as [H1 H2].
  apply Z.eqb_eq in H1. apply Z.leb_le in H2.
  unfold fexp in H1. change (emin prec emax) with (-1074) in H1.
  change prec with 53 in *. change emax with 1024 in *.
  simpl Zdigits2. lia.
Qed.

(** Division commutes with a step of the exponent of the dividend. *)
Lemma SFdiv_core_succ (m1 e1 m2 e2 : Z) :
  -1021 <= Zdigits2 m1 + e1 - (Zdigits2 m2 + e2) ->
  SFdiv_core_binary prec emax m1 (e1 + 1) m2 e2
  = let '(q, e', l) := SFdiv_core_binary prec emax m1 e1 m2 e2 in
    (q, e' + 1, l).
Proof.
  intros H. unfold SFdiv_core_binary.
  replace (Zdigits2 m1 + (e1 + 1) - (Zdigits2 m2 + e2))
    with (Zdigits2 m1 + e1 - (Zdigits2 m2 + e2) + 1) by lia.
  set (t := Zdigits2 m1 + e1 - (Zdigits2 m2 + e2)) in *.
  rewrite !fexp_normal by lia.
  replace (Z.min (t + 1 - prec) (e1 + 1 - e2))
    with (Z.min (t - prec) (e1 - e2) + 1) by lia.
  replace (e1 + 1 - e2 - (Z.min (t - prec) (e1 - e2) + 1))
    with (e1 - e2 - Z.min (t - prec) (e1 - e2)) by lia.
  now destruct (Z.div_eucl _ m2).
Qed.

Lemma SFdiv_core_bounds (m1 : positive) (e1 : Z) (m2 : positive) (e2 : Z) :
  -1021 <= Zdigits2 (Z.pos m1) + e1 - (Zdigits2 (Z.pos m2) + e2) ->
  let '(q, e', l) := SFdiv_core_binary prec emax (Z.pos m1) e1 (Z.pos m2) e2 in
  0 <= q /\
  Zdigits2 q <= Zdigits2 (Z.pos m1) + Zdigits2 (Z.pos m2) + 53 /\
  e' = Z.min (Zdigits2 (Z.pos m1) + e1 - (Zdigits2 (Z.pos m2) + e2) - 53)
             (e1 - e2).
Proof.
  intros H. unfold SFdiv_core_binary.
  set (d1 := Zdigits2 (Z.pos m1)) in *. set (d2 := Zdigits2 (Z.pos m2)) in *.
  assert (1 <= d1) by apply Zdigits2_pos.
  assert (1 <= d2) by apply Zdigits2_pos.
  rewrite fexp_normal by lia. change prec with 53.
  set (e' := Z.min (d1 + e1 - (d2 + e2) - 53) (e1 - e2)).
  set (s := e1 - e2 - e').
  assert (Hs : 0 <= s <= 53 + d2) by (subst s e'; lia).
  clearbody s.
  set (m' := match s with
             | Z.pos _ => Z.shiftl (Z.pos m1) s
             | 0 => Z.pos m1
             | Z.neg _ => 0
             end).
  assert (Hm' : m' = Z.pos m1 * 2 ^ s).
  { subst m'. destruct s as [|p|p]; try lia.
    now rewrite Z.shiftl_mul_pow2 by lia. }
  pose proof (Z_div_mod m' (Z.pos m2) ltac:(lia)) as Hdiv.
  destruct (Z.div_eucl m' (Z.pos m2)) as [q r].
  destruct Hdiv as [Hq Hr].
  assert (0 < m') by (rewrite Hm'; pose proof (Z.pow_pos_nonneg 2 s); lia).
  assert (Hq0 : 0 <= q) by nia.
  assert (Hqm : q <= m') by nia.
  split; [exact Hq0|]. split; [|reflexivity].
  transitivity (Zdigits2 m'); [apply Zdigits2_mono; lia|].
  rewrite Hm', Zdigits2_mul_pow2 by lia. fold d1. lia.
Qed.

Lemma exponent_within_weaken (lo hi lo' hi' : Z) (x : spec_float) :
  lo' <= lo -> hi <= hi' -> exponent_within lo hi x -> exponent_within lo' hi' x.
Proof. destruct x; simpl; lia. Qed.

(** A quotient by a number of moderate size: doubling the dividend doubles
    the quotient. *)
Lemma SFdiv_scale2 (x : spec_float) (sk : bool) (mk : positive) (ek : Z) :
  valid_binary prec emax x = true ->
  valid_binary prec emax (S754_finite sk mk ek) = true ->
  -100 <= ek <= 100 ->
  exponent_within (-60) 60 x ->
  SFdiv prec emax (scale2 x) (S754_finite sk mk ek)
  = scale2 (SFdiv prec emax x (S754_finite sk mk ek)) /\
  exponent_within (-270) 380 (SFdiv prec emax x (S754_finite sk mk ek)).
Proof.
  intros Vx Vk Hk Hx. destruct x as [s | s | | s m e];
    try (split; [reflexivity | exact I]).
  cbn [exponent_within] in Hx.
  destruct (valid_digits _ _ _ Vx) as (D1 & _ & _).
  destruct (valid_digits _ _ _ Vk) as (D2 & _ & _).
  pose proof (Zdigits2_pos m) as P1. pose proof (Zdigits2_pos mk) as P2.
  rewrite scale2_finite by lia.
  unfold SFdiv. rewrite SFdiv_core_succ by lia.
  pose proof (SFdiv_core_bounds m e mk ek ltac:(lia)) as B.
  destruct (SFdiv_core_binary prec emax (Z.pos m) e (Z.pos mk) ek)
    as [[q e'] l].
  destruct B as (Hq & Dq & He').
  split.
  - apply binary_round_aux_succ. lia.
  - eapply exponent_within_weaken;
      [| |apply binary_round_aux_exponent; [exact Hq | lia]]; lia.
Qed.

(** A product: doubling one factor doubles the product, as long as the
    product stays away from the subnormal numbers. *)
Lemma SFmul_scale2 (lo : Z) (y p : spec_float) :
  exponent_within lo 380 y ->
  exponent_at_least (-1021 - lo) p ->
  SFmul prec emax (scale2 y) p = scale2 (SFmul prec emax y p) /\
  exponent_at_least (-1021) (SFmul prec emax y p).
Proof.
  intros Hy Hp.
  destruct y as [s | s | | s m e];
    [destruct p; split; try reflexivity; exact I ..|].
  cbn [exponent_within] in Hy. rewrite scale2_finite by lia.
  destruct p as [sp | sp | | sp mp ep]; try (split; [reflexivity | exact I]).
  cbn [exponent_at_least] in Hp. unfold SFmul. split.
  - replace (e + 1 + ep) with (e + ep + 1) by lia.
    apply binary_round_aux_succ. lia.
  - pose proof (binary_round_aux_exponent_ge (xorb s sp) (Z.pos (m * mp))
                  (e + ep) loc_Exact ltac:(lia)) as B.
    destruct (binary_round_aux prec emax (xorb s sp) (Z.pos (m * mp))
                               (e + ep) loc_Exact); try exact I.
    cbn [exponent_at_least] in *. lia.
Qed.

(** Twice a number, as the product by 2. *)
Lemma SFmul_two (z : spec_float) :
  valid_binary prec emax z = true ->
  exponent_at_least (-1021) z ->
  SFmul prec emax (Prim2SF 2) z = scale2 z.
Proof.
  intros V H.
  change (Prim2SF 2) with (S754_finite false 4503599627370496 (-51)).
  destruct z as [s | s | | s m e]; try reflexivity.
  cbn [exponent_at_least] in H.
  destruct (valid_digits _ _ _ V) as (_ & _ & D). specialize (D H).
  injection D as D.
  unfold SFmul. cbn [xorb Pos.mul].
  unfold binary_round_aux, shr_fexp.
  cbn [Zdigits2 digits2_pos]. rewrite D. cbn [Pos.succ].
  rewrite fexp_normal by lia.
  replace (105 + (-51 + e) - prec - (-51 + e)) with 52
    by (change prec with 53; lia).
  cbn [shr shr_record_of_loc iter_pos shr_1 orb shr_m loc_of_shr_record
       round_nearest_even Zdigits2].
  rewrite D. rewrite fexp_normal by lia.
  replace (53 + (-51 + e + 52) - prec - (-51 + e + 52)) with 0
    by (change prec with 53; lia).
  cbn [shr shr_m]. unfold scale2.
  replace (-51 + e + 52) with (e + 1) by lia. reflexivity.
Qed.

(** The estimate on a character count that is doubled. *)
Lemma doubling_float (x x2 k p : float) :
  Prim2SF x2 = scale2 (Prim2SF x) ->
  exponent_within (-60) 60 (Prim2SF x) ->
  exponent_within (-100) 100 (Prim2SF k) ->
  (exists sk mk ek, Prim2SF k = S754_finite sk mk ek) ->
  exponent_at_least (-751) (Prim2SF p) ->
  (x2 / k * p = 2 * (x / k * p))%float.
Proof.
  intros H2 Hx Hk (sk & mk & ek & Ek) Hp.
  apply Prim2SF_inj.
  rewrite !mul_spec, !div_spec, H2.
  pose proof (Prim2SF_valid x) as Vx.
  pose proof (Prim2SF_valid k) as Vk.
  pose proof (Prim2SF_valid (x / k * p)) as Vz.
  rewrite mul_spec, div_spec in Vz.
  rewrite Ek in *. cbn [exponent_within] in Hk.
  unfold SF64mul, SF64div in *.
  destruct (SFdiv_scale2 (Prim2SF x) sk mk ek Vx Vk Hk Hx) as [E1 B1].
  rewrite E1.
  change (-751) with (-1021 - -270) in Hp.
  destruct (SFmul_scale2 (-270) _ (Prim2SF p) B1 Hp) as [E2 B2].
  rewrite E2. symmetry. now apply SFmul_two.
Qed.

End FloatFacts.

Module PyFloatFacts.
Import FloatSpec FloatFacts PyFloat.
Local Open Scope Z_scope.

(** Below 2^63 the conversion is the one of the processor. *)
Lemma float_of_int_spec (z : Z) :
  0 <= z < 2 ^ 63 ->
  Prim2SF (float_of_int z) = binary_normalize prec emax z 0 false.
Proof.
  intros H. unfold float_of_int.
  assert (E : to_Z (of_Z z) = z).
  { rewrite of_Z_spec. apply Z.mod_small. exact H. }
  rewrite <- E at 1 2. rewrite <- of_uint63_spec.
  now rewrite SF2Prim_Prim2SF.
Qed.

Lemma digits2_iter_xO (p k : positive) :
  digits2_pos (Pos.iter xO p k) = (digits2_pos p + k)%positive.
Proof.
  induction k as [|k IH] using Pos.peano_ind.
  - simpl. lia.
  - rewrite Pos.iter_succ. simpl. rewrite IH. lia.
Qed.

(** How an integer below 2^53 is brought to 53 digits. *)
Lemma shl_align_small (p : positive) :
  Z.pos (digits2_pos p) < 53 ->
  shl_align p 0 (fexp prec emax (Z.pos (digits2_pos p) + 0))
  = (Pos.iter xO p (Z.to_pos (53 - Z.pos (digits2_pos p))),
     Z.pos (digits2_pos p) - 53).
Proof.
  intros H. rewrite fexp_normal by lia. unfold shl_align.
  change prec with 53.
  destruct (Z.pos (digits2_pos p) + 0 - 53 - 0) as [|k|k] eqn:E; try lia.
  replace k with (Z.to_pos (53 - Z.pos (digits2_pos p))) by lia.
  reflexivity.
Qed.

Lemma shl_align_exact (p : positive) :
  Z.pos (digits2_pos p) = 53 ->
  shl_align p 0 (fexp prec emax (Z.pos (digits2_pos p) + 0)) = (p, 0).
Proof.
  intros H. rewrite fexp_normal by lia. unfold shl_align.
  change prec with 53.
  now replace (Z.pos (digits2_pos p) + 0 - 53 - 0) with 0 by lia.
Qed.

(** Twice an integer, as a double. *)
Lemma binary_normalize_double (p : positive) :
  Z.pos p~0 < 2 ^ 53 ->
  binary_normalize prec emax (Z.pos p~0) 0 false
  = scale2 (binary_normalize prec emax (Z.pos p) 0 false) /\
  exponent_within (-60) 60 (binary_normalize prec emax (Z.pos p) 0 false).
Proof.
  intros H.
  assert (D : Z.pos (digits2_pos p) < 53).
  { pose proof (Zdigits2_log2 (Z.pos p~0) ltac:(lia)) as E.
    pose proof (Z.log2_lt_pow2 (Z.pos p~0) 53 ltac:(lia)) as [L _].
    specialize (L H).
    change (Zdigits2 (Z.pos p~0)) with (Z.pos (Pos.succ (digits2_pos p))) in E.
    lia. }
  unfold binary_normalize, binary_round.
  rewrite (shl_align_small p D).
  set (d := Z.pos (digits2_pos p)) in *.
  assert (E2 : shl_align p~0 0 (fexp prec emax (Z.pos (digits2_pos p~0) + 0))
               = (Pos.iter xO p (Z.to_pos (53 - d)), d - 53 + 1)).
  { destruct (Z.eq_dec d 52) as [E | N].
    - rewrite shl_align_exact by (simpl; fold d; lia).
      rewrite E. reflexivity.
    - rewrite shl_align_small by (simpl; fold d; lia).
      cbn [digits2_pos].
      replace (Z.pos (Pos.succ (digits2_pos p))) with (d + 1) by (subst d; lia).
      f_equal; [|lia].
      replace (Z.to_pos (53 - d)) with (Pos.succ (Z.to_pos (53 - (d + 1))))
        by lia.
      now rewrite Pos.iter_succ_r. }
  rewrite E2.
  set (mz := Pos.iter xO p (Z.to_pos (53 - d))).
  assert (Dz : Zdigits2 (Z.pos mz) = 53).
  { subst mz. cbn [Zdigits2]. rewrite digits2_iter_xO. subst d. lia. }
  split.
  - apply binary_round_aux_succ. lia.
  - eapply exponent_within_weaken;
      [| |apply binary_round_aux_exponent; lia]; rewrite ?Dz; lia.
Qed.

Lemma float_of_int_double (n : Z) :
  0 <= n -> 2 * n < 2 ^ 53 ->
  Prim2SF (float_of_int (2 * n)) = scale2 (Prim2SF (float_of_int n)) /\
  exponent_within (-60) 60 (Prim2SF (float_of_int n)).
Proof.
  intros H0 H. rewrite !float_of_int_spec by lia.
  destruct n as [|p|p]; try lia.
  - split; [reflexivity | exact I].
  - change (2 * Z.pos p) with (Z.pos p~0). now apply binary_normalize_double.
Qed.

(** The quotient by a thousand times a price, on a count that is doubled. *)
Lemma truediv_mul_double (n : Z) (price : float) :
  0 <= n -> 2 * n < 2 ^ 53 ->
  exponent_at_least (-751) (Prim2SF price) ->
  (int_truediv (2 * n) 1000 * price
   = 2 * (int_truediv n 1000 * price))%float.
Proof.
  intros H0 H Hp. unfold int_truediv.
  replace (Z.abs (2 * n) <? 2 ^ 53) with true
    by (symmetry; apply Z.ltb_lt; lia).
  replace (Z.abs n <? 2 ^ 53) with true
    by (symmetry; apply Z.ltb_lt; lia).
  change (Z.abs 1000 <? 2 ^ 53) with true. cbn [andb].
  destruct (float_of_int_double n H0 H) as [E B].
  apply doubling_float; try assumption.
  - change (Prim2SF (float_of_int 1000))
      with (S754_finite false 8796093022208000 (-43)).
    simpl. lia.
  - now exists false, 8796093022208000%positive, (-43).
Qed.

(** A price of absolute value 1e-200 or more is far from the subnormal
    numbers. *)
Lemma price_exponent (price : float) :
  (1e-200 <=? abs price)%float = true ->
  exponent_at_least (-751) (Prim2SF price).
Proof.
  rewrite leb_spec, abs_spec.
  change (Prim2SF 1e-200) with (S754_finite false 6894565328877484 (-717)).
  destruct (Prim2SF price) as [s | s | | s m e]; try (intros; exact I).
  unfold SFleb, SFabs, SFcompare. cbn [exponent_at_least].
  destruct (Z.compare_spec (-717) e); intros; first [lia | discriminate].
Qed.

End PyFloatFacts.

Module CostFacts.
Import Py PyFloat VoiceGenerator FloatSpec FloatFacts PyFloatFacts.

(** The estimate of a text taken twice, for a price away from the subnormal
    numbers. *)
Lemma estimate_cost_double (text : str) (price : float) :
  (Z.of_nat (length (text ++ text)) < 2 ^ 53)%Z ->
  exponent_at_least (-751) (Prim2SF price) ->
  estimate_cost (text ++ text) price
  = PrimFloat.mul 2 (estimate_cost text price).
Proof.
  intros H Hp. unfold estimate_cost, get_character_count.
  rewrite length_app, Nat2Z.inj_add in *.
  replace (Z.of_nat (length text) + Z.of_nat (length text))%Z
    with (2 * Z.of_nat (length text))%Z in * by lia.
  apply truediv_mul_double; [lia | exact H | exact Hp].
Qed.

Lemma default_price_exponent :
  exponent_at_least (-751) (Prim2SF default_price_per_1k_chars).
Proof.
  change (Prim2SF default_price_per_1k_chars)
    with (S754_finite false 5404319552844595 (-54)).
  simpl. lia.
Qed.

Lemma float_neq (x y : float) : Prim2SF x <> Prim2SF y -> x <> y.
Proof. intros H E. apply H. now rewrite E. Qed.

End CostFacts.

(** * The specification's claims *)
Module Claims.
Import Py ScriptGenerator Spec Inputs PyFacts ParserFacts.

(** C1 (the code departs from it).  The parser seeds the buffer with the
    trimmed text after the first closing bracket of the line, not with the
    text after the matched marker.  The line of [line_bracket_before_marker]
    reads: a, closing bracket, space, the HOOK marker, space, b.  The text
    after its marker is b, yet the buffer is seeded with the marker itself
    followed by b, and that is what the hook section ends up holding.  The
    specification's own example, the HOOK marker followed by
    Some trailing text, is seeded as stated. *)
Theorem C1_seed_follows_first_bracket :
  line_bracket_before_marker = lit "a] " ++ bracketed (lit "HOOK") ++ lit " b" /\
  strip (lit " b") = lit "b" /\
  process_line initial_state line_bracket_before_marker =
    {| sections := [];
       current_section := lit "hook";
       current_text := [lit "[HOOK] b"] |} /\
  _parse_script_sections line_bracket_before_marker =
    [(lit "hook", lit "[HOOK] b")] /\
  process_line initial_state (lit "[HOOK] Some trailing text") =
    {| sections := [];
       current_section := lit "hook";
       current_text := [lit "Some trailing text"] |}.
Proof.
  split; [|split; [|split; [|split]]]; vm_compute; reflexivity.
Qed.

(** X1.  The seeding rule of the code.  On a line that holds a marker and a
    closing bracket, the new buffer holds the trimmed text after the first
    closing bracket of the line, or nothing when that text is blank; this is
    the text after the marker whenever no closing bracket precedes the
    marker's own. *)
Theorem seed_is_text_after_first_bracket
        (st : state) (line before rest : str) :
  has_marker line = true ->
  line = before ++ lit "]" ++ rest ->
  ~ In 93%N before ->
  current_text (process_line st line) =
    match strip rest with
    | [] => []
    | _ :: _ => [strip rest]
    end.
Proof.
  intros Hm -> Hb. unfold process_line.
  destruct (scan_markers_found st _ Hm) as (m & _ & ->). simpl.
  unfold remaining.
  change (before ++ lit "]" ++ rest) with (before ++ 93%N :: rest).
  now rewrite split1_last_app.
Qed.

Lemma seed_witness_hook_line :
  current_text (process_line initial_state (lit "[HOOK] Some trailing text")) =
    [lit "Some trailing text"].
Proof.
  apply (seed_is_text_after_first_bracket
           initial_state (lit "[HOOK] Some trailing text")
           (lit "[HOOK") (lit " Some trailing text")).
  - vm_compute. reflexivity.
  - vm_compute. reflexivity.
  - vm_compute. intuition discriminate.
Defined.

(** C2, as stated, fails: the joined text is trimmed before it is stored, so
    the value of [ a] is [a] and not the line itself; and a text with no
    non-blank line gives no entry at all. *)
Lemma C2_counterexample_trimmed_or_empty :
  (Forall (fun line => has_marker line = false) (split newline (lit " a")) /\
   join nl (non_blank_lines (lit " a")) = lit " a" /\
   _parse_script_sections (lit " a") = [(default_bucket, lit "a")] /\
   _parse_script_sections (lit " a")
     <> [(default_bucket, join nl (non_blank_lines (lit " a")))]) /\
  (Forall (fun line => has_marker line = false) (split newline []) /\
   _parse_script_sections [] = []).
Proof.
  split; [split; [|split; [|split]] | split].
  - apply Forall_false_of_forallb. vm_compute. reflexivity.
  - vm_compute. reflexivity.
  - vm_compute. reflexivity.
  - intros H. vm_compute in H. discriminate H.
  - apply Forall_false_of_forallb. vm_compute. reflexivity.
  - vm_compute. reflexivity.
Qed.

(** C2 (amended).  A text without any recognised marker and with at least one
    non-blank line parses to exactly one entry, under the default bucket
    [intro]; its value is the non-blank lines joined by a newline, with the
    white space at the two ends of the joined text removed. *)
Theorem C2_no_marker_one_trimmed_entry (script_text : str) :
  Forall (fun line => has_marker line = false) (split newline script_text) ->
  non_blank_lines script_text <> [] ->
  _parse_script_sections script_text =
    [(default_bucket, strip (join nl (non_blank_lines script_text)))].
Proof.
  intros Hm Hn. rewrite parse_plain by assumption.
  destruct (non_blank_lines script_text); [congruence | reflexivity].
Qed.

Lemma C2_witness_plain_text :
  _parse_script_sections text_plain =
    [(lit "intro", lit "first line" ++ nl ++ lit "second line")].
Proof.
  apply (C2_no_marker_one_trimmed_entry text_plain).
  - apply Forall_false_of_forallb. vm_compute. reflexivity.
  - vm_compute. discriminate.
Defined.

(** C3.  Whatever the text, every key of the returned mapping is one of
    [hook], [intro], [features], [pros], [cons], [verdict], [cta] (the default
    bucket is [intro]); these are the lower-cased marker tokens, never the
    casing of the input. *)
Theorem C3_keys_are_lowercase_section_names (script_text : str) :
  Forall (fun key =>
            In key [lit "hook"; lit "intro"; lit "features"; lit "pros";
                    lit "cons"; lit "verdict"; lit "cta"])
         (keys (_parse_script_sections script_text)) /\
  map lower section_markers =
    [lit "hook"; lit "intro"; lit "features"; lit "pros";
     lit "cons"; lit "verdict"; lit "cta"] /\
  current_section initial_state = lit "intro".
Proof.
  split; [|split; reflexivity].
  unfold keys. apply Forall_map.
  eapply Forall_impl; [|apply parse_entries].
  intros kv [H _]. exact H.
Qed.

(** A marker in another casing is stored under the lower-case name. *)
Example parse_mixed_case_marker :
  _parse_script_sections (lit "[Hook] x") = [(lit "hook", lit "x")].
Proof. vm_compute. reflexivity. Qed.

(** C4.  On a line, the first marker of the enumeration HOOK, INTRO,
    FEATURES, PROS, CONS, VERDICT, CTA that occurs in it is the one honoured:
    the buffer is saved under the previous section, the current section
    becomes the lower-cased token, and the new buffer is seeded from the
    line.  The markers later in the enumeration play no part, wherever they
    stand on the line. *)
Theorem C4_first_marker_in_enumeration_wins
        (st : state) (line : str) (before after : list str) (marker : str) :
  section_markers = before ++ marker :: after ->
  contains (bracketed marker) (upper line) = true ->
  (forall m, In m before -> contains (bracketed m) (upper line) = false) ->
  process_line st line =
    {| sections := save_section st;
       current_section := lower marker;
       current_text := match remaining line with
                       | [] => []
                       | _ :: _ => [remaining line]
                       end |}.
Proof.
  intros Hs Hm Hb. unfold process_line. rewrite Hs.
  now rewrite (scan_markers_first before after marker st line Hm Hb).
Qed.

Lemma C4_witness_two_markers :
  process_line initial_state line_two_markers =
    {| sections := [];
       current_section := lit "hook";
       current_text := [lit "x [HOOK] y"] |}.
Proof.
  apply (C4_first_marker_in_enumeration_wins
           initial_state line_two_markers []
           [lit "INTRO"; lit "FEATURES"; lit "PROS"; lit "CONS";
            lit "VERDICT"; lit "CTA"] (lit "HOOK")).
  - reflexivity.
  - vm_compute. reflexivity.
  - intros m [].
Defined.

(** C5, as stated, fails in its second half.  The hook text of the line
    [text_marker_in_text] names the INTRO marker; written back under its own
    marker and parsed again it gives an intro entry and no hook entry.  With
    marker and text on one line instead, the text of [text_trailing_space]
    comes back without the space that ends its first line: the seed of a
    marker line is trimmed on both sides. *)
Lemma C5_counterexample_reparse_differs :
  (In (lit "hook", lit "x [INTRO] y")
      (_parse_script_sections text_marker_in_text) /\
   _parse_script_sections (rejoin (lit "hook") (lit "x [INTRO] y"))
     = [(lit "intro", lit "y")] /\
   dict_lookup (_parse_script_sections (rejoin (lit "hook") (lit "x [INTRO] y")))
               (lit "hook") = None) /\
  (In (lit "intro", text_trailing_space)
      (_parse_script_sections text_trailing_space) /\
   _parse_script_sections (rejoin_inline (lit "intro") text_trailing_space)
     = [(lit "intro", lit "a" ++ nl ++ lit "b")] /\
   str_eqb (lit "a" ++ nl ++ lit "b") text_trailing_space = false).
Proof.
  split; (split; [left | split]); vm_compute; reflexivity.
Qed.

(** C5 (amended).  No line of a returned section text is blank.  And a
    returned text none of whose lines holds a recognised marker parses, once
    written under its marker (the marker on a line of its own, then the
    text), to exactly its own entry. *)
Theorem C5_no_blank_line_and_reparse (script_text key text : str) :
  In (key, text) (_parse_script_sections script_text) ->
  Forall (fun line => is_blank line = false) (split newline text) /\
  (Forall (fun line => has_marker line = false) (split newline text) ->
   _parse_script_sections (rejoin key text) = [(key, text)]).
Proof.
  intros Hin.
  pose proof (parse_entries script_text) as He.
  rewrite Forall_forall in He. destruct (He _ Hin) as [Hk Hg]. simpl in Hk, Hg.
  destruct (good_text_lines text Hg) as [Hlines Hstrip].
  split; [exact Hlines|].
  intros Hplain.
  destruct (marker_line key Hk) as [Hnl Hfirst].
  unfold _parse_script_sections, rejoin.
  change (bracketed (upper key) ++ nl ++ text)
    with (bracketed (upper key) ++ newline :: text).
  rewrite split_app_sep by assumption.
  simpl fold_left. rewrite Hfirst, fold_plain by assumption.
  unfold save_section. simpl.
  assert (Hf : filter (fun line => negb (is_blank line)) (split newline text)
               = split newline text).
  { clear -Hlines. induction Hlines as [|l ls Hl _ IH]; simpl; [reflexivity|].
    now rewrite Hl, IH. }
  rewrite Hf. pose proof (split_not_nil newline text) as Hn.
  destruct (split newline text) as [|l ls] eqn:Es; [contradiction|].
  rewrite <- Es. change nl with [newline].
  rewrite join_split, Hstrip. reflexivity.
Qed.

Lemma C5_witness_hook_two_lines :
  Forall (fun line => is_blank line = false)
         (split newline (lit "first" ++ nl ++ lit "second")) /\
  _parse_script_sections (rejoin (lit "hook") (lit "first" ++ nl ++ lit "second"))
    = [(lit "hook", lit "first" ++ nl ++ lit "second")].
Proof.
  assert (Hin : In (lit "hook", lit "first" ++ nl ++ lit "second")
                   (_parse_script_sections text_hook_two_lines)).
  { left. vm_compute. reflexivity. }
  destruct (C5_no_blank_line_and_reparse
              text_hook_two_lines (lit "hook")
              (lit "first" ++ nl ++ lit "second") Hin) as [H1 H2].
  split; [exact H1|].
  apply H2. apply Forall_false_of_forallb. vm_compute. reflexivity.
Defined.

(** [get_example_script] parses the example script. *)
Lemma get_example_script_sections :
  script_sections get_example_script =
    _parse_script_sections EXAMPLE_SCRIPT_HEBREW.
Proof. unfold get_example_script. reflexivity. Qed.

(** The example script has 1648 characters and 304 words. *)
Example example_script_size :
  length EXAMPLE_SCRIPT_HEBREW = 1648%nat /\
  word_count get_example_script = 304%nat.
Proof. split; vm_compute; reflexivity. Qed.

(** The keys of the example's sections, each with whether its text is
    non-empty: one evaluation of the parser. *)
Lemma example_script_summary :
  map (fun kv => (fst kv, negb (str_eqb (snd kv) [])))
      (_parse_script_sections EXAMPLE_SCRIPT_HEBREW) =
    [(lit "hook", true); (lit "intro", true); (lit "features", true);
     (lit "pros", true); (lit "cons", true); (lit "verdict", true);
     (lit "cta", true)].
Proof. vm_compute. reflexivity. Qed.

(** C6.  The example Hebrew script parses to exactly seven entries, none of
    them empty, whose keys in order of insertion are hook, intro, features,
    pros, cons, verdict, cta. *)
Theorem C6_example_script_seven_sections :
  keys (_parse_script_sections EXAMPLE_SCRIPT_HEBREW) =
    [lit "hook"; lit "intro"; lit "features"; lit "pros"; lit "cons";
     lit "verdict"; lit "cta"] /\
  length (_parse_script_sections EXAMPLE_SCRIPT_HEBREW) = 7%nat /\
  Forall (fun text => text <> [])
         (values (_parse_script_sections EXAMPLE_SCRIPT_HEBREW)).
Proof.
  pose proof example_script_summary as H.
  set (d := _parse_script_sections EXAMPLE_SCRIPT_HEBREW) in *.
  clearbody d. split; [|split].
  - apply (f_equal (map fst)) in H. rewrite map_map in H. exact H.
  - apply (f_equal (@length _)) in H. rewrite length_map in H. exact H.
  - apply (f_equal (map snd)) in H. rewrite map_map in H. simpl in H.
    unfold values. apply Forall_map. apply Forall_forall. intros kv Hin E.
    assert (Ht : In (negb (str_eqb (snd kv) [])) (repeat true 7)).
    { change (repeat true 7) with [true; true; true; true; true; true; true].
      rewrite <- H. now apply (in_map (fun x => negb (str_eqb (snd x) []))). }
    apply repeat_spec in Ht. rewrite E in Ht. discriminate Ht.
Qed.

(** C7.  A text all of whose lines are blank, the empty text among them,
    parses to the empty mapping: no entry under the default bucket. *)
Theorem C7_blank_text_gives_empty_mapping (script_text : str) :
  Forall (fun line => is_blank line = true) (split newline script_text) ->
  _parse_script_sections script_text = [].
Proof.
  intros Hb. rewrite parse_plain.
  - unfold non_blank_lines.
    assert (Hf : filter (fun line => negb (is_blank line))
                        (split newline script_text) = []).
    { induction Hb as [|l ls Hl _ IH]; simpl; [reflexivity|]. now rewrite Hl. }
    now rewrite Hf.
  - eapply Forall_impl; [|exact Hb]. intros l. apply blank_no_marker.
Qed.

Lemma C7_witness_blank_lines :
  _parse_script_sections text_blank = [] /\ _parse_script_sections [] = [].
Proof.
  split.
  - apply (C7_blank_text_gives_empty_mapping text_blank).
    apply Forall_true_of_forallb. vm_compute. reflexivity.
  - apply (C7_blank_text_gives_empty_mapping []).
    apply Forall_true_of_forallb. vm_compute. reflexivity.
Defined.

(** *** The product record store *)

Import ProductScraper.

(** C8.  [get_product_data] is total, and an identifier that is not in the
    static table gets the record of the known identifier [owala_freesip],
    the same in every field. *)
Theorem C8_unknown_product_gets_default (product_id : str) :
  dict_lookup products product_id = None ->
  get_product_data product_id = get_product_data (lit "owala_freesip").
Proof.
  intros H. unfold get_product_data, dict_get. rewrite H.
  change (dict_lookup products (lit "owala_freesip"))
    with (if str_eqb (lit "owala_freesip") (lit "owala_freesip")
          then Some OWALA_FREESIP_24OZ else None).
  now rewrite str_eqb_refl.
Qed.

Lemma C8_witness_unknown_identifier :
  get_product_data (lit "stanley_quencher") =
    get_product_data (lit "owala_freesip").
Proof.
  apply (C8_unknown_product_gets_default (lit "stanley_quencher")).
  vm_compute. reflexivity.
Defined.

(** *** The storyboard *)

Import VideoGenerator StoryboardFacts.

(** C9.  With an empty sections mapping the renderer, whatever the product
    name, images, pros, cons and score, writes the full document to the
    output path: the text it would write were every slot mapped to its
    bracketed label, with the eight scene headings in order and [Hook],
    [Intro], [Features], [Pros script], [Cons script], [Verdict] and [CTA]
    in the seven script slots; no label is the empty string. *)
Theorem C9_empty_sections_give_placeholders
        (format_float : float -> str) (self : SimpleVideoGenerator)
        (fs : files) (product_name : str) (product_images pros cons : list str)
        (score : float) (output_filename : str) :
  generate_storyboard format_float self fs product_name product_images []
                      pros cons score output_filename
    = (write_text fs (PathDiv (output_dir self) output_filename)
                  (storyboard format_float product_name product_images
                              placeholders pros cons score),
       PathDiv (output_dir self) output_filename) /\
  read_text (fst (generate_storyboard format_float self fs product_name
                                      product_images [] pros cons score
                                      output_filename))
            (PathDiv (output_dir self) output_filename)
    = Some (storyboard format_float product_name product_images []
                       pros cons score) /\
  occur_in_order (map block_text placeholder_scenes)
                 (storyboard format_float product_name product_images []
                             pros cons score) /\
  Forall (fun label => label <> []) (values placeholders).
Proof.
  split; [|split; [|split]].
  - reflexivity.
  - unfold generate_storyboard. simpl fst. apply read_write_text.
  - unfold storyboard, placeholder_scenes. cbn [map]. find_blocks.
  - unfold values, placeholders. cbn [map snd].
    repeat constructor; vm_compute; discriminate.
Qed.

(** *** The cost estimate *)

Import VoiceGenerator.

(** C10.  In the doubles of the code the estimate doubles exactly when the
    text is taken twice, at the default price of 0.30 per thousand
    characters, for the real generator and for the mock one, whatever the
    latter prints (it prints one line); and the estimate depends on the text
    through its number of characters only.  The doubled text has fewer than
    2^53 characters, which is where the true division of the count is the
    division of two doubles. *)
Theorem C10_estimate_cost_doubles
        (text : str) (format_2f : float -> str) (format_int : Z -> str)
        (stdout : list str) :
  (Z.of_nat (length (text ++ text)) < 2 ^ 53)%Z ->
  estimate_cost (text ++ text) default_price_per_1k_chars
  = PrimFloat.mul 2 (estimate_cost text default_price_per_1k_chars) /\
  snd (mock_estimate_cost format_2f format_int stdout (text ++ text)
                          default_price_per_1k_chars)
  = PrimFloat.mul 2 (snd (mock_estimate_cost format_2f format_int stdout text
                                             default_price_per_1k_chars)) /\
  length (fst (mock_estimate_cost format_2f format_int stdout text
                                  default_price_per_1k_chars))
  = S (length stdout) /\
  (forall (text' : str) (price : float),
      length text' = length text ->
      estimate_cost text' price = estimate_cost text price /\
      snd (mock_estimate_cost format_2f format_int stdout text' price)
      = estimate_cost text price).
Proof.
  intros H.
  pose proof (CostFacts.estimate_cost_double text default_price_per_1k_chars H
                CostFacts.default_price_exponent) as E.
  split; [exact E|]. split; [exact E|]. split.
  - unfold mock_estimate_cost. cbn [fst]. rewrite length_app. simpl. lia.
  - intros text' price L.
    unfold mock_estimate_cost, estimate_cost, get_character_count.
    cbn [snd]. now rewrite L.
Qed.

Lemma C10_witness_twelve_characters :
  estimate_cost (lit "Hello, world" ++ lit "Hello, world")
                default_price_per_1k_chars
  = PrimFloat.mul 2 (estimate_cost (lit "Hello, world")
                                   default_price_per_1k_chars) /\
  snd (mock_estimate_cost (fun _ => lit "0.00") PyFormat.format_int []
                          (lit "Hello, world" ++ lit "Hello, world")
                          default_price_per_1k_chars)
  = PrimFloat.mul 2 (snd (mock_estimate_cost (fun _ => lit "0.00")
                                             PyFormat.format_int []
                                             (lit "Hello, world")
                                             default_price_per_1k_chars)) /\
  length (fst (mock_estimate_cost (fun _ => lit "0.00") PyFormat.format_int []
                                  (lit "Hello, world")
                                  default_price_per_1k_chars))
  = 1%nat /\
  (forall (text' : str) (price : float),
      length text' = length (lit "Hello, world") ->
      estimate_cost text' price = estimate_cost (lit "Hello, world") price /\
      snd (mock_estimate_cost (fun _ => lit "0.00") PyFormat.format_int []
                              text' price)
      = estimate_cost (lit "Hello, world") price).
Proof.
  apply (C10_estimate_cost_doubles (lit "Hello, world") (fun _ => lit "0.00")
                                   PyFormat.format_int []).
  vm_compute. reflexivity.
Defined.

End Claims.

(** * Further facts about the parser *)
Module ParserMore.
Import Py ScriptGenerator Spec ParserSpec PyFacts ParserFacts.

Lemma process_line_blank (st : state) (line : str) :
  is_blank line = true -> process_line st line = st.
Proof.
  intros Hb. rewrite process_line_plain by now apply blank_no_marker.
  rewrite Hb, app_nil_r. now destruct st.
Qed.

Lemma fold_skips_blank (lines : list str) (st : state) :
  fold_left process_line lines st =
  fold_left process_line (filter (fun line => negb (is_blank line)) lines) st.
Proof.
  revert st. induction lines as [|l ls IH]; intros st; simpl; [reflexivity|].
  destruct (is_blank l) eqn:E; simpl.
  - rewrite process_line_blank by assumption. apply IH.
  - apply IH.
Qed.

Lemma filter_idem {A} (f : A -> bool) (l : list A) :
  filter f (filter f l) = filter f l.
Proof.
  induction l as [|x l IH]; simpl; [reflexivity|].
  destruct (f x) eqn:E; simpl; [rewrite E; now f_equal | exact IH].
Qed.

(** *** Keys are distinct *)

Lemma keys_dict_set {V} (d : dict V) (k : str) (v : V) :
  keys (dict_set d k v) =
    if existsb (fun k' => str_eqb k' k) (keys d) then keys d else keys d ++ [k].
Proof.
  unfold keys. induction d as [|[k' v'] d IH]; simpl; [reflexivity|].
  destruct (str_eqb k' k) eqn:E; simpl; [reflexivity|].
  rewrite IH. now destruct (existsb _ (map fst d)).
Qed.

Lemma dict_set_NoDup {V} (d : dict V) (k : str) (v : V) :
  NoDup (keys d) -> NoDup (keys (dict_set d k v)).
Proof.
  intros H. rewrite keys_dict_set.
  destruct (existsb (fun k' => str_eqb k' k) (keys d)) eqn:E; [assumption|].
  apply NoDup_app; [assumption | constructor; [tauto | constructor] |].
  intros x Hx [Hk | []]. subst x.
  assert (Ht : existsb (fun k' => str_eqb k' k) (keys d) = true).
  { apply existsb_exists. exists k. split; [assumption | apply str_eqb_refl]. }
  congruence.
Qed.

Lemma save_section_NoDup (st : state) :
  NoDup (keys (sections st)) -> NoDup (keys (save_section st)).
Proof.
  intros H. unfold save_section. destruct (current_text st); [assumption|].
  now apply dict_set_NoDup.
Qed.

Lemma process_line_NoDup (st : state) (line : str) :
  NoDup (keys (sections st)) -> NoDup (keys (sections (process_line st line))).
Proof.
  intros H. unfold process_line.
  destruct (scan_markers section_markers st line) as [st'|] eqn:E.
  - apply scan_markers_some in E as (m & _ & ->). simpl.
    now apply save_section_NoDup.
  - now destruct (strip line).
Qed.

Lemma parse_keys_NoDup (script_text : str) :
  NoDup (keys (_parse_script_sections script_text)).
Proof.
  unfold _parse_script_sections. apply save_section_NoDup.
  generalize (split newline script_text). intros lines.
  assert (H : NoDup (keys (sections initial_state))) by constructor.
  revert H. generalize initial_state.
  induction lines as [|l ls IH]; intros st H; simpl; [assumption|].
  apply IH. now apply process_line_NoDup.
Qed.

(** Every stored text is non-empty and has nothing left to trim. *)
Lemma parse_texts_trimmed (script_text : str) :
  Forall (fun kv => snd kv <> [] /\ strip (snd kv) = snd kv /\
                    is_blank (snd kv) = false)
         (_parse_script_sections script_text).
Proof.
  eapply Forall_impl; [|apply parse_entries].
  intros [k v] [_ Hg]. simpl in *.
  destruct (good_text_lines v Hg) as [Hl Hs].
  assert (Hb : is_blank v = false).
  { unfold is_blank. rewrite Hs. destruct v as [|c r]; [|reflexivity].
    simpl in Hl. inversion Hl as [|? ? Hx _]; subst. discriminate Hx. }
  repeat split; try assumption.
  intros ->. discriminate Hb.
Qed.

(** *** Marker lines in any state *)

Lemma marker_line_step (st : state) (m : str) :
  In m section_markers ->
  ~ In newline (bracketed m) /\
  has_marker (bracketed m) = true /\
  process_line st (bracketed m) =
    {| sections := save_section st;
       current_section := lower m;
       current_text := [] |}.
Proof.
  intros H.
  repeat (destruct H as [<- | H];
          [split; [vm_compute; intuition discriminate
                  | split; vm_compute; reflexivity]|]).
  destruct H.
Qed.

Lemma lower_markers_distinct (m1 m2 : str) :
  In m1 section_markers -> In m2 section_markers -> m1 <> m2 ->
  str_eqb (lower m1) (lower m2) = false.
Proof.
  intros H1 H2 Hne.
  repeat (destruct H1 as [<- | H1];
          [repeat (destruct H2 as [<- | H2];
                   [first [ now contradiction Hne | vm_compute; reflexivity ]|]);
           destruct H2|]).
  destruct H1.
Qed.

Lemma plain_lines_fold (lines : list str) (st : state) :
  plain_lines lines ->
  fold_left process_line lines st =
    {| sections := sections st;
       current_section := current_section st;
       current_text := current_text st ++ lines |}.
Proof.
  intros [_ H]. rewrite fold_plain.
  - f_equal. f_equal. induction H as [|l ls (_ & Hb & _) _ IH]; simpl; [reflexivity|].
    now rewrite Hb, IH.
  - eapply Forall_impl; [|exact H]. now intros l (Hm & _).
Qed.

Lemma plain_lines_no_newline (lines : list str) :
  plain_lines lines -> Forall (fun line => ~ In newline line) lines.
Proof.
  intros [_ H]. eapply Forall_impl; [|exact H]. now intros l (_ & _ & Hn).
Qed.

End ParserMore.

(** * Further properties of the parser *)
Module ParserExtras.
Import Py ScriptGenerator Spec ParserSpec PyFacts ParserFacts ParserMore.

(** X2.  Blank lines play no part: a text and the text made of its non-blank
    lines, joined by newlines, parse to the same mapping. *)
Theorem parse_ignores_blank_lines (script_text : str) :
  _parse_script_sections (join nl (non_blank_lines script_text)) =
  _parse_script_sections script_text.
Proof.
  unfold _parse_script_sections. f_equal.
  rewrite (fold_skips_blank (split newline script_text)).
  fold (non_blank_lines script_text).
  destruct (non_blank_lines script_text) as [|l ls] eqn:E.
  - reflexivity.
  - rewrite <- E. change nl with [newline]. rewrite split_join.
    + reflexivity.
    + rewrite E. discriminate.
    + unfold non_blank_lines. apply Forall_forall. intros x Hx.
      apply filter_In in Hx as [Hx _].
      pose proof (split_no_sep newline script_text) as Hs.
      rewrite Forall_forall in Hs. now apply Hs.
Qed.

(** X3.  The keys of the returned mapping are distinct, so it holds at most
    seven entries. *)
Theorem parse_at_most_seven_sections (script_text : str) :
  NoDup (keys (_parse_script_sections script_text)) /\
  (length (_parse_script_sections script_text) <= 7)%nat.
Proof.
  pose proof (parse_keys_NoDup script_text) as Hn.
  split; [exact Hn|].
  replace (length (_parse_script_sections script_text))
    with (length (keys (_parse_script_sections script_text)))
    by apply length_map.
  change 7%nat with (length section_names).
  apply NoDup_incl_length; [exact Hn|].
  intros k Hk. unfold keys in Hk. apply in_map_iff in Hk as (kv & <- & Hin).
  pose proof (parse_entries script_text) as He.
  rewrite Forall_forall in He. now apply He.
Qed.

(** X4.  Every text of the returned mapping is non-empty and carries no white
    space at either end. *)
Theorem parse_texts_nonempty_trimmed (script_text : str) :
  Forall (fun kv => snd kv <> [] /\ strip (snd kv) = snd kv)
         (_parse_script_sections script_text).
Proof.
  eapply Forall_impl; [|apply parse_texts_trimmed].
  intros kv (H1 & H2 & _). now split.
Qed.


Lemma save_section_buffer (d : dict str) (k : str) (lines : list str) :
  lines <> [] ->
  save_section {| sections := d; current_section := k; current_text := lines |}
  = dict_set d k (strip (join nl lines)).
Proof. destruct lines; [congruence | reflexivity]. Qed.

Lemma split_join_lines (lines : list str) :
  lines <> [] -> Forall (fun line => ~ In newline line) lines ->
  split newline (join nl lines) = lines.
Proof. intros. change nl with [newline]. now apply split_join. Qed.

(** X5.  A section opened twice keeps its last text only, at the place of
    its first: the text collected the first time is gone. *)
Theorem reopened_section_keeps_last_text
        (m1 m2 : str) (a b c : list str) :
  In m1 section_markers -> In m2 section_markers -> m1 <> m2 ->
  plain_lines a -> plain_lines b -> plain_lines c ->
  _parse_script_sections
    (join nl (bracketed m1 :: a ++ bracketed m2 :: b ++ bracketed m1 :: c))
  = [(lower m1, strip (join nl c)); (lower m2, strip (join nl b))].
Proof.
  intros H1 H2 Hne Ha Hb Hc.
  destruct (marker_line_step initial_state m1 H1) as (N1 & _ & _).
  destruct (marker_line_step initial_state m2 H2) as (N2 & _ & _).
  unfold _parse_script_sections.
  rewrite split_join_lines.
  2: discriminate.
  2: { constructor; [assumption|]. apply Forall_app. split.
       - now apply plain_lines_no_newline.
       - constructor; [assumption|]. apply Forall_app. split.
         + now apply plain_lines_no_newline.
         + constructor; [assumption | now apply plain_lines_no_newline]. }
  simpl fold_left.
  rewrite (proj2 (proj2 (marker_line_step _ m1 H1))).
  rewrite fold_left_app, (plain_lines_fold a) by assumption.
  simpl fold_left.
  rewrite (proj2 (proj2 (marker_line_step _ m2 H2))).
  rewrite fold_left_app, (plain_lines_fold b) by assumption.
  simpl fold_left.
  rewrite (proj2 (proj2 (marker_line_step _ m1 H1))).
  rewrite (plain_lines_fold c) by assumption.
  cbn [sections current_section current_text app].
  rewrite !save_section_buffer by (apply Ha || apply Hb || apply Hc).
  change (save_section initial_state) with (@nil (str * str)).
  cbn [dict_set].
  rewrite (lower_markers_distinct m1 m2 H1 H2 Hne).
  cbn [dict_set]. now rewrite str_eqb_refl.
Qed.

Lemma reopened_witness_hook_intro_hook :
  _parse_script_sections
    (join nl [lit "[HOOK]"; lit "one"; lit "[INTRO]"; lit "two";
              lit "[HOOK]"; lit "three"])
  = [(lit "hook", lit "three"); (lit "intro", lit "two")].
Proof.
  assert (P : forall s, has_marker s = false -> is_blank s = false ->
                        forallb (fun c => negb (N.eqb c newline)) s = true ->
                        plain_lines [s]).
  { intros s H1 H2 H3. split; [discriminate|].
    constructor; [|constructor]. repeat split; try assumption.
    intros Hin. rewrite forallb_forall in H3. apply H3 in Hin.
    now rewrite N.eqb_refl in Hin. }
  apply (reopened_section_keeps_last_text
           (lit "HOOK") (lit "INTRO") [lit "one"] [lit "two"] [lit "three"]).
  - vm_compute. tauto.
  - vm_compute. tauto.
  - vm_compute. discriminate.
  - apply P; vm_compute; reflexivity.
  - apply P; vm_compute; reflexivity.
  - apply P; vm_compute; reflexivity.
Defined.

(** X6.  Text before the first marker is stored under [intro]; when the first
    marker is INTRO itself, the section's own text replaces it and the text
    before the marker is lost. *)
Theorem text_before_first_marker
        (m : str) (before body : list str) :
  In m section_markers -> plain_lines before -> plain_lines body ->
  _parse_script_sections (join nl (before ++ bracketed m :: body))
  = if str_eqb (lower m) (lit "intro")
    then [(lit "intro", strip (join nl body))]
    else [(lit "intro", strip (join nl before));
          (lower m, strip (join nl body))].
Proof.
  intros Hm Hp Hb.
  destruct (marker_line_step initial_state m Hm) as (N1 & _ & _).
  unfold _parse_script_sections.
  rewrite split_join_lines.
  2: { destruct before; [now destruct Hp | discriminate]. }
  2: { apply Forall_app. split.
       - now apply plain_lines_no_newline.
       - constructor; [assumption | now apply plain_lines_no_newline]. }
  rewrite fold_left_app, (plain_lines_fold before) by assumption.
  simpl fold_left.
  rewrite (proj2 (proj2 (marker_line_step _ m Hm))).
  rewrite (plain_lines_fold body) by assumption.
  cbn [sections current_section current_text app initial_state].
  rewrite !save_section_buffer by (apply Hp || apply Hb).
  cbn [dict_set].
  destruct (str_eqb (lower m) (lit "intro")) eqn:E.
  - apply str_eqb_eq in E. rewrite E. now rewrite str_eqb_refl.
  - destruct (str_eqb (lit "intro") (lower m)) eqn:E'; [|reflexivity].
    apply str_eqb_eq in E'. rewrite <- E' in E.
    now rewrite str_eqb_refl in E.
Qed.

Lemma text_before_witness_intro :
  _parse_script_sections
    (join nl [lit "Welcome to the channel"; lit "[INTRO]"; lit "Today: a bottle"])
  = [(lit "intro", lit "Today: a bottle")].
Proof.
  assert (P : forall s, has_marker s = false -> is_blank s = false ->
                        forallb (fun c => negb (N.eqb c newline)) s = true ->
                        plain_lines [s]).
  { intros s H1 H2 H3. split; [discriminate|].
    constructor; [|constructor]. repeat split; try assumption.
    intros Hin. rewrite forallb_forall in H3. apply H3 in Hin.
    now rewrite N.eqb_refl in Hin. }
  apply (text_before_first_marker (lit "INTRO")
           [lit "Welcome to the channel"] [lit "Today: a bottle"]).
  - vm_compute. tauto.
  - apply P; vm_compute; reflexivity.
  - apply P; vm_compute; reflexivity.
Defined.

End ParserExtras.

(** * Further properties of the storyboard, the cost estimate and the
    prompts *)
Module RenderExtras.
Import Py PyFacts StoryboardFacts VideoGenerator.

Lemma firstn_firstn_same {A} (n : nat) (l : list A) :
  firstn n (firstn n l) = firstn n l.
Proof. rewrite firstn_firstn. now rewrite Nat.min_id. Qed.

(** X7.  Only the first five images, pros and cons reach the storyboard:
    what follows them changes nothing of the document. *)
Theorem storyboard_uses_first_five
        (format_float : float -> str) (product_name : str)
        (product_images : list str) (script_sections : dict str)
        (pros cons : list str) (score : float) :
  storyboard format_float product_name product_images script_sections
             pros cons score =
  storyboard format_float product_name (firstn 5 product_images)
             script_sections (firstn 5 pros) (firstn 5 cons) score.
Proof.
  unfold storyboard, pros_list, cons_list.
  rewrite !firstn_firstn_same.
  replace (images_list (firstn 5 product_images))
    with (images_list product_images); [reflexivity|].
  unfold images_list.
  destruct product_images as [|x r]; [reflexivity|].
  change (firstn 5 (x :: r)) with (x :: firstn 4 r) at 2.
  cbv beta iota. now rewrite firstn_firstn_same.
Qed.

End RenderExtras.

Module CostExtras.
Import Py PyFloat VoiceGenerator FloatSpec CostFacts.

(** X8.  In the doubles of the code, taking the text twice doubles the
    estimate at every price of absolute value 1e-200 or more, infinite
    prices included.  The bound on the price is needed: at the smallest
    positive price a text of 300 characters costs nothing and the text taken
    twice does.  And the estimate does not add up over concatenation: at the
    default price one character and four characters do not cost what five
    do. *)
Theorem estimate_cost_doubles_not_adds :
  (forall (text : str) (price : float),
      (Z.of_nat (length (text ++ text)) < 2 ^ 53)%Z ->
      PrimFloat.leb 1e-200 (PrimFloat.abs price) = true ->
      estimate_cost (text ++ text) price
      = PrimFloat.mul 2 (estimate_cost text price)) /\
  estimate_cost (repeat 97%N 300 ++ repeat 97%N 300) 5e-324
  <> PrimFloat.mul 2 (estimate_cost (repeat 97%N 300) 5e-324) /\
  estimate_cost (lit "a" ++ lit "bcde") default_price_per_1k_chars
  <> PrimFloat.add (estimate_cost (lit "a") default_price_per_1k_chars)
                   (estimate_cost (lit "bcde") default_price_per_1k_chars).
Proof.
  split; [|split].
  - intros text price H Hp. apply estimate_cost_double; [exact H|].
    now apply PyFloatFacts.price_exponent.
  - apply float_neq. vm_compute. discriminate.
  - apply float_neq. vm_compute. discriminate.
Qed.

Lemma estimate_cost_witness_negative_price :
  estimate_cost (lit "Hello" ++ lit "Hello") (-0.25)
  = PrimFloat.mul 2 (estimate_cost (lit "Hello") (-0.25)).
Proof.
  apply (proj1 estimate_cost_doubles_not_adds (lit "Hello") (-0.25)%float).
  - vm_compute. reflexivity.
  - vm_compute. reflexivity.
Defined.

End CostExtras.

Module PromptExtras.
Import Py PyFacts StoryboardFacts ScriptGenerator ScriptService.

Lemma startswith_nil (s : str) : startswith s [] = true.
Proof. now destruct s. Qed.

Lemma startswith_app (hay needle rest : str) :
  startswith hay needle = true -> startswith (hay ++ rest) needle = true.
Proof.
  revert hay. induction needle as [|p needle IH]; intros hay.
  - intros _. apply startswith_nil.
  - destruct hay as [|c hay]; simpl; [discriminate|].
    intros H. apply andb_true_iff in H as [H1 H2].
    rewrite H1. now apply IH.
Qed.

Lemma contains_app_r (needle a b : str) :
  contains needle b = true -> contains needle (a ++ b) = true.
Proof.
  intros H. induction a as [|c a IH]; [exact H|].
  simpl. rewrite IH. apply orb_true_r.
Qed.

Lemma contains_app_l (needle a b : str) :
  contains needle a = true -> contains needle (a ++ b) = true.
Proof.
  induction a as [|c a IH]; intros H.
  - destruct needle as [|p needle]; [|discriminate H].
    destruct b; reflexivity.
  - change (contains needle ((c :: a) ++ b))
      with (startswith (c :: a ++ b) needle || contains needle (a ++ b)).
    change (contains needle (c :: a))
      with (startswith (c :: a) needle || contains needle a) in H.
    apply orb_true_iff in H as [H | H].
    + pose proof (startswith_app (c :: a) needle b H) as E.
      change ((c :: a) ++ b) with (c :: a ++ b) in E. now rewrite E.
    + rewrite (IH H). apply orb_true_r.
Qed.

(** X9.  The system prompt depends on the style for Hebrew only: every other
    language gets the English prompt, the same for all styles; and in Hebrew
    a style outside the three known ones gives the prompt of [friendly]. *)
Theorem system_prompt_style_rules (language style style' : str) :
  (str_eqb language (lit "hebrew") = false ->
   _get_system_prompt language style = _get_system_prompt (lit "english") style') /\
  (dict_lookup style_instructions style = None ->
   _get_system_prompt language style = _get_system_prompt language (lit "friendly")).
Proof.
  split.
  - intros H. unfold _get_system_prompt. rewrite H.
    change (str_eqb (lit "english") (lit "hebrew")) with false. reflexivity.
  - intros H. unfold _get_system_prompt.
    destruct (str_eqb language (lit "hebrew")); [|reflexivity].
    unfold system_prompt_hebrew.
    set (d := dict_get style_instructions (lit "friendly") []).
    assert (E : dict_get style_instructions style d
                = dict_get style_instructions (lit "friendly") d).
    { unfold dict_get at 1. rewrite H. subst d. vm_compute. reflexivity. }
    now rewrite E.
Qed.

Lemma system_prompt_witness_english_casual :
  _get_system_prompt (lit "english") (lit "casual")
    = _get_system_prompt (lit "english") (lit "professional") /\
  _get_system_prompt (lit "hebrew") (lit "formal")
    = _get_system_prompt (lit "hebrew") (lit "friendly").
Proof.
  split.
  - apply (proj1 (system_prompt_style_rules
                    (lit "english") (lit "casual") (lit "professional"))).
    vm_compute. reflexivity.
  - apply (proj2 (system_prompt_style_rules
                    (lit "hebrew") (lit "formal") (lit "formal"))).
    vm_compute. reflexivity.
Defined.

Lemma contains_join_skip (needle line : str) (rest : list str) :
  rest <> [] ->
  contains needle (join nl rest) = true ->
  contains needle (join nl (line :: rest)) = true.
Proof.
  intros Hr H. destruct rest as [|y r]; [congruence|].
  rewrite join_cons2. now apply contains_app_r, contains_app_r.
Qed.

(** X10.  Whatever the language and the style, the system prompt names, in
    brackets, each of the seven markers the parser looks for. *)
Theorem system_prompt_names_parser_markers (language style : str) :
  forallb (fun marker =>
             contains (bracketed marker) (_get_system_prompt language style))
          section_markers = true.
Proof.
  apply forallb_forall. intros m Hm. unfold _get_system_prompt.
  destruct (str_eqb language (lit "hebrew")).
  - unfold system_prompt_hebrew.
    do 3 (apply contains_join_skip; [discriminate|]).
    repeat (destruct Hm as [<- | Hm]; [vm_compute; reflexivity|]).
    destruct Hm.
  - repeat (destruct Hm as [<- | Hm]; [vm_compute; reflexivity|]).
    destruct Hm.
Qed.

End PromptExtras.

(** * Facts about the voice generators *)


Module VoiceFacts.
Import Py PyFacts StoryboardFacts ParserFacts ParserMore.
Import VideoGenerator Runtime Voice VoiceSpec.

Lemma dict_set_fresh {V} (d : dict V) (k : str) (v : V) :
  ~ In k (keys d) -> dict_set d k v = d ++ [(k, v)].
Proof.
  induction d as [|[k' v'] d IH]; simpl; intros H; [reflexivity|].
  destruct (str_eqb k' k) eqn:E.
  - apply str_eqb_eq in E. tauto.
  - rewrite IH by tauto. reflexivity.
Qed.

Lemma path_eqb_eq (p q : Path) : path_eqb p q = true <-> p = q.
Proof.
  revert q. induction p as [s | p IH s]; intros [t | q t]; simpl;
    split; intros H; try discriminate.
  - apply str_eqb_eq in H. now subst.
  - injection H as ->. apply str_eqb_refl.
  - apply andb_true_iff in H as [H1 H2]. apply IH in H1.
    apply str_eqb_eq in H2. now subst.
  - injection H as -> ->. rewrite str_eqb_refl, andb_true_r. now apply IH.
Qed.

Lemma read_write_other (fs : files) (p q : Path) (s : str) :
  p <> q -> read_text (write_text fs p s) q = read_text fs q.
Proof.
  intros Hne. induction fs as [|[r t] fs IH]; simpl.
  - destruct (path_eqb p q) eqn:E; [|reflexivity].
    apply path_eqb_eq in E. contradiction.
  - destruct (path_eqb r p) eqn:E; simpl.
    + destruct (path_eqb r q) eqn:E'; [|reflexivity].
      apply path_eqb_eq in E, E'. congruence.
    + now rewrite IH.
Qed.

Lemma voice_path_inj (self : VoiceGenerator) (k k' : str) :
  voice_path self k = voice_path self k' -> k = k'.
Proof.
  unfold voice_path. intros H. injection H as H.
  now apply app_inv_tail in H.
Qed.

(** One section, when the service answers. *)
Lemma generate_voice_ok (self : VoiceGenerator) (w : world)
      (audio : request -> list (list N)) (text filename : str)
      (voice_id : option str) :
  (forall req, client self req = Ok {| chunks := audio req; failure := None |}) ->
  generate_voice self w text filename voice_id
                 (lit "eleven_multilingual_v2") 0.5 0.8 0.4
  = (write_file w (PathDiv (Voice.output_dir self) filename)
                (concat (audio (section_request voice_id text))),
     Ok (PathDiv (Voice.output_dir self) filename)).
Proof.
  intros Hok. unfold generate_voice.
  fold (section_request voice_id text). now rewrite Hok.
Qed.

Lemma generate_sections_ok (self : VoiceGenerator)
      (audio : request -> list (list N)) (voice_id : option str)
      (items : list (str * str)) :
  (forall req, client self req = Ok {| chunks := audio req; failure := None |}) ->
  forall (w : world) (acc : dict Path),
    generate_sections self w items voice_id acc
    = (spoken_world self audio voice_id w (spoken items),
       Ok (fold_left (fun d kv => dict_set d (fst kv) (voice_path self (fst kv)))
                     (spoken items) acc)).
Proof.
  intros Hok. induction items as [|[k t] items IH]; intros w acc; simpl.
  - reflexivity.
  - destruct (strip t) as [|c r] eqn:E; simpl.
    + apply IH.
    + rewrite (generate_voice_ok self _ audio t _ voice_id Hok).
      rewrite IH. reflexivity.
Qed.

Lemma fold_dict_set_fresh {V} (f : str -> V) (l : list (str * str))
      (acc : dict V) :
  NoDup (keys acc ++ keys l) ->
  fold_left (fun d kv => dict_set d (fst kv) (f (fst kv))) l acc
  = acc ++ map (fun kv => (fst kv, f (fst kv))) l.
Proof.
  revert acc. induction l as [|[k t] l IH]; intros acc H; simpl.
  - now rewrite app_nil_r.
  - assert (Hk : ~ In k (keys acc)).
    { intros Hin. apply NoDup_remove_2 in H. apply H.
      apply in_or_app. now left. }
    rewrite dict_set_fresh by assumption.
    rewrite IH.
    + now rewrite <- app_assoc.
    + unfold keys in *. rewrite map_app. simpl.
      rewrite <- app_assoc. exact H.
Qed.

Lemma spoken_keys_NoDup (d : dict str) :
  NoDup (keys d) -> NoDup (keys (spoken d)).
Proof.
  unfold keys, spoken. induction d as [|[k t] d IH]; simpl; intros H.
  - constructor.
  - inversion H as [|? ? Hk Hd]; subst.
    destruct (strip t); simpl; [now apply IH|].
    constructor; [|now apply IH].
    intros Hin. apply Hk. apply in_map_iff in Hin as (kv & E & Hin).
    apply filter_In in Hin as [Hin _]. apply in_map_iff. now exists kv.
Qed.

Lemma spoken_world_stdout (self : VoiceGenerator)
      (audio : request -> list (list N)) (voice_id : option str)
      (items : list (str * str)) (w : world) :
  stdout (spoken_world self audio voice_id w items)
  = stdout w ++ map (fun kv => lit "Generating voice for section: " ++ fst kv)
                    items /\
  dirs (spoken_world self audio voice_id w items) = dirs w.
Proof.
  revert w. induction items as [|[k t] items IH]; intros w;
    cbn [spoken_world map fst].
  - now rewrite app_nil_r.
  - destruct (IH (write_file (print w (lit "Generating voice for section: " ++ k))
                             (voice_path self k)
                             (concat (audio (section_request voice_id t)))))
      as [H1 H2].
    rewrite H1, H2. cbn [stdout dirs write_file print].
    now rewrite <- app_assoc.
Qed.

Lemma spoken_world_untouched (self : VoiceGenerator)
      (audio : request -> list (list N)) (voice_id : option str)
      (items : list (str * str)) (w : world) (p : Path) :
  (forall kv, In kv items -> voice_path self (fst kv) <> p) ->
  read_text (fs (spoken_world self audio voice_id w items)) p
  = read_text (fs w) p.
Proof.
  revert w. induction items as [|[k t] items IH]; intros w H;
    cbn [spoken_world].
  - reflexivity.
  - rewrite IH by (intros kv Hin; apply H; now right).
    cbn [fs write_file print]. apply read_write_other.
    apply (H (k, t)). now left.
Qed.

Lemma spoken_world_files (self : VoiceGenerator)
      (audio : request -> list (list N)) (voice_id : option str)
      (items : list (str * str)) (w : world) :
  NoDup (keys items) ->
  Forall (fun kv =>
            read_text (fs (spoken_world self audio voice_id w items))
                      (voice_path self (fst kv))
            = Some (concat (audio (section_request voice_id (snd kv)))))
         items.
Proof.
  revert w. induction items as [|[k t] items IH]; intros w H;
    cbn [spoken_world].
  - constructor.
  - inversion H as [|? ? Hk Hd]; subst. constructor.
    + cbn [fst snd]. rewrite spoken_world_untouched.
      * cbn [fs write_file print]. apply read_write_text.
      * intros kv Hin E. apply voice_path_inj in E. apply Hk.
        unfold keys. apply in_map_iff. now exists kv.
    + now apply IH.
Qed.


(** [generate_from_script] when the service answers every request. *)
Lemma generate_from_script_ok (self : VoiceGenerator)
      (audio : request -> list (list N)) (w : world)
      (script_sections : dict str) (output_dir : option Path)
      (voice_id : option str) :
  (forall req, client self req = Ok {| chunks := audio req; failure := None |}) ->
  NoDup (keys script_sections) ->
  generate_from_script self w script_sections output_dir voice_id
  = (spoken_world self audio voice_id
       (mkdir w (match output_dir with
                 | Some d => d
                 | None => Voice.output_dir self
                 end))
       (spoken script_sections),
     Ok (map (fun kv => (fst kv, voice_path self (fst kv)))
             (spoken script_sections))).
Proof.
  intros Hok Hnd. unfold generate_from_script.
  rewrite (generate_sections_ok self audio voice_id script_sections Hok).
  rewrite fold_dict_set_fresh; [reflexivity|].
  simpl. now apply spoken_keys_NoDup.
Qed.

Lemma spoken_all (d : dict str) :
  Forall (fun kv => Spec.is_blank (snd kv) = false) d -> spoken d = d.
Proof.
  unfold spoken, Spec.is_blank. induction 1 as [|[k t] d Hk _ IH]; simpl.
  - reflexivity.
  - simpl in Hk. destruct (strip t); [discriminate|]. now rewrite IH.
Qed.

Lemma generate_voice_fails (self : VoiceGenerator) (w : world)
      (text filename : str) (voice_id : option str) :
  service_fails self (section_request voice_id text) ->
  is_raise (snd (generate_voice self w text filename voice_id
                                (lit "eleven_multilingual_v2") 0.5 0.8 0.4))
  = true.
Proof.
  unfold generate_voice. fold (section_request voice_id text).
  intros [(e & ->) | (cs & e & ->)]; reflexivity.
Qed.

Lemma generate_sections_fails (self : VoiceGenerator)
      (before : list (str * str)) (section text : str)
      (after : list (str * str)) (voice_id : option str) :
  strip text <> [] ->
  service_fails self (section_request voice_id text) ->
  forall (w : world) (acc : dict Path),
    generate_sections self w (before ++ (section, text) :: after) voice_id acc
    = generate_sections self w (before ++ [(section, text)]) voice_id acc /\
    is_raise (snd (generate_sections self w (before ++ (section, text) :: after)
                                     voice_id acc)) = true.
Proof.
  intros Ht Hf. induction before as [|[k t] before IH]; intros w acc.
  - cbn [app generate_sections].
    destruct (strip text) as [|c r]; [congruence|].
    pose proof (generate_voice_fails
                  self (print w (lit "Generating voice for section: " ++ section))
                  text (lit "voice_" ++ section ++ lit ".mp3") voice_id Hf) as Hr.
    destruct (generate_voice _ _ _ _ _ _ _ _ _) as [w1 [p | e]];
      [discriminate Hr | now split].
  - cbn [app generate_sections].
    destruct (strip t) as [|c r]; [apply IH|].
    destruct (generate_voice _ _ _ _ _ _ _ _ _) as [w1 [p | e]];
      [apply IH | now split].
Qed.

End VoiceFacts.

(** * Properties of the voice generators *)
Module VoiceExtras.
Import Py PyFacts StoryboardFacts ScriptGenerator ParserFacts ParserMore.
Import VideoGenerator Runtime Voice VoiceSpec ExtraInputs VoiceFacts.

(** X11.  When the service answers every request, [generate_from_script]
    skips the sections whose text is blank and, for every other section in
    order, prints one line, writes the audio to
    [self.output_dir / voice_<section>.mp3] and maps the section to that
    path.  These are the only files written: every other path reads as
    before.  The directory passed as [output_dir] is made, and when it is
    not the generator's own no file of it is written. *)
Theorem generate_from_script_writes_under_own_directory
        (self : VoiceGenerator) (audio : request -> list (list N))
        (w : world) (script_sections : dict str) (output_dir : option Path)
        (voice_id : option str) :
  (forall req, client self req = Ok {| chunks := audio req; failure := None |}) ->
  NoDup (keys script_sections) ->
  exists w',
    generate_from_script self w script_sections output_dir voice_id
    = (w', Ok (map (fun kv => (fst kv, voice_path self (fst kv)))
                   (spoken script_sections))) /\
    Forall (fun kv =>
              read_text (fs w') (voice_path self (fst kv))
              = Some (concat (audio (section_request voice_id (snd kv)))))
           (spoken script_sections) /\
    (forall p : Path,
        (forall kv, In kv (spoken script_sections) ->
                    voice_path self (fst kv) <> p) ->
        read_text (fs w') p = read_text (fs w) p) /\
    (forall (d : Path) (filename : str),
        output_dir = Some d -> d <> Voice.output_dir self ->
        read_text (fs w') (PathDiv d filename)
        = read_text (fs w) (PathDiv d filename)) /\
    stdout w' = stdout w
                ++ map (fun kv => lit "Generating voice for section: " ++ fst kv)
                       (spoken script_sections) /\
    dirs w' = dirs (mkdir w (match output_dir with
                             | Some d => d
                             | None => Voice.output_dir self
                             end)).
Proof.
  intros Hok Hnd. eexists. split; [|split; [|split; [|split; [|split]]]].
  - now apply generate_from_script_ok.
  - apply spoken_world_files. now apply spoken_keys_NoDup.
  - intros p Hp. now rewrite spoken_world_untouched.
  - intros d filename _ Hd. rewrite spoken_world_untouched; [reflexivity|].
    intros kv _ E. unfold voice_path in E. injection E as E _.
    now apply Hd.
  - now rewrite (proj1 (spoken_world_stdout _ _ _ _ _)).
  - now rewrite (proj2 (spoken_world_stdout _ _ _ _ _)).
Qed.

Lemma generate_from_script_witness_two_sections :
  exists w',
    generate_from_script echo_generator empty_world
                         [(lit "hook", lit "Hi"); (lit "intro", lit "  ")]
                         (Some (PathOf (lit "elsewhere"))) None
    = (w', Ok [(lit "hook", PathDiv (PathOf (lit "out")) (lit "voice_hook.mp3"))]) /\
    Forall (fun kv =>
              read_text (fs w') (voice_path echo_generator (fst kv))
              = Some (concat [Voice.text (section_request None (snd kv))]))
           (spoken [(lit "hook", lit "Hi"); (lit "intro", lit "  ")]) /\
    (forall p : Path,
        (forall kv, In kv (spoken [(lit "hook", lit "Hi"); (lit "intro", lit "  ")]) ->
                    voice_path echo_generator (fst kv) <> p) ->
        read_text (fs w') p = read_text (fs empty_world) p) /\
    (forall (d : Path) (filename : str),
        Some (PathOf (lit "elsewhere")) = Some d ->
        d <> Voice.output_dir echo_generator ->
        read_text (fs w') (PathDiv d filename)
        = read_text (fs empty_world) (PathDiv d filename)) /\
    stdout w' = stdout empty_world
                ++ map (fun kv => lit "Generating voice for section: " ++ fst kv)
                       (spoken [(lit "hook", lit "Hi"); (lit "intro", lit "  ")]) /\
    dirs w' = dirs (mkdir empty_world (PathOf (lit "elsewhere"))).
Proof.
  apply (generate_from_script_writes_under_own_directory
           echo_generator (fun req => [Voice.text req]) empty_world
           [(lit "hook", lit "Hi"); (lit "intro", lit "  ")]
           (Some (PathOf (lit "elsewhere"))) None).
  - intros req. reflexivity.
  - apply (NoDup_cons _ (l := [lit "intro"])).
    + intros [H | []]. vm_compute in H. discriminate H.
    + apply NoDup_cons; [intros [] | apply NoDup_nil].
Defined.

(** X12.  No section of a parsed script is skipped by [generate_from_script]:
    when the service answers, every key of the parser's mapping gets its
    audio path, in the same order. *)
Theorem parsed_sections_are_all_spoken
        (self : VoiceGenerator) (audio : request -> list (list N))
        (w : world) (script_text : str) (output_dir : option Path)
        (voice_id : option str) :
  (forall req, client self req = Ok {| chunks := audio req; failure := None |}) ->
  exists w',
    generate_from_script self w (_parse_script_sections script_text)
                         output_dir voice_id
    = (w', Ok (map (fun kv => (fst kv, voice_path self (fst kv)))
                   (_parse_script_sections script_text))).
Proof.
  intros Hok. eexists.
  rewrite (generate_from_script_ok self audio) by
    (assumption || apply parse_keys_NoDup).
  rewrite spoken_all; [reflexivity|].
  eapply Forall_impl; [|apply parse_texts_trimmed]. now intros kv (_ & _ & H).
Qed.

Lemma parsed_sections_witness_hook_cta :
  exists w',
    generate_from_script echo_generator empty_world
      (_parse_script_sections (lit "[HOOK] Look" ++ nl ++ lit "[CTA] Subscribe"))
      None None
    = (w', Ok [(lit "hook", PathDiv (PathOf (lit "out")) (lit "voice_hook.mp3"));
               (lit "cta", PathDiv (PathOf (lit "out")) (lit "voice_cta.mp3"))]).
Proof.
  destruct (parsed_sections_are_all_spoken
              echo_generator (fun req => [Voice.text req]) empty_world
              (lit "[HOOK] Look" ++ nl ++ lit "[CTA] Subscribe") None None
              (fun req => eq_refl)) as [w' H].
  exists w'. rewrite H. vm_compute. reflexivity.
Defined.

(** X13.  A section on which the service fails ends the run: the call
    raises, and the sections after it are neither announced nor sent to the
    service, so the world is the one left by the failing section. *)
Theorem failing_section_ends_the_run
        (self : VoiceGenerator) (w : world) (before : list (str * str))
        (section text : str) (after : list (str * str))
        (output_dir : option Path) (voice_id : option str) :
  strip text <> [] ->
  service_fails self (section_request voice_id text) ->
  generate_from_script self w (before ++ (section, text) :: after)
                       output_dir voice_id
  = generate_from_script self w (before ++ [(section, text)])
                         output_dir voice_id /\
  is_raise (snd (generate_from_script self w
                   (before ++ (section, text) :: after) output_dir voice_id))
  = true.
Proof.
  intros Ht Hf. unfold generate_from_script.
  now apply generate_sections_fails.
Qed.

Lemma failing_section_witness_first :
  generate_from_script failing_generator empty_world
    ([] ++ (lit "hook", lit "Hi") :: [(lit "intro", lit "Hello")]) None None
  = generate_from_script failing_generator empty_world
      ([] ++ [(lit "hook", lit "Hi")]) None None /\
  is_raise (snd (generate_from_script failing_generator empty_world
                   ([] ++ (lit "hook", lit "Hi") :: [(lit "intro", lit "Hello")])
                   None None)) = true.
Proof.
  apply (failing_section_ends_the_run
           failing_generator empty_world [] (lit "hook") (lit "Hi")
           [(lit "intro", lit "Hello")] None None).
  - vm_compute. discriminate.
  - left. eexists. reflexivity.
Defined.

(** X14.  [get_voice_generator] never raises: it builds the real generator
    exactly when a key is at hand (the argument, or else the environment
    variable) and the speech library is there, which is what the real
    constructor asks for; otherwise it announces and builds the mock one. *)
Theorem get_voice_generator_never_raises
        (ElevenLabs : str -> service) (env : environment)
        (w : world) (api_key : option str) :
  exists w' g,
    get_voice_generator ElevenLabs env w api_key = (w', Ok g) /\
    match g with
    | Real r =>
        ELEVENLABS_AVAILABLE env = true /\
        Voice.api_key r <> [] /\
        Voice.api_key r
        = or_else api_key (match getenv_ELEVENLABS_API_KEY env with
                           | Some k => k
                           | None => []
                           end) /\
        stdout w' = stdout w
    | Mock m =>
        (ELEVENLABS_AVAILABLE env = false \/
         or_else api_key (match getenv_ELEVENLABS_API_KEY env with
                          | Some k => k
                          | None => []
                          end) = []) /\
        mock_output_dir m = PathOf (lit "./output") /\
        stdout w' = stdout w ++ [lit "Using MockVoiceGenerator (no API key or elevenlabs not installed)"]
    end.
Proof.
  unfold get_voice_generator.
  set (key := or_else api_key _).
  destruct key as [|c r] eqn:K; cbn [andb].
  - do 2 eexists. split; [reflexivity|]. cbn. repeat split. now right.
  - destruct (ELEVENLABS_AVAILABLE env) eqn:A.
    + unfold init. rewrite A. cbn [negb or_else].
      do 2 eexists. split; [reflexivity|]. cbn. repeat split. discriminate.
    + do 2 eexists. split; [reflexivity|]. cbn. repeat split. now left.
Qed.

(** X15.  The mock generator writes, under its own directory, a text file
    that starts with the placeholder line, goes on with the first 200
    characters of the text at most, and always ends in three dots; it prints
    two lines and returns the path of the file. *)
Theorem mock_voice_holds_first_200_characters
        (path_str : Path -> str) (self : MockVoiceGenerator) (w : world)
        (text output_filename : str) :
  exists body rest,
    text = body ++ rest /\
    length body = Nat.min 200 (length text) /\
    snd (mock_generate_voice path_str self w text output_filename)
    = PathDiv (mock_output_dir self) output_filename /\
    read_text (fs (fst (mock_generate_voice path_str self w text output_filename)))
              (PathDiv (mock_output_dir self) output_filename)
    = Some (lit "[PLACEHOLDER - Would contain audio for:]" ++ nl
            ++ body ++ lit "...") /\
    length (stdout (fst (mock_generate_voice path_str self w text
                                             output_filename)))
    = (length (stdout w) + 2)%nat.
Proof.
  exists (firstn 200 text), (skipn 200 text).
  split; [now rewrite firstn_skipn|].
  split; [apply length_firstn|].
  split; [reflexivity|].
  split.
  - unfold mock_generate_voice. cbn [fst fs print write_file].
    apply read_write_text.
  - unfold mock_generate_voice. cbn [fst stdout print write_file].
    rewrite !length_app. simpl. lia.
Qed.

End VoiceExtras.

(** * Properties of the pipeline *)
Module PipelineFacts.
Import Py PyFacts StoryboardFacts ScriptGenerator ProductScraper.
Import VideoGenerator Runtime Voice VoiceSpec PipelineSpec VoiceFacts Main.

Lemma get_product_data_owala (product_id : str) :
  get_product_data product_id = OWALA_FREESIP_24OZ.
Proof.
  unfold get_product_data, dict_get, products. cbn [dict_lookup].
  now destruct (str_eqb (lit "owala_freesip") product_id).
Qed.

Lemma truthy_false_key (v : option str) :
  truthy v = false ->
  or_else None (match v with Some k => k | None => [] end) = [].
Proof. destruct v as [[|c r]|]; simpl; congruence. Qed.

Lemma get_voice_generator_mock (ElevenLabs : str -> service)
      (env : environment) (w : world) :
  ELEVENLABS_AVAILABLE env = false \/
  truthy (getenv_ELEVENLABS_API_KEY env) = false ->
  get_voice_generator ElevenLabs env w None
  = (mkdir (print w mock_notice) (PathOf (lit "./output")),
     Ok (Mock {| mock_output_dir := PathOf (lit "./output") |})).
Proof.
  intros H. unfold get_voice_generator.
  destruct H as [H | H].
  - rewrite H, andb_false_r.
    cbv beta iota zeta delta [mock_init mock_notice]. reflexivity.
  - rewrite (truthy_false_key _ H).
    cbv beta iota zeta delta [mock_init mock_notice andb]. reflexivity.
Qed.

Lemma get_voice_generator_real (ElevenLabs : str -> service)
      (env : environment) (w : world) (c : N) (r : str) :
  ELEVENLABS_AVAILABLE env = true ->
  getenv_ELEVENLABS_API_KEY env = Some (c :: r) ->
  get_voice_generator ElevenLabs env w None
  = (mkdir w (Runtime.OUTPUT_DIR env),
     Ok (Real {| api_key := c :: r;
                 client := ElevenLabs (c :: r);
                 Voice.output_dir := Runtime.OUTPUT_DIR env |})).
Proof.
  intros A K. unfold get_voice_generator, init. rewrite K, A.
  cbv beta iota zeta delta [or_else andb negb]. reflexivity.
Qed.

(** The steps before the voice-over write no file. *)
Lemma script_step_fs (Anthropic : str -> ScriptService.text_service)
      (format_float : float -> str) (env : environment) (w : world)
      (product : ProductData) (language : str) :
  fs (fst (script_step Anthropic format_float env w product language)) = fs w.
Proof.
  unfold script_step.
  destruct (truthy (getenv_ANTHROPIC_API_KEY env)); [|reflexivity].
  destruct (match ScriptService.init Anthropic env None with
            | Ok g => _ | Raise e => _ end); reflexivity.
Qed.

Lemma voiceover_storyboard_apart (env : environment) (product_id : str) :
  voiceover_path product_id <> storyboard_path env product_id.
Proof.
  unfold voiceover_path, storyboard_path. intros E. injection E as _ E.
  apply app_inv_head in E. vm_compute in E. discriminate E.
Qed.

End PipelineFacts.

Module PipelineExtras.
Import Py PyFacts StoryboardFacts ScriptGenerator ProductScraper.
Import VideoGenerator Runtime Voice VoiceSpec PipelineSpec VoiceFacts Main PipelineFacts.

Section Pipeline.
Variable Anthropic : str -> ScriptService.text_service.
Variable ElevenLabs : str -> service.
Variable path_str : Path -> str.
Variable format_float : float -> str.

(** X16.  With no text key in the environment and no way to the speech
    service, the pipeline succeeds for every product identifier and language
    for which the file system accepts the two files it writes: it returns
    [OUTPUT_DIR / <id>_storyboard.md], which holds the storyboard of the
    pre-collected product with the example script (the same text whatever
    the identifier and the language), and it leaves the placeholder voice
    file [./output/<id>_voiceover.txt]. *)
Theorem pipeline_without_keys
        (env : environment) (w : world) (product_id language : str) :
  truthy (getenv_ANTHROPIC_API_KEY env) = false ->
  ELEVENLABS_AVAILABLE env = false \/
  truthy (getenv_ELEVENLABS_API_KEY env) = false ->
  (forall w0, write_text_error env w0 (voiceover_path product_id)
                (placeholder_text (full_script get_example_script)) = None) ->
  (forall w0, write_text_error env w0 (storyboard_path env product_id)
                (pipeline_storyboard format_float get_example_script) = None) ->
  exists w',
    run_full_pipeline Anthropic ElevenLabs path_str format_float env
                      w product_id language
    = (w', Ok (storyboard_path env product_id)) /\
    read_text (fs w') (storyboard_path env product_id)
    = Some (pipeline_storyboard format_float get_example_script) /\
    read_text (fs w')
              (PathDiv (PathOf (lit "./output"))
                       (product_id ++ lit "_voiceover.txt"))
    = Some (lit "[PLACEHOLDER - Would contain audio for:]" ++ nl
            ++ firstn 200 EXAMPLE_SCRIPT_HEBREW ++ lit "...").
Proof.
  intros HA HE HV HS. unfold run_full_pipeline.
  rewrite get_product_data_owala.
  unfold script_step. rewrite HA.
  unfold voice_step. rewrite get_voice_generator_mock by assumption.
  unfold mock_generate_voice_io. cbn [mock_output_dir].
  fold (voiceover_path product_id). rewrite HV.
  unfold mock_generate_voice, video_step, get_video_generator.
  cbv beta iota zeta. cbn [output_dir].
  fold (storyboard_path env product_id).
  fold (pipeline_storyboard format_float get_example_script).
  rewrite HS. unfold generate_storyboard. cbv beta iota zeta.
  eexists. split; [reflexivity|]. split.
  - cbn [fs print write_file mkdir]. apply read_write_text.
  - cbn [fs print write_file mkdir].
    rewrite read_write_other.
    + apply read_write_text.
    + intros E. symmetry in E. revert E. apply voiceover_storyboard_apart.
Qed.

(** X17.  With the real voice generator in place, a speech service that
    fails on every request makes the pipeline raise before the video step:
    the storyboard file is left as it was. *)
Theorem pipeline_voice_failure_leaves_no_storyboard
        (env : environment) (w : world) (product_id language : str)
        (c : N) (r : str) :
  ELEVENLABS_AVAILABLE env = true ->
  getenv_ELEVENLABS_API_KEY env = Some (c :: r) ->
  (forall req,
      service_fails {| api_key := c :: r;
                       client := ElevenLabs (c :: r);
                       Voice.output_dir := Runtime.OUTPUT_DIR env |} req) ->
  is_raise (snd (run_full_pipeline Anthropic ElevenLabs path_str format_float
                                   env w product_id language)) = true /\
  read_text (fs (fst (run_full_pipeline Anthropic ElevenLabs path_str
                                        format_float env w product_id language)))
            (storyboard_path env product_id)
  = read_text (fs w) (storyboard_path env product_id).
Proof.
  intros A K Hf. unfold run_full_pipeline.
  set (w0 := if truthy (getenv_ELEVENLABS_API_KEY env) then _ else _).
  assert (H0 : fs w0 = fs w).
  { subst w0. destruct (truthy (getenv_ELEVENLABS_API_KEY env));
      destruct (truthy (getenv_ANTHROPIC_API_KEY env)); reflexivity. }
  pose proof (script_step_fs Anthropic format_float env w0
                             (get_product_data product_id) language) as H1.
  destruct (script_step Anthropic format_float env w0
                        (get_product_data product_id) language)
    as [w1 script].
  cbn [fst] in H1. rewrite H0 in H1.
  unfold voice_step.
  rewrite (get_voice_generator_real ElevenLabs env w1 c r A K).
  unfold generate_voice_io, generate_voice. cbn [Voice.output_dir client].
  match goal with
  | |- context [ElevenLabs (c :: r) ?req] =>
      destruct (Hf req) as [(e & E) | (cs & e & E)]; cbn [client] in E;
      rewrite E
  end.
  - cbn [fst snd is_raise fs mkdir]. now rewrite H1.
  - destruct (open_error env _ _) as [e' |].
    + cbn [fst snd is_raise fs mkdir]. now rewrite H1.
    + cbn [fst snd is_raise fs mkdir write_file failure chunks].
      split; [reflexivity|].
      rewrite read_write_other; [now rewrite H1|].
      unfold storyboard_path. intros E'. injection E' as E'.
      apply app_inv_head in E'. vm_compute in E'. discriminate E'.
Qed.


(** X18.  The script step never fails the pipeline: when the text key is in
    the environment but the generator cannot be built (no key among the
    settings) or its service raises, the example script is used and one line
    says why. *)
Theorem script_step_falls_back_to_example
        (env : environment) (w : world) (product : ProductData)
        (language : str) (e : exn) :
  truthy (getenv_ANTHROPIC_API_KEY env) = true ->
  (ANTHROPIC_API_KEY env = [] /\
   e = ValueError (lit "ANTHROPIC_API_KEY is required")) \/
  (ANTHROPIC_API_KEY env <> [] /\
   forall req, Anthropic (ANTHROPIC_API_KEY env) req = Raise e) ->
  script_step Anthropic format_float env w product language
  = (print w (lit "[yellow]Script generation failed: " ++ exn_str e
              ++ lit ". Using example.[/yellow]"),
     get_example_script).
Proof.
  intros HA H. unfold script_step. rewrite HA.
  unfold ScriptService.init. cbn [or_else].
  destruct H as [[K ->] | [K H]].
  - rewrite K. reflexivity.
  - destruct (ANTHROPIC_API_KEY env) as [|c r]; [congruence|].
    unfold ScriptService.generate_script. cbn [ScriptService.client].
    now rewrite H.
Qed.

End Pipeline.

End PipelineExtras.



Module PipelineWitnesses.
Import Py PyFacts ScriptGenerator ProductScraper.
Import VideoGenerator Runtime Voice VoiceSpec PipelineSpec ExtraInputs Main.
Import PipelineFacts PipelineExtras.

Lemma pipeline_witness_no_keys :
  exists w',
    run_full_pipeline text_service_down voice_service_down show_path show_float
                      env_no_keys empty_world (lit "stanley_quencher")
                      (lit "english")
    = (w', Ok (storyboard_path env_no_keys (lit "stanley_quencher"))) /\
    read_text (fs w') (storyboard_path env_no_keys (lit "stanley_quencher"))
    = Some (pipeline_storyboard show_float get_example_script) /\
    read_text (fs w')
              (PathDiv (PathOf (lit "./output"))
                       (lit "stanley_quencher" ++ lit "_voiceover.txt"))
    = Some (lit "[PLACEHOLDER - Would contain audio for:]" ++ nl
            ++ firstn 200 EXAMPLE_SCRIPT_HEBREW ++ lit "...").
Proof.
  apply (pipeline_without_keys
           text_service_down voice_service_down show_path show_float
           env_no_keys empty_world (lit "stanley_quencher") (lit "english")).
  - reflexivity.
  - left. reflexivity.
  - intros w0. reflexivity.
  - intros w0. reflexivity.
Defined.


Lemma pipeline_witness_voice_down :
  is_raise (snd (run_full_pipeline text_service_down voice_service_down
                                   show_path show_float env_voice_key
                                   empty_world (lit "owala_freesip")
                                   (lit "hebrew"))) = true /\
  read_text (fs (fst (run_full_pipeline text_service_down voice_service_down
                                        show_path show_float env_voice_key
                                        empty_world (lit "owala_freesip")
                                        (lit "hebrew"))))
            (storyboard_path env_voice_key (lit "owala_freesip"))
  = read_text (fs empty_world)
              (storyboard_path env_voice_key (lit "owala_freesip")).
Proof.
  apply (pipeline_voice_failure_leaves_no_storyboard
           text_service_down voice_service_down show_path show_float
           env_voice_key empty_world (lit "owala_freesip") (lit "hebrew")
           115%N (lit "k-voice")).
  - reflexivity.
  - vm_compute. reflexivity.
  - intros req. left. eexists. reflexivity.
Defined.

Lemma script_step_witness_no_settings_key :
  script_step text_service_down show_float env_voice_key empty_world
              OWALA_FREESIP_24OZ (lit "hebrew")
  = (print empty_world
           (lit "[yellow]Script generation failed: "
            ++ exn_str (ValueError (lit "ANTHROPIC_API_KEY is required"))
            ++ lit ". Using example.[/yellow]"),
     get_example_script).
Proof.
  apply (script_step_falls_back_to_example
           text_service_down show_float env_voice_key empty_world
           OWALA_FREESIP_24OZ (lit "hebrew")
           (ValueError (lit "ANTHROPIC_API_KEY is required"))).
  - reflexivity.
  - left. split; reflexivity.
Defined.

End PipelineWitnesses.

(** * Properties of the product text *)
Module ProductFormatExtras.
Import Py PyFormat PyFacts StoryboardFacts Spec ProductScraper ProductFormat.

Lemma join_holds_item (sep x : str) (l : list str) :
  In x l -> exists before rest, join sep l = before ++ x ++ rest.
Proof.
  induction l as [|y l IH]; intros H; [destruct H|].
  destruct H as [-> | H].
  - destruct l as [|z l].
    + exists [], []. simpl. now rewrite app_nil_r.
    + exists [], (sep ++ join sep (z :: l)). now rewrite join_cons2.
  - destruct (IH H) as (b & r & E). destruct l as [|z l]; [destruct H|].
    rewrite join_cons2, E. exists (y ++ sep ++ b), r.
    now rewrite <- !app_assoc.
Qed.

Lemma occurs_in_join (sep part : str) (l : list str) (x : str) :
  In x l -> occur_in_order [part] x -> occur_in_order [part] (join sep l).
Proof.
  intros Hin (b & r & -> & _).
  destruct (join_holds_item sep _ l Hin) as (b' & r' & E).
  exists (b' ++ b), (r ++ r'). split; [|exact I].
  rewrite E. now rewrite <- !app_assoc.
Qed.

Lemma occurs_self (x : str) : occur_in_order [x] x.
Proof. exists [], []. split; [|exact I]. simpl. now rewrite app_nil_r. Qed.

(** X19.  The text made for the prompt leaves nothing of the lists out:
    every feature, every pro and every con of the product stands in it
    behind its bullet, however many there are. *)
Theorem format_product_lists_every_item
        (format_float : float -> str) (product : ProductData) :
  Forall (fun f => occur_in_order [lit "• " ++ f]
                     (format_product_for_script format_float product))
         (features product) /\
  Forall (fun p => occur_in_order [lit "✓ " ++ p]
                     (format_product_for_script format_float product))
         (pros product) /\
  Forall (fun c => occur_in_order [lit "✗ " ++ c]
                     (format_product_for_script format_float product))
         (cons product).
Proof.
  unfold format_product_for_script.
  split; [|split]; apply Forall_forall; intros x Hx;
    (eapply occurs_in_join; [|eapply occurs_in_join; [|apply occurs_self]]).
  - do 10 right. left. reflexivity.
  - apply in_map_iff. now exists x.
  - do 13 right. left. reflexivity.
  - apply in_map_iff. now exists x.
  - do 16 right. left. reflexivity.
  - apply in_map_iff. now exists x.
Qed.

End ProductFormatExtras.
